(** * pynavio: the packaging helpers and the model validator

    A shallow embedding of [pynavio/_mlflow.py] and [pynavio/utils/common.py].

    Python values are the JSON-like fragment the functions handle; a [dict]
    is an insertion-ordered association list with string keys; the file
    system maps a path to the document stored there (YAML and JSON files are
    kept in parsed form); [print] appends a line to the console.  Calls into
    mlflow, pandas, jsonschema and the operating system are operations of an
    environment record. *)

From Stdlib Require Import ZArith Ascii String List Lia Bool.
From stdpp Require Import base option gmap strings list fin_maps pretty.

Set Warnings "-register-all".
Local Open Scope string_scope.
Local Open Scope Z_scope.

(** ** Python values *)

Inductive pyval : Type :=
| PNone
| PBool (b : bool)
| PInt (n : Z)
| PFloat (mantissa exponent : Z)   (* mantissa * 10 ^ exponent *)
| PStr (s : string)
| PList (l : list pyval)
| PDict (d : list (string * pyval)).

Abbreviation pydict := (list (string * pyval)).

(** [bool(v)] *)
Definition truthy (v : pyval) : bool :=
  match v with
  | PNone => false
  | PBool b => b
  | PInt n => negb (n =? 0)
  | PFloat m _ => negb (m =? 0)
  | PStr s => negb (String.eqb s "")
  | PList l => match l with [] => false | _ => true end
  | PDict d => match d with [] => false | _ => true end
  end.

(** [d.get(k)] *)
Fixpoint dict_get (k : string) (d : pydict) : option pyval :=
  match d with
  | [] => None
  | (k', v) :: d' => if String.eqb k k' then Some v else dict_get k d'
  end.

(** [k in d] *)
Definition dict_contains (k : string) (d : pydict) : bool :=
  match dict_get k d with Some _ => true | None => false end.

(** [d[k] = v]: an existing key keeps its position, a new one goes last. *)
Fixpoint dict_set (k : string) (v : pyval) (d : pydict) : pydict :=
  match d with
  | [] => [(k, v)]
  | (k', v') :: d' =>
      if String.eqb k k' then (k, v) :: d' else (k', v') :: dict_set k v d'
  end.

(** [d.keys()] and [set(d.keys())] *)
Definition dict_keys (d : pydict) : list string := map fst d.
Definition key_set (d : pydict) : gset string := list_to_set (dict_keys d).

(** ** Exceptions *)

Inductive exn_class : Type :=
| AssertionError
| ValidationError          (* jsonschema.exceptions.ValidationError *)
| KeyError
| TypeError
| AttributeError
| FileNotFoundError
| KeyboardInterrupt
| SystemExit
| GeneratorExit
| OtherException (name : string)        (* any other subclass of Exception *)
| OtherBaseException (name : string).   (* derived from BaseException only *)

(** [exc.__class__.__name__] *)
Definition class_name (c : exn_class) : string :=
  match c with
  | AssertionError => "AssertionError"
  | ValidationError => "ValidationError"
  | KeyError => "KeyError"
  | TypeError => "TypeError"
  | AttributeError => "AttributeError"
  | FileNotFoundError => "FileNotFoundError"
  | KeyboardInterrupt => "KeyboardInterrupt"
  | SystemExit => "SystemExit"
  | GeneratorExit => "GeneratorExit"
  | OtherException n => n
  | OtherBaseException n => n
  end.

(** [isinstance(exc, Exception)]: what [except Exception] catches. *)
Definition is_Exception (c : exn_class) : bool :=
  match c with
  | KeyboardInterrupt | SystemExit | GeneratorExit | OtherBaseException _ => false
  | _ => true
  end.

#[global] Instance exn_class_eq_dec : EqDecision exn_class.
Proof. solve_decision. Defined.

(** An exception object: its class and [str(exc)]. *)
Record exn : Type := Exc { exc_class : exn_class; exc_str : string }.

Inductive outcome (A : Type) : Type :=
| Ok (a : A)
| Raise (e : exn).
Arguments Ok {A} a.
Arguments Raise {A} e.

(** ** The world: files and console *)

Record world : Type := World {
  files : gmap string pyval;    (* path -> stored document *)
  creatable : string -> bool;   (* may [open(path, 'w')] create the file? *)
  stdout : list string;         (* printed lines, oldest first *)
  logged : list string          (* records handed to [logging] *)
}.

Definition M (A : Type) : Type := world -> outcome A * world.

Definition ret {A} (a : A) : M A := fun w => (Ok a, w).
Definition bind {A B} (m : M A) (k : A -> M B) : M B :=
  fun w => match m w with
           | (Ok a, w') => k a w'
           | (Raise e, w') => (Raise e, w')
           end.
Definition raise {A} (e : exn) : M A := fun w => (Raise e, w).

(** [let! x := m in k] runs [m] and, unless it raised, [k] on its result;
    [m ;; k] is stdpp's notation for the same with the result dropped. *)
#[global] Instance M_ret : MRet M := @ret.
#[global] Instance M_bind : MBind M := fun A B k m => bind m k.

Notation "'let!' x ':=' m 'in' k" := (bind m (fun x => k))
  (at level 10, x name, m at level 100, k at level 200).

(** [assert cond, msg] *)
Definition assert_ (cond : bool) (msg : string) : M unit :=
  if cond then ret tt else raise (Exc AssertionError msg).

Definition print (line : string) : M unit :=
  fun w => (Ok tt, World (files w) (creatable w) (stdout w ++ [line]) (logged w)).

(** [logger.exception(msg)] *)
Definition logger_exception (msg : string) : M unit :=
  fun w => (Ok tt, World (files w) (creatable w) (stdout w) (logged w ++ [msg])).

(** [open(path, 'r')] followed by [yaml.safe_load] or [json.load] *)
Definition read_file (path : string) : M pyval :=
  fun w => match files w !! path with
           | Some doc => (Ok doc, w)
           | None => (Raise (Exc FileNotFoundError path), w)
           end.

(** [open(path, 'w')] followed by [yaml.dump] or [json.dump] *)
Definition write_file (path : string) (doc : pyval) : M unit :=
  fun w => if bool_decide (is_Some (files w !! path)) || creatable w path
           then (Ok tt, World (<[path := doc]> (files w)) (creatable w)
                              (stdout w) (logged w))
           else (Raise (Exc FileNotFoundError path), w).

(** [Path(path).exists()] *)
Definition path_exists (path : string) : M bool :=
  fun w => (Ok (bool_decide (is_Some (files w !! path))), w).

(** [try: body except classes: handler(exc)] *)
Definition try_except {A} (body : M A) (catches : exn_class -> bool)
    (handler : exn -> M A) : M A :=
  fun w => match body w with
           | (Ok a, w') => (Ok a, w')
           | (Raise e, w') =>
               if catches (exc_class e) then handler e w' else (Raise e, w')
           end.

(** ** JSON schema (the fragment the prediction schema is written in) *)

Inductive json_type : Type :=
| TArray | TBoolean | TNumber | TString | TObject | TNull.

(** jsonschema's type checker: a Python [bool] is not a number. *)
Definition has_type (t : json_type) (v : pyval) : bool :=
  match t, v with
  | TArray, PList _ => true
  | TBoolean, PBool _ => true
  | TNumber, PInt _ => true
  | TNumber, PFloat _ _ => true
  | TString, PStr _ => true
  | TObject, PDict _ => true
  | TNull, PNone => true
  | _, _ => false
  end.

Inductive jschema : Type :=
| SType (t : json_type)
| SItems (s : jschema)
| SMinItems (n : nat)
| SAnyOf (alts : list jschema)
| SAllOf (parts : list jschema)    (* the keywords of one schema object *)
| SProperties (props : list (string * jschema))
| SRequired (keys : list string).

Fixpoint validates (s : jschema) (v : pyval) : bool :=
  match s with
  | SType t => has_type t v
  | SItems s' =>
      match v with PList l => forallb (validates s') l | _ => true end
  | SMinItems n =>
      match v with PList l => (n <=? List.length l)%nat | _ => true end
  | SAnyOf alts => existsb (fun s' => validates s' v) alts
  | SAllOf parts => forallb (fun s' => validates s' v) parts
  | SProperties props =>
      match v with
      | PDict d =>
          forallb (fun p => match dict_get (fst p) d with
                            | Some x => validates (snd p) x
                            | None => true
                            end) props
      | _ => true
      end
  | SRequired keys =>
      match v with
      | PDict d => forallb (fun k => dict_contains k d) keys
      | _ => true
      end
  end.

(** ** pynavio/_mlflow.py *)

Definition MODEL_SIZE_LIMIT_IN_BYTES : Z := 1000000000.
Definition EXAMPLE_REQUEST : string := "example_request".
Definition ARTIFACTS : string := "artifacts".
Definition ERROR_KEYS : gset string :=
  {[ "error_code"; "message"; "stack_trace" ]}.
Definition PREDICTION_KEY : string := "prediction".
Definition pynavio_model_validation : string := "(pynavio model validation)".

Definition METADATA : string := "metadata".
Definition OOD_DETECTION : string := "oodDetection".
Definition MLMODEL : string := "MLmodel".
Definition REQUEST_SCHEMA : string := "request_schema".
Definition DATASET : string := "dataset".
Definition EXPLANATIONS : string := "explanations".

(** [Path(a) / b] *)
Definition path_join (a b : string) : string :=
  match b with
  | String "/"%char _ => b
  | _ => a ++ "/" ++ b
  end.

(** [Path(a) / v] for a value read from a document: a [str] is required. *)
Definition path_join_val (a : string) (v : pyval) : M string :=
  match v with
  | PStr b => mret (path_join a b)
  | _ => raise (Exc TypeError "unsupported operand type(s) for /")
  end.

(** [v.get(k, default)]: only a [dict] has the method. *)
Definition py_get (v : pyval) (k : string) (default : pyval) : M pyval :=
  match v with
  | PDict d => mret (match dict_get k d with Some x => x | None => default end)
  | _ => raise (Exc AttributeError "object has no attribute 'get'")
  end.

(** [s.split('.')] *)
Fixpoint split_dot_aux (acc : string) (s : string) : list string :=
  match s with
  | EmptyString => [acc]
  | String c s' =>
      if Ascii.eqb c "."%char then acc :: split_dot_aux "" s'
      else split_dot_aux (acc ++ String c "") s'
  end.
Definition split_dot (s : string) : list string := split_dot_aux "" s.

(** [v == s] for a string literal [s] *)
Definition eq_str (v : pyval) (s : string) : bool :=
  match v with PStr s' => String.eqb s' s | _ => false end.

Fixpoint is_substring (p s : string) : bool :=
  String.prefix p s ||
  match s with
  | EmptyString => false
  | String _ s' => is_substring p s'
  end.

(** [k in v]: key lookup in a [dict], substring test on a [str], membership
    in a [list]; other values are not iterable. *)
Definition py_in (k : string) (v : pyval) : M bool :=
  match v with
  | PDict d => mret (dict_contains k d)
  | PStr s => mret (is_substring k s)
  | PList l => mret (existsb (fun x => eq_str x k) l)
  | _ => raise (Exc TypeError "argument is not iterable")
  end.

Definition _is_ood_set_to_default_in_metadata (metadata : pyval) : M bool :=
  let! v := py_get metadata OOD_DETECTION (PStr "") in
  mret (eq_str v "default").

Definition _is_explanation_set_to_default_in_metadata (metadata : pyval)
    : M bool :=
  let! v := py_get metadata EXPLANATIONS (PStr "") in
  mret (eq_str v "default").

Definition _is_data_provided_in_metadata (metadata : pyval) : M bool :=
  py_in DATASET metadata.

(** [a and b], [a or b] on checks that may raise: the right operand is
    evaluated only when needed. *)
Definition and_then (a b : M bool) : M bool :=
  let! x := a in if x then b else mret false.
Definition or_else (a b : M bool) : M bool :=
  let! x := a in if x then mret true else b.

Definition _is_default_ood_enabled_in_metadata (metadata : pyval) : M bool :=
  and_then (_is_ood_set_to_default_in_metadata metadata)
           (_is_data_provided_in_metadata metadata).

Definition _is_default_explanation_enabled_in_metadata (metadata : pyval)
    : M bool :=
  and_then (_is_explanation_set_to_default_in_metadata metadata)
           (_is_data_provided_in_metadata metadata).

(** The loop of [_get_field]: [None] as soon as a non-dict is met. *)
Fixpoint _get_field_loop (value : pyval) (keys : list string) : pyval :=
  match keys with
  | [] => value
  | key :: keys' =>
      match value with
      | PDict d =>
          _get_field_loop
            (match dict_get key d with Some x => x | None => PNone end) keys'
      | _ => PNone
      end
  end.

Definition _get_field (yml : pyval) (path : string) : M pyval :=
  let keys := split_dot path in
  assert_ (match keys with [] => false | _ => true end)
          "Path must not be empty";;
  let! value := py_get yml (hd "" keys) PNone in
  mret (_get_field_loop value (tl keys)).

(** *** register_example_request *)

(** [artifacts or {}] *)
Definition artifacts_or_empty (artifacts : option (gmap string string))
    : gmap string string :=
  match artifacts with
  | Some a => a
  | None => ∅
  end.

(** [v is not None] *)
Definition is_not_None (v : pyval) : bool :=
  match v with PNone => false | _ => true end.

(** [example_request] and [artifacts] default to [None].  The dict display
    [{EXAMPLE_REQUEST: tmp, **(artifacts or {})}] lets an entry of
    [artifacts] override the temporary path; [json.dump] stores the request
    in the file opened for writing. *)
Definition register_example_request (tmp_dir : string)
    (example_request : pyval)
    (artifacts : option (gmap string string)) : M (gmap string string) :=
  assert_ (is_not_None example_request || bool_decide (is_Some artifacts))
          ("either " ++ EXAMPLE_REQUEST ++ " or " ++ ARTIFACTS
           ++ " need to be set");;
  if truthy example_request then
    let artifacts' : gmap string string :=
      artifacts_or_empty artifacts
      ∪ {[ EXAMPLE_REQUEST := tmp_dir ++ "/" ++ EXAMPLE_REQUEST ++ ".json" ]} in
    write_file (default "" (artifacts' !! EXAMPLE_REQUEST)) example_request;;
    mret artifacts'
  else
    match artifacts with
    | None =>
        (* [EXAMPLE_REQUEST in None] *)
        raise (Exc TypeError "argument of type 'NoneType' is not iterable")
    | Some a =>
        assert_ (bool_decide (is_Some (a !! EXAMPLE_REQUEST)))
                ("if " ++ EXAMPLE_REQUEST ++ " argument is not set,"
                 ++ " it needs to be present in " ++ ARTIFACTS);;
        let! found := path_exists (default "" (a !! EXAMPLE_REQUEST)) in
        assert_ found "";;
        mret a
    end.

(** *** _add_metadata *)

(** [value in ['disabled', 'default', 'plotly']] and the like *)
Definition str_in (value : string) (accepted : list string) : bool :=
  existsb (String.eqb value) accepted.

(** [value or 'default'] for an [Optional[str]] *)
Definition or_default (value : option string) : string :=
  match value with
  | Some s => if String.eqb s "" then "default" else s
  | None => "default"
  end.

(** [cfg.update(metadata=...)]: only a [dict] has the method. *)
Definition py_update (v : pyval) (k : string) (x : pyval) : M pyval :=
  match v with
  | PDict d => mret (PDict (dict_set k x d))
  | _ => raise (Exc AttributeError "object has no attribute 'update'")
  end.

(** The descriptor is patched through [cfg['metadata']], which the function
    has just set to a fresh dict; [metadata] below is that dict.  [dataset]
    is shared with the caller, so the function returns it as it is left:
    with its [path] entry overwritten. *)
Definition _add_metadata (model_path : string)
    (dataset : option pydict) (explanations oodd : option string)
    (num_gpus : option Z) : M (option pydict) :=
  let path := path_join model_path "MLmodel" in
  let! cfg := read_file path in
  let example_request_path_yml :=
    "flavors.python_function.artifacts." ++ "example_request.path" in
  let! request_path := _get_field cfg example_request_path_yml in
  let metadata : pydict :=
    [("request_schema", PDict [("path", request_path)])] in
  let! cfg := py_update cfg "metadata" (PDict metadata) in
  let! md_ds :=
    match dataset with
    | Some ds =>
        let dataset_path_yml :=
          "flavors.python_function.artifacts.dataset.path" in
        let! dataset_path := _get_field cfg dataset_path_yml in
        let ds' := dict_set "path" dataset_path ds in
        mret (dict_set "dataset" (PDict ds') metadata, Some ds')
    | None => mret (metadata, None)
    end in
  let explanations := or_default explanations in
  let accepted_values := ["disabled"; "default"; "plotly"] in
  assert_ (str_in explanations accepted_values)
          "explanations config must be one of ['disabled', 'default', 'plotly']";;
  let metadata := dict_set "explanations" (PStr explanations) (fst md_ds) in
  let oodd := or_default oodd in
  let accepted_values := ["disabled"; "default"] in
  assert_ (str_in oodd accepted_values)
          "oodd config must be one of ['disabled', 'default']";;
  let metadata := dict_set "oodDetection" (PStr oodd) metadata in
  let! gpus :=
    match num_gpus with
    | Some n => mret n
    | None => raise (Exc TypeError "'>=' not supported between instances of 'NoneType' and 'int'")
    end in
  assert_ (0 <=? gpus) "num_gpus cannot be negative";;
  let metadata :=
    if 0 <? gpus then dict_set "gpus" (PInt gpus) metadata else metadata in
  let! cfg := py_update cfg "metadata" (PDict metadata) in
  write_file path cfg;;
  mret (snd md_ds).

(** *** The environment of the validator *)

(** A schema constant enters the code only through [jsonschema.validate]:
    it is given by the documents it accepts. *)
Definition schema : Type := pyval -> bool.

(** A function object, as far as [getattr] looks at it. *)
Record function_obj : Type := {
  wrapped_by_prediction_call_attr : option pyval
    (* the attribute [__wrapped_by_prediction_call__], when set *)
}.

(** What [mlflow.pyfunc.load_model] returns. *)
Record PyFuncModel : Type := {
  python_model_predict : option function_obj;
    (* [model._model_impl.python_model.predict]; [None] when one of the
       attribute lookups raises [AttributeError] *)
  predict : pyval -> outcome pyval
    (* [model.predict(model_input)] *)
}.

Record env : Type := {
  METADATA_SCHEMA : schema;
  PREDICTION_SCHEMA : schema;
  REQUEST_SCHEMA_SCHEMA : schema;
  not_nested_request_schema : schema;
  validation_message : pyval -> string;
    (* the text jsonschema puts in its [ValidationError] *)
  load_model : string -> outcome PyFuncModel;
  _get_example_request_df : string -> outcome pyval;
    (* the pandas frame built from the example request of the model *)
  st_size : string -> outcome Z;
    (* [Path(p).stat().st_size] *)
  repr_ERROR_KEYS : string
    (* [f"{ERROR_KEYS}"]: the elements in the order the set iterates *)
}.

(** An operation of the environment, run inside [M]. *)
Definition lift {A} (o : outcome A) : M A := fun w => (o, w).

(** [except c:] catches the exceptions of class [c]. *)
Definition is_class (c : exn_class) (c' : exn_class) : bool :=
  bool_decide (c' = c).

Section Validator.
Context (E : env).

(** [jsonschema.validate(data, schema)] *)
Definition jsonschema_validate (data : pyval) (s : schema) : M unit :=
  if s data then mret tt
  else raise (Exc ValidationError (validation_message E data)).

Definition _read_mlmodel_yaml (model_path : string) : M pyval :=
  read_file (path_join model_path "MLmodel").

Definition _read_example_request (model_path : string) (config : pyval)
    : M pyval :=
  let! field := _get_field config "metadata.request_schema.path" in
  let! schema_path := path_join_val model_path field in
  read_file schema_path.

Definition _validate_schema (data : pyval) (s : schema) (name : string)
    (raise_exception : bool) : M bool :=
  try_except
    (jsonschema_validate data s;; mret true)
    (is_class ValidationError)
    (fun exc =>
       if raise_exception then
         print ("Error: " ++ pynavio_model_validation ++ " "
                ++ "Error during " ++ name ++ " validation");;
         raise exc
       else mret false).

Definition is_input_nested (example_request : pyval)
    (not_nested_schema : schema) : M bool :=
  let! is_not_nested :=
    _validate_schema example_request not_nested_schema "" false in
  mret (negb is_not_nested).

Definition _is_wrapped_by_prediction_call (func : function_obj) : pyval :=
  match wrapped_by_prediction_call_attr func with
  | Some v => v
  | None => PBool false
  end.

Definition _is_model_predict_wrapped_by_prediction_call
    (model : PyFuncModel) : M pyval :=
  match python_model_predict model with
  | Some func => mret (_is_wrapped_by_prediction_call func)
  | None => raise (Exc AttributeError "")
  end.

Definition validate_metadata (model_path : string) : M unit :=
  let! config := _read_mlmodel_yaml model_path in
  let! metadata := py_get config "metadata" PNone in
  _validate_schema metadata (METADATA_SCHEMA E) "MLmodel" true;;
  let! example_request := _read_example_request model_path config in
  _validate_schema example_request (REQUEST_SCHEMA_SCHEMA E)
                   "example request" true;;
  let! nested :=
    is_input_nested example_request (not_nested_request_schema E) in
  if nested then
    print ("Warning: {pynavio_model_validation} the nested"
           ++ " model input is not supported"
           ++ " by frontend rendering, it will only be possible"
           ++ " to see the example request as plain json in the"
           ++ " try-out or deployment views. Consider using"
           ++ " string representation of nested example in the"
           ++ " example request json.");;
    let! unsupported :=
      or_else (_is_default_ood_enabled_in_metadata metadata)
              (_is_default_explanation_enabled_in_metadata metadata) in
    if unsupported then
      print ("Warning: {pynavio_model_validation} default"
             ++ " ood and explanations"
             ++ " are not supported for nested model inputs.")
    else mret tt
  else mret tt.

Definition run_model_io (model_path : string) (model_input : option pyval)
    : M (pyval * pyval) :=
  let! model := lift (load_model E model_path) in
  let! model_input :=
    match model_input with
    | None => lift (_get_example_request_df E model_path)
    | Some df => mret df
    end in
  let! model_output := lift (predict model model_input) in
  mret (model_input, model_output).

(** The warning of [_check_if_prediction_call_is_used]. *)
Definition prediction_call_warning : string :=
  "Warning: " ++ pynavio_model_validation ++ " Please use"
  ++ " pynavio.prediction_call to decorate"
  ++ " the predict method of the model, which will add the"
  ++ " needed error keys(" ++ repr_ERROR_KEYS E ++ ") for error"
  ++ " case to see descriptive"
  ++ " errors from navio for ease of debugging.".

Definition _check_if_prediction_call_is_used (model_path : string)
    : M unit :=
  let! model := lift (load_model E model_path) in
  let! used :=
    try_except
      (_is_model_predict_wrapped_by_prediction_call model)
      (is_class AttributeError)
      (fun _ => mret (PBool true)) in
  if negb (truthy used) then print prediction_call_warning
  else mret tt.

(** The warning of [check_zip_size]. *)
Definition zip_size_warning (model_size_in_bytes : Z) : string :=
  "Warning: " ++ pynavio_model_validation ++ " "
  ++ "the default model.zip size limit is"
  ++ " " ++ pretty model_size_in_bytes ++ " bytes. Please reduce the"
  ++ " size or contact craftworks support team to"
  ++ " increase the default size".

Definition check_zip_size (model_zip : string) (model_size_in_bytes : Z)
    : M unit :=
  let! size := lift (st_size E model_zip) in
  if model_size_in_bytes <? size then
    print (zip_size_warning model_size_in_bytes)
  else mret tt.

(** The line [_validate_prediction_schema] prints before it re-raises. *)
Definition prediction_schema_error : string :=
  "ERROR: " ++ pynavio_model_validation ++ " The value of "
  ++ "model_output['" ++ PREDICTION_KEY ++ "']"
  ++ " must be one of the following types "
  ++ "(cannot be nested or mixed type): "
  ++ "'array','boolean', 'integer', 'number', 'string'".

Definition _validate_prediction_schema (model_prediction : pyval) : M unit :=
  try_except
    (jsonschema_validate model_prediction (PREDICTION_SCHEMA E))
    (is_class ValidationError)
    (fun exc => print prediction_schema_error;; raise exc).

(** The message of the second assertion of [verify_model_output]. *)
Definition model_output_keys_message : string :=
  ("ERROR: " ++ pynavio_model_validation
   ++ "The model output has to contain '" ++ PREDICTION_KEY ++ "'"
   ++ " for prediction"
   ++ " as key for the target, independent of"
   ++ " the target name in the example request"
   ++ ". There can be other keys, "
   ++ " that will be listed under "
   ++ " 'additionalFields' in the response of the model "
   ++ "deployed to navio"
   ++ " example model output: {'prediction': "
   ++ "[1.] * model_input.shape[0],"
   ++ " 'extra': { 'this': 'can be any JSON serializable"
   ++ " structure',} }"
   ++ " in the response of the model deployed"
   ++ " to navio."
   ++ " Or The model output has to contain the following"
   ++ " keys [" ++ repr_ERROR_KEYS E ++ "] if error occurs."
   ++ "Please use pynavio.prediction_call to decorate "
   ++ "the predict method of the model, which will add the "
   ++ "needed error keys for error case").

Definition verify_model_output (model_output : pyval) : M unit :=
  assert_ (match model_output with PDict _ => true | _ => false end)
          ("Model " ++ "ERROR: " ++ pynavio_model_validation
           ++ " output has to be a dictionary");;
  match model_output with
  | PDict d =>
      if dict_contains PREDICTION_KEY d then
        _validate_prediction_schema model_output
      else
        assert_ (bool_decide (key_set d = ERROR_KEYS))
                model_output_keys_message
  | _ => mret tt
  end.

Definition _run (model_path model_zip : string) (model_zip_size_limit : Z)
    : M unit :=
  validate_metadata model_path;;
  let! io := run_model_io model_path None in
  _check_if_prediction_call_is_used model_path;;
  verify_model_output (snd io);;
  check_zip_size model_zip model_zip_size_limit.

(** [kwargs.get(key, "")] *)
Definition kwargs_get (kwargs : gmap string string) (key : string) : string :=
  default "" (kwargs !! key).

Definition failed_message (kwargs : gmap string string) : string :=
  pynavio_model_validation ++ ": Validation failed. Please fix"
  ++ " the identified issues before uploading the model."
  ++ kwargs_get kwargs "append_to_failed_msg".

Definition succeeded_message (kwargs : gmap string string) : string :=
  pynavio_model_validation ++ ": Validation succeeded."
  ++ kwargs_get kwargs "append_to_succeeded_msg".

(** [ModelValidator.__call__] *)
Definition __call__ (model_path model_zip : string) (model_zip_size_limit : Z)
    (kwargs : gmap string string) : M unit :=
  try_except
    (_run model_path model_zip model_zip_size_limit)
    (fun c => is_class ValidationError c || is_class AssertionError c)
    (fun exc => print (failed_message kwargs);; raise exc);;
  print (succeeded_message kwargs).

End Validator.

(** ** pynavio/utils/common.py *)

(** [type_names[type(v)]] for [{int: 'float', float: 'float', str: 'string'}];
    [type(True)] is [bool], which is not a key. *)
Definition type_names (v : pyval) : outcome string :=
  match v with
  | PInt _ => Ok "float"
  | PFloat _ _ => Ok "float"
  | PStr _ => Ok "string"
  | _ => Raise (Exc KeyError "type")
  end.

Definition obind {A B} (o : outcome A) (k : A -> outcome B) : outcome B :=
  match o with
  | Ok a => k a
  | Raise e => Raise e
  end.

Notation "'let?' x ':=' m 'in' k" := (obind m (fun x => k))
  (at level 10, x name, m at level 100, k at level 200).

(** [row[name]] *)
Definition subscript (row : pydict) (name : string) : outcome pyval :=
  match dict_get name row with
  | Some v => Ok v
  | None => Raise (Exc KeyError name)
  end.

(** [assert cond, msg] where nothing else is done *)
Definition oassert (cond : bool) (msg : string) : outcome unit :=
  if cond then Ok tt else Raise (Exc AssertionError msg).

Definition _column_spec (row : pydict) (name : string) (_type : option string)
    : outcome pyval :=
  let? sample := subscript row name in
  let? type :=
    match _type with
    | Some t => if String.eqb t "" then type_names sample else Ok t
    | None => type_names sample
    end in
  Ok (PDict [("name", PStr name); ("sampleData", sample);
             ("type", PStr type); ("nullable", PBool false)]).

(** [[f(x) for x in xs]], stopping at the first exception *)
Fixpoint omap {A B} (f : A -> outcome B) (xs : list A) : outcome (list B) :=
  match xs with
  | [] => Ok []
  | x :: xs' =>
      let? y := f x in
      let? ys := omap f xs' in
      Ok (y :: ys)
  end.

Definition make_example_request (row : pydict) (target : string)
    (datetime_column : option string) (min_rows : option Z) : outcome pyval :=
  let? _ := oassert (negb (bool_decide (Some target = datetime_column)))
              "Target column name must not be equal to that of datetime column" in
  let? features :=
    omap (fun name => _column_spec row name None)
         (List.filter
            (fun name => negb (String.eqb name target)
                         && negb (bool_decide (Some name = datetime_column)))
            (dict_keys row)) in
  let? target_spec := _column_spec row target None in
  let example : pydict :=
    [("featureColumns", PList features);
     ("targetColumns", PList [target_spec])] in
  match datetime_column with
  | None => Ok (PDict example)
  | Some dt =>
      let? dt_spec := _column_spec row dt (Some "timestamp") in
      let example := dict_set "dateTimeColumn" dt_spec example in
      match min_rows with
      | None => Ok (PDict example)
      | Some n =>
          let? _ := oassert (0 <? n)
                      ("Expected min_rows > 0, got min_rows = " ++ pretty n) in
          let example := dict_set "minimumNumberRows" (PInt n) example in
          Ok (PDict example)
      end
  end.

Section PredictionCall.
Context {A : Type}.
Context (format_exc : exn -> string).   (* [traceback.format_exc()] *)

(** [prediction_call(predict_fn)] is the [wrapper] it returns. *)
Definition prediction_call (predict_fn : A -> M pyval) : A -> M pyval :=
  fun args =>
    try_except
      (predict_fn args)
      is_Exception
      (fun exc =>
         logger_exception "Prediction call failed";;
         mret (PDict [("error_code", PStr (class_name (exc_class exc)));
                      ("message", PStr (exc_str exc));
                      ("stack_trace", PStr (format_exc exc))])).
End PredictionCall.

(** ** The prediction schema *)

(** [{"type": "array", "items": {"type": t}, "minItems": 1}] *)
Definition array_of (t : json_type) : jschema :=
  SAllOf [SType TArray; SItems (SType t); SMinItems 1].

(** Modelled from the spec: [PREDICTION_SCHEMA] of [pynavio/utils/schemas.py],
    a module that is not among the sources.  The spec constrains the value
    under [prediction] to "flat arrays of one scalar type", the scalar types
    being number, string and boolean.  Its further alternative, "a bare
    scalar", is not taken over: [test_prediction_schema_check_negative]
    requires a [ValidationError] for [5], [5.0] and ["test"], and for the
    empty array as well; [test_prediction_schema_check_positive] requires
    further keys next to [prediction] to be accepted. *)
Definition PREDICTION_SCHEMA_model : jschema :=
  SAllOf [SType TObject;
          SProperties [("prediction",
                        SAnyOf [array_of TNumber; array_of TString;
                                array_of TBoolean])];
          SRequired ["prediction"]].

(** The environment [E] with the modelled schema in the place of
    [PREDICTION_SCHEMA]. *)
Definition with_prediction_schema_model (E : env) : env :=
  {| METADATA_SCHEMA := METADATA_SCHEMA E;
     PREDICTION_SCHEMA := validates PREDICTION_SCHEMA_model;
     REQUEST_SCHEMA_SCHEMA := REQUEST_SCHEMA_SCHEMA E;
     not_nested_request_schema := not_nested_request_schema E;
     validation_message := validation_message E;
     load_model := load_model E;
     _get_example_request_df := _get_example_request_df E;
     st_size := st_size E;
     repr_ERROR_KEYS := repr_ERROR_KEYS E |}.

(** A non-empty array whose elements are all numbers, all strings or all
    booleans. *)
Definition one_type_array (p : pyval) : bool :=
  match p with
  | PList (x :: l) =>
      forallb (has_type TNumber) (x :: l)
      || forallb (has_type TString) (x :: l)
      || forallb (has_type TBoolean) (x :: l)
  | _ => false
  end.

(** The inputs of [test_prediction_schema_check_negative] and of
    [test_prediction_schema_check_positive]. *)
Definition negative_test_outputs : list pyval :=
  map (fun p => PDict [("prediction", p)])
    [PInt 5; PFloat 50 (-1); PStr "test"; PStr "bool"; PList []; PDict [];
     PList [PDict []]; PList [PList [PInt 1]; PList [PInt 2]];
     PList [PFloat 85 (-1); PDict []]; PList [PFloat 85 (-1); PStr "f"];
     PList [PFloat 85 (-1); PBool true]; PList [PStr "True"; PBool true]].

Definition positive_test_outputs : list pyval :=
  [PDict [("prediction", PList [PInt 5])];
   PDict [("prediction", PList [PInt 5]); ("extra key", PInt 7);
          ("other extra", PDict [("more info", PList [])])];
   PDict [("prediction", PList [PFloat 51 (-1); PFloat 50 (-1)])];
   PDict [("prediction", PList [PStr "a"; PStr "b"])];
   PDict [("prediction", PList [PBool true; PBool false; PBool true])]].

(** ** Sample data *)

Definition sample_world : world :=
  {| files := ∅; creatable := fun _ => true; stdout := []; logged := [] |}.

Definition sample_model (attr : option pyval) (out : outcome pyval)
    : PyFuncModel :=
  {| python_model_predict := Some {| wrapped_by_prediction_call_attr := attr |};
     predict := fun _ => out |}.

Definition sample_env (m : PyFuncModel) (zip_size : Z) : env :=
  {| METADATA_SCHEMA := fun _ => true;
     PREDICTION_SCHEMA := validates PREDICTION_SCHEMA_model;
     REQUEST_SCHEMA_SCHEMA := fun _ => true;
     not_nested_request_schema := fun _ => true;
     validation_message := fun _ => "is not valid under any of the given schemas";
     load_model := fun _ => Ok m;
     _get_example_request_df := fun _ => Ok (PList []);
     st_size := fun _ => Ok zip_size;
     repr_ERROR_KEYS := "{'error_code', 'message', 'stack_trace'}" |}.

(** The shapes [verify_model_output] lets through: a mapping with a
    [prediction] key, or one whose keys are exactly the error keys. *)
Definition admissible_key_set (v : pyval) : Prop :=
  ∃ d, v = PDict d ∧ (PREDICTION_KEY ∈ key_set d ∨ key_set d = ERROR_KEYS).

(** ** The descriptor a successful patch writes *)

(** What [_get_field] finds in a mapping. *)
Definition field_of (d : pydict) (path : string) : pyval :=
  _get_field_loop
    (match dict_get (hd "" (split_dot path)) d with Some x => x | None => PNone end)
    (tl (split_dot path)).

(** The [metadata] block for descriptor [d], dataset [ds], the two modes and
    [n] GPUs, key by key in the order [_add_metadata] sets them. *)
Definition patched_metadata (d : pydict) (ds : option pydict)
    (explanations oodd : option string) (n : Z) : pydict :=
  let md0 : pydict :=
    [("request_schema",
      PDict [("path",
              field_of d "flavors.python_function.artifacts.example_request.path")])] in
  let md1 :=
    match ds with
    | Some ds0 =>
        dict_set "dataset"
          (PDict (dict_set "path"
                    (field_of d "flavors.python_function.artifacts.dataset.path")
                    ds0)) md0
    | None => md0
    end in
  let md2 := dict_set "explanations" (PStr (or_default explanations)) md1 in
  let md3 := dict_set "oodDetection" (PStr (or_default oodd)) md2 in
  if 0 <? n then dict_set "gpus" (PInt n) md3 else md3.

(** The dataset dict as the patch leaves it. *)
Definition patched_dataset (d : pydict) (ds : option pydict) : option pydict :=
  match ds with
  | Some ds0 =>
      Some (dict_set "path"
              (field_of d "flavors.python_function.artifacts.dataset.path") ds0)
  | None => None
  end.

(** The world after [path] has been rewritten with [doc]. *)
Definition with_file (w : world) (path : string) (doc : pyval) : world :=
  World (<[path := doc]> (files w)) (creatable w) (stdout w) (logged w).

(** A mode that is set, not empty, and not among the accepted values. *)
Definition unknown_mode (accepted : list string) (mode : option string) : Prop :=
  ∃ s, mode = Some s ∧ s ≠ "" ∧ s ∉ accepted.

(** A descriptor as [mlflow.pyfunc.save_model] leaves it, and a world that
    holds it under [model/MLmodel]. *)
Definition sample_descriptor : pydict :=
  [("flavors",
    PDict [("python_function",
            PDict [("artifacts",
                    PDict [("example_request",
                            PDict [("path", PStr "artifacts/example_request.json");
                                   ("uri", PStr "/tmp/example_request.json")])]);
                   ("python_version", PStr "3.8.10")])]);
   ("utc_time_created", PStr "2023-01-01 00:00:00")].

Definition sample_model_world : world :=
  with_file sample_world "model/MLmodel" (PDict sample_descriptor).

(** An example request with one feature column. *)
Definition sample_request : pyval :=
  PDict [("featureColumns",
          PList [PDict [("name", PStr "x"); ("sampleData", PInt 1);
                        ("type", PStr "float"); ("nullable", PBool false)]]);
         ("targetColumns",
          PList [PDict [("name", PStr "y"); ("sampleData", PInt 0);
                        ("type", PStr "float"); ("nullable", PBool false)]])].

(** The packaged model: the patched descriptor and the example request the
    descriptor points to. *)
Definition packaged_world : world :=
  with_file
    (with_file sample_world "model/MLmodel"
       (PDict (dict_set "metadata"
                 (PDict (patched_metadata sample_descriptor None None None 0))
                 sample_descriptor)))
    "model/artifacts/example_request.json" sample_request.

(** What the decorator check takes for "the predict method is wrapped":
    the attribute is there and true, or the method cannot be inspected. *)
Definition passes_for_wrapped (model : PyFuncModel) : bool :=
  match python_model_predict model with
  | Some func =>
      match wrapped_by_prediction_call_attr func with
      | Some v => truthy v
      | None => false
      end
  | None => true
  end.

(** [w] with [lines] printed after what the console already shows. *)
Definition printed (w : world) (lines : list string) : world :=
  World (files w) (creatable w) (stdout w ++ lines) (logged w).

(** A model whose output has neither the [prediction] key nor the error
    keys, and one that predicts as it should. *)
Definition failing_env : env :=
  sample_env (sample_model None (Ok (PDict [("result", PList [PInt 1])]))) 10.

Definition passing_env : env :=
  sample_env (sample_model (Some (PBool true))
                (Ok (PDict [("prediction", PList [PInt 1])]))) 10.

(** The notices the stages print: each starts with one of three tags. *)
Definition is_notice (line : string) : bool :=
  String.prefix "Error: " line || String.prefix "Warning: " line
  || String.prefix "ERROR: " line.

(** From [w] to [w'] nothing happened but notices on the console. *)
Definition only_notices (w w' : world) : Prop :=
  ∃ lines,
    w' = World (files w) (creatable w) (stdout w ++ lines) (logged w)
    ∧ Forall (fun l => is_notice l = true) lines.

(** A computation that, whatever its outcome, only prints notices. *)
Definition quiet {A} (m : M A) : Prop :=
  ∀ w o w', m w = (o, w') → only_notices w w'.

(** ** The rest of pynavio/_mlflow.py *)

(** [s[0:n]] and [s[n:]] *)
Definition slice_to (n : nat) (s : string) : string := substring 0 n s.
Definition slice_from (n : nat) (s : string) : string :=
  substring n (String.length s - n) s.

(** [path] is given by [str(path)]. *)
Definition process_path (str_path : string) : string :=
  if String.eqb (slice_to 7 str_path) "file://" then slice_from 7 str_path
  else str_path.

(** [isinstance(v, str)] *)
Definition is_str (v : pyval) : bool :=
  match v with PStr _ => true | _ => false end.

(** [f"{type(v)}"] *)
Definition type_repr (v : pyval) : string :=
  match v with
  | PNone => "<class 'NoneType'>"
  | PBool _ => "<class 'bool'>"
  | PInt _ => "<class 'int'>"
  | PFloat _ _ => "<class 'float'>"
  | PStr _ => "<class 'str'>"
  | PList _ => "<class 'list'>"
  | PDict _ => "<class 'dict'>"
  end.

(** The body of the loop of [_check_data_spec], for one [field]. *)
Definition _check_data_spec_field (spec : pydict) (field : string)
    : outcome unit :=
  let? _ := oassert (dict_contains field spec)
              ("Data spec is missing field " ++ field) in
  let? value := subscript spec field in
  oassert (is_str value)
          ("Expected field " ++ field ++ " in data spec to be of type str, got"
           ++ type_repr value).

(** [for x in xs: body(x)], stopping at the first exception *)
Fixpoint ofor {A} (xs : list A) (body : A -> outcome unit) : outcome unit :=
  match xs with
  | [] => Ok tt
  | x :: xs' => let? _ := body x in ofor xs' body
  end.

Definition _check_data_spec (spec : pydict) : outcome unit :=
  ofor ["name"; "path"] (_check_data_spec_field spec).

(** [isinstance(sys_dependencies, List) and all(isinstance(item, str) ...)] *)
Definition _is_valid_sys_dependency_list (sys_dependencies : pyval) : bool :=
  match sys_dependencies with
  | PList items => forallb is_str items
  | _ => false
  end.

Definition newline : string := String "010"%char "".

(** [sep.join(items)] *)
Fixpoint join (sep : string) (items : list string) : string :=
  match items with
  | [] => ""
  | [x] => x
  | x :: rest => x ++ sep ++ join sep rest
  end.

(** The strings among [items]; all of them, once the list is known to hold
    strings only. *)
Definition str_items (items : list pyval) : list string :=
  flat_map (fun v => match v with PStr x => [x] | _ => [] end) items.

(** [sys_dependencies] is [None] or any value; the file is a text file, kept
    as the string written to it. *)
Definition _add_sys_dependencies (path : string) (sys_dependencies : pyval)
    : M unit :=
  match sys_dependencies with
  | PNone => mret tt
  | _ =>
      assert_ (_is_valid_sys_dependency_list sys_dependencies) "";;
      let file_path := path_join path "sys_dependencies.txt" in
      write_file file_path
        (PStr (join newline
                 (match sys_dependencies with
                  | PList items => str_items items
                  | _ => []
                  end)))
  end.

(** [text.split(sep)] for a one-character separator *)
Fixpoint split_on_aux (sep : ascii) (acc : string) (s : string) : list string :=
  match s with
  | EmptyString => [acc]
  | String c s' =>
      if Ascii.eqb c sep then acc :: split_on_aux sep "" s'
      else split_on_aux sep (acc ++ String c "") s'
  end.
Definition split_on (sep : ascii) (s : string) : list string :=
  split_on_aux sep "" s.

(** [c in s] for a character *)
Fixpoint has_char (c : ascii) (s : string) : bool :=
  match s with
  | EmptyString => false
  | String c' s' => Ascii.eqb c' c || has_char c s'
  end.

(** ** The rest of pynavio/utils/common.py *)

Module Common.

(** [_make_artifact]: the request is written whatever it is. *)
Definition _make_artifact (tmp_dir : string) (example_request : pyval)
    (artifacts : option (gmap string string)) : M (gmap string string) :=
  let artifacts' : gmap string string :=
    artifacts_or_empty artifacts
    ∪ {[ "example_request" := tmp_dir ++ "/example_request.json" ]} in
  write_file (default "" (artifacts' !! "example_request")) example_request;;
  mret artifacts'.

(** The [_add_metadata] of this module: the request schema path is a
    constant and the dataset spec is stored as it is given. *)
Definition _add_metadata (model_path : string)
    (dataset : option pydict) (explanations oodd : option string)
    (num_gpus : option Z) : M unit :=
  let path := path_join model_path "MLmodel" in
  let! cfg := read_file path in
  let metadata : pydict :=
    [("request_schema", PDict [("path", PStr "artifacts/example_request.json")])] in
  let! cfg := py_update cfg "metadata" (PDict metadata) in
  let metadata :=
    match dataset with
    | Some ds => dict_set "dataset" (PDict ds) metadata
    | None => metadata
    end in
  let explanations := or_default explanations in
  let accepted_values := ["disabled"; "default"; "plotly"] in
  assert_ (str_in explanations accepted_values)
          "explanations config must be one of ['disabled', 'default', 'plotly']";;
  let metadata := dict_set "explanations" (PStr explanations) metadata in
  let oodd := or_default oodd in
  let accepted_values := ["disabled"; "default"] in
  assert_ (str_in oodd accepted_values)
          "oodd config must be one of ['disabled', 'default']";;
  let metadata := dict_set "oodDetection" (PStr oodd) metadata in
  let! gpus :=
    match num_gpus with
    | Some n => mret n
    | None => raise (Exc TypeError "'>=' not supported between instances of 'NoneType' and 'int'")
    end in
  assert_ (0 <=? gpus) "num_gpus cannot be negative";;
  let metadata :=
    if 0 <? gpus then dict_set "gpus" (PInt gpus) metadata else metadata in
  let! cfg := py_update cfg "metadata" (PDict metadata) in
  write_file path cfg.

End Common.

(** ** Reading an example request *)

(** The values [make_example_request] can type: [int], [float] and [str]. *)
Definition typed_value (v : pyval) : bool :=
  match v with
  | PInt _ | PFloat _ _ | PStr _ => true
  | _ => false
  end.

(** The columns [make_example_request] lists as features. *)
Definition is_feature (target : string) (datetime_column : option string)
    (name : string) : bool :=
  negb (String.eqb name target)
  && negb (bool_decide (Some name = datetime_column)).

(** The [name] entry of a column spec. *)
Definition column_name (spec : pyval) : option string :=
  match spec with
  | PDict d =>
      match dict_get "name" d with
      | Some (PStr n) => Some n
      | _ => None
      end
  | _ => None
  end.

(** The column spec of [name] with sample [v]. *)
Definition column_spec_of (name : string) (v : pyval) (type : string) : pyval :=
  PDict [("name", PStr name); ("sampleData", v);
         ("type", PStr type); ("nullable", PBool false)].

(** ** The notices of validate_metadata *)

Definition nested_input_warning : string :=
  "Warning: {pynavio_model_validation} the nested"
  ++ " model input is not supported"
  ++ " by frontend rendering, it will only be possible"
  ++ " to see the example request as plain json in the"
  ++ " try-out or deployment views. Consider using"
  ++ " string representation of nested example in the"
  ++ " example request json.".

Definition nested_defaults_warning : string :=
  "Warning: {pynavio_model_validation} default"
  ++ " ood and explanations"
  ++ " are not supported for nested model inputs.".

(** [metadata.get(key, '') == 'default'] on a mapping *)
Definition mode_is_default (md : pydict) (key : string) : bool :=
  match dict_get key md with
  | Some v => eq_str v "default"
  | None => false
  end.

(** An environment whose not-nested schema accepts no request, and a
    packaged model with a dataset and the modes left at their defaults. *)
Definition nested_env : env :=
  {| METADATA_SCHEMA := fun _ => true;
     PREDICTION_SCHEMA := validates PREDICTION_SCHEMA_model;
     REQUEST_SCHEMA_SCHEMA := fun _ => true;
     not_nested_request_schema := fun _ => false;
     validation_message := fun _ => "is not valid under any of the given schemas";
     load_model := fun _ => Ok (sample_model None (Ok PNone));
     _get_example_request_df := fun _ => Ok (PList []);
     st_size := fun _ => Ok 10;
     repr_ERROR_KEYS := "{'error_code', 'message', 'stack_trace'}" |}.

Definition packaged_with_dataset_metadata : pydict :=
  patched_metadata sample_descriptor
    (Some [("name", PStr "data"); ("path", PStr "/tmp/d.csv")]) None None 0.

Definition packaged_with_dataset : world :=
  with_file
    (with_file sample_world "model/MLmodel"
       (PDict (dict_set "metadata" (PDict packaged_with_dataset_metadata)
                 sample_descriptor)))
    "model/artifacts/example_request.json" sample_request.

(** An environment whose metadata schema accepts nothing. *)
Definition strict_metadata_env : env :=
  {| METADATA_SCHEMA := fun _ => false;
     PREDICTION_SCHEMA := validates PREDICTION_SCHEMA_model;
     REQUEST_SCHEMA_SCHEMA := fun _ => true;
     not_nested_request_schema := fun _ => true;
     validation_message := fun _ => "is not valid under any of the given schemas";
     load_model := fun _ => Ok (sample_model None (Ok PNone));
     _get_example_request_df := fun _ => Ok (PList []);
     st_size := fun _ => Ok 10;
     repr_ERROR_KEYS := "{'error_code', 'message', 'stack_trace'}" |}.

(** ** pynavio/utils/infer_code_paths.py *)

(** *** Paths, as [pathlib] reads them on POSIX *)

Definition is_root (part : string) : bool :=
  String.eqb part "/" || String.eqb part "//".

(** The root of a path: exactly two leading slashes are kept as [//]. *)
Definition path_root (s : string) : list string :=
  match s with
  | String "/" (String "/" (String "/" _)) => ["/"]
  | String "/" (String "/" _) => ["//"]
  | String "/" _ => ["/"]
  | _ => []
  end.

(** What survives of the pieces between slashes: empty pieces and [.] go. *)
Definition is_component (x : string) : bool :=
  negb (String.eqb x "") && negb (String.eqb x ".").

(** [Path(s).parts] *)
Definition path_parts (s : string) : list string :=
  path_root s ++ List.filter is_component (split_on "/" s).

(** The parts of [Path] applied to the arguments [args]: an absolute
    argument discards what precedes it. *)
Fixpoint joined_parts (args : list string) : list string :=
  match args with
  | [] => []
  | a :: rest =>
      match joined_parts rest with
      | x :: r => if is_root x then x :: r else path_parts a ++ x :: r
      | [] => path_parts a
      end
  end.

(** [str(p)] for a path [p] with the given parts *)
Definition path_str (parts : list string) : string :=
  match parts with
  | [] => "."
  | x :: comps => if is_root x then x ++ join "/" comps else join "/" parts
  end.

(** The parts of [p.parent] *)
Definition path_parent (parts : list string) : list string :=
  match parts with
  | [x] => if is_root x then [x] else []
  | _ => removelast parts
  end.

(** The parts of the paths in [p.parents], nearest first *)
Definition path_parents (parts : list string) : list (list string) :=
  match parts with
  | x :: comps =>
      if is_root x then
        map (fun k => x :: take k comps) (rev (seq 0 (length comps)))
      else map (fun k => take k parts) (rev (seq 0 (length parts)))
  | [] => []
  end.

(** A piece of a path: not empty, not [.], without a slash. *)
Definition good_component (x : string) : Prop :=
  is_component x = true ∧ has_char "/" x = false.

(** Parts as [Path.parts] gives them: components, after a root perhaps. *)
Definition wf_parts (parts : list string) : Prop :=
  match parts with
  | [] => True
  | x :: comps =>
      (is_root x = true ∨ good_component x) ∧ Forall good_component comps
  end.

(** *** Modules *)

(** A module object of [sys.modules], as far as the code looks at it. *)
Record sys_module : Type := {
  __path__ : option (list string);
  __file__ : option string
}.

Definition StopIteration : exn := Exc (OtherException "StopIteration") "".

(** [next(x for x in xs if pred(x))] *)
Definition next_where {A} (pred : A -> bool) (xs : list A) : outcome A :=
  match List.find pred xs with
  | Some x => Ok x
  | None => Raise StopIteration
  end.

(** [get_module_path] of [utils/common.py]; [inspect.getfile] refuses a
    module without a file. *)
Definition get_module_path (module : sys_module) : outcome string :=
  match __file__ module with
  | Some file =>
      if String.eqb file "" then Raise (Exc TypeError "is a built-in module")
      else Ok (path_str (path_parent (path_parts file)))
  | None => Raise (Exc TypeError "is a built-in module")
  end.

Section InferCodePaths.
Context (sys_modules : gmap string (option sys_module)).

(** An entry of [sys.modules] may be [None]; [__path__] counts when it is
    there and not empty. *)
Definition _get_code_path (module_name path : string) : outcome string :=
  let? module_base :=
    next_where (fun part => negb (String.eqb part "")) (split_dot module_name) in
  match sys_modules !! module_base with
  | Some (Some module) =>
      match __path__ module with
      | Some (first :: _) => Ok first
      | _ => Ok ""
      end
  | _ =>
      let parts := path_parts path in
      let? index_of_folder_name_in_the_path :=
        next_where (fun i => String.eqb (nth i parts "") module_base)
                   (rev (seq 0 (length parts))) in
      Ok (path_str (joined_parts
                      (take (index_of_folder_name_in_the_path + 1) parts)))
  end.

End InferCodePaths.

(** [Path(a) in Path(b).parents], on the strings of both paths *)
Definition in_parents (a b : string) : bool :=
  existsb (fun parent => bool_decide (path_parts a = parent))
          (path_parents (path_parts b)).

Definition _is_not_in_ignore_paths (module : sys_module)
    (to_ignore_paths : list string) : outcome bool :=
  let? hits :=
    omap (fun to_ignore_path =>
            let? module_path := get_module_path module in
            Ok (in_parents to_ignore_path module_path))
         to_ignore_paths in
  Ok (negb (existsb id hits)).

(** ** _read_metadata and _fetch_data *)

(** [v[k]] for a string key [k] *)
Definition py_subscript (v : pyval) (k : string) : outcome pyval :=
  match v with
  | PDict d => subscript d k
  | PStr _ => Raise (Exc TypeError "string indices must be integers")
  | PList _ => Raise (Exc TypeError "list indices must be integers or slices, not str")
  | _ => Raise (Exc TypeError "object is not subscriptable")
  end.

(** The values [for x in v] runs through *)
Definition py_iter (v : pyval) : outcome (list pyval) :=
  match v with
  | PList l => Ok l
  | PDict d => Ok (map PStr (dict_keys d))
  | PStr s => Ok (map (fun c => PStr (String c "")) (list_ascii_of_string s))
  | _ => Raise (Exc TypeError "object is not iterable")
  end.

(** [v is None] *)
Definition is_None (v : pyval) : bool :=
  match v with PNone => true | _ => false end.

Section FetchData.
Context {DataFrame : Type}.
Context (read_csv : string -> outcome DataFrame).
  (* [pd.read_csv] *)
Context (background_rows : DataFrame -> list pyval -> outcome (list pyval)).
  (* [dataset[columns].assign(is_background=True)
        .sample(20, random_state=42, replace=True).values.tolist()] *)

(** The dict [_read_metadata] returns. *)
Record metadata_info : Type := {
  md_dataset : option DataFrame;
  md_explanation_format : pyval;
  md_example_request : pyval
}.

Definition _read_metadata (model_path : string) : M metadata_info :=
  let! yml := _read_mlmodel_yaml model_path in
  let! data_path := _get_field yml "metadata.dataset.path" in
  let! data_path :=
    if is_None data_path then mret None
    else let! joined := path_join_val model_path data_path in
         mret (Some joined) in
  let! example_request := _read_example_request model_path yml in
  let! dataset :=
    match data_path with
    | Some joined => let! frame := lift (read_csv joined) in mret (Some frame)
    | None => mret None
    end in
  let! explanation_format := _get_field yml "metadata.explanations.format" in
  mret {| md_dataset := dataset;
          md_explanation_format := explanation_format;
          md_example_request := example_request |}.

(** [[x[key] for x in data['featureColumns']]] *)
Definition feature_entries (data : pyval) (key : string) : outcome (list pyval) :=
  let? feature_columns := py_subscript data "featureColumns" in
  let? items := py_iter feature_columns in
  omap (fun x => py_subscript x key) items.

Definition _fetch_data (model_path : string) : M pyval :=
  let! meta := _read_metadata model_path in
  let data := md_example_request meta in
  let! columns := lift (feature_entries data "name") in
  let! row := lift (feature_entries data "sampleData") in
  let! has_datetime := py_in "dateTimeColumn" data in
  let! columns_row :=
    if has_datetime then
      let! name :=
        lift (let? column := py_subscript data "dateTimeColumn" in
              py_subscript column "name") in
      let! sample :=
        lift (let? column := py_subscript data "dateTimeColumn" in
              py_subscript column "sampleData") in
      mret ((columns ++ [name])%list, (row ++ [sample])%list)
    else mret (columns, row) in
  let _input :=
    PDict [("columns", PList (fst columns_row));
           ("data", PList [PList (snd columns_row)])] in
  if eq_str (md_explanation_format meta) "default"
     || is_None (md_explanation_format meta)
  then mret (PList [_input])
  else
    match md_dataset meta with
    | None => mret (PList [_input])
    | Some dataset =>
        let! sampled := lift (background_rows dataset (fst columns_row)) in
        let _explain_input :=
          PDict [("columns", PList (fst columns_row ++ [PStr "is_background"])%list);
                 ("data",
                  PList (PList (snd columns_row ++ [PBool false])%list :: sampled))] in
        mret (PList [_input; _explain_input])
    end.

End FetchData.

(** The sample model directory with its example request in place, before
    the descriptor is patched. *)
Definition sample_request_world : world :=
  with_file sample_model_world "model/artifacts/example_request.json"
    sample_request.

(** The columns of the request body built from a row: the features, then
    the datetime column. *)
Definition body_columns (row : pydict) (target : string)
    (datetime_column : option string) : list string :=
  List.filter (is_feature target datetime_column) (dict_keys row)
  ++ match datetime_column with Some c => [c] | None => [] end.

(** The value a row holds under [name]. *)
Definition row_value (row : pydict) (name : string) : pyval :=
  match dict_get name row with Some v => v | None => PNone end.

(** * Properties *)

(** ** Dictionaries *)

Lemma dict_get_set_eq k v d : dict_get k (dict_set k v d) = Some v.
Proof.
  induction d as [|[k' v'] d IH]; simpl.
  - by rewrite String.eqb_refl.
  - destruct (String.eqb k k') eqn:Hk; simpl; rewrite ?String.eqb_refl, ?Hk; done.
Qed.

Lemma dict_get_set_ne k k' v d :
  k ≠ k' → dict_get k (dict_set k' v d) = dict_get k d.
Proof.
  intros Hne. induction d as [|[k2 v2] d IH]; simpl.
  - destruct (String.eqb_spec k k'); done.
  - destruct (String.eqb_spec k' k2) as [->|Hk2]; simpl.
    + destruct (String.eqb_spec k k2); done.
    + destruct (String.eqb_spec k k2); done.
Qed.

Lemma dict_set_set k v v' d : dict_set k v (dict_set k v' d) = dict_set k v d.
Proof.
  induction d as [|[k2 v2] d IH]; simpl.
  - by rewrite String.eqb_refl.
  - destruct (String.eqb_spec k k2) as [->|Hk2]; simpl.
    + by rewrite String.eqb_refl.
    + destruct (String.eqb_spec k k2); [done|]. by rewrite IH.
Qed.

Lemma dict_contains_key_set k d :
  dict_contains k d = true ↔ k ∈ key_set d.
Proof.
  unfold dict_contains, key_set, dict_keys.
  induction d as [|[k' v] d IH]; simpl.
  - set_solver.
  - rewrite elem_of_union, elem_of_singleton.
    destruct (String.eqb_spec k k') as [->|Hne]; [by split; auto|].
    rewrite IH. split; [by right|]. by intros [?|?].
Qed.

(** ** verify_model_output *)

Section VerifyModelOutput.
Context (E : env).

Lemma verify_model_output_not_mapping v w :
  (∀ d, v ≠ PDict d) →
  ∃ msg, verify_model_output E v w = (Raise (Exc AssertionError msg), w).
Proof.
  intros Hv. destruct v; try (eexists; reflexivity). by destruct (Hv d).
Qed.

Lemma verify_model_output_no_prediction d w :
  dict_contains PREDICTION_KEY d = false →
  verify_model_output E (PDict d) w =
    assert_ (bool_decide (key_set d = ERROR_KEYS))
            (model_output_keys_message E) w.
Proof.
  intros Hd. unfold verify_model_output. simpl.
  unfold mbind, M_bind, bind. simpl. by rewrite Hd.
Qed.

Lemma verify_model_output_prediction d w :
  dict_contains PREDICTION_KEY d = true →
  verify_model_output E (PDict d) w = _validate_prediction_schema E (PDict d) w.
Proof.
  intros Hd. unfold verify_model_output. simpl.
  unfold mbind, M_bind, bind. simpl. by rewrite Hd.
Qed.
End VerifyModelOutput.

(** C1.  The output check passes only on a mapping whose key set contains
    [prediction] or is exactly [{error_code, message, stack_trace}]; on
    every other value it raises (an [AssertionError], the world left as it
    was). *)
Theorem verify_model_output_key_sets (E : env) (v : pyval) (w : world) :
  (fst (verify_model_output E v w) = Ok tt → admissible_key_set v)
  ∧ (¬ admissible_key_set v →
     ∃ msg, verify_model_output E v w = (Raise (Exc AssertionError msg), w)).
Proof.
  assert (admissible_key_set v ∨
          ∃ msg, verify_model_output E v w = (Raise (Exc AssertionError msg), w))
    as [Hgood | [msg Hbad]].
  { destruct v as [| | | | | |d];
      try (right; apply verify_model_output_not_mapping; congruence).
    destruct (dict_contains PREDICTION_KEY d) eqn:Hp.
    - left. exists d. split; [done|]. left. by apply dict_contains_key_set.
    - destruct (decide (key_set d = ERROR_KEYS)) as [Hk|Hk].
      + left. exists d. auto.
      + right. rewrite verify_model_output_no_prediction by done.
        unfold assert_. rewrite (bool_decide_eq_false_2 _ Hk).
        eexists. reflexivity. }
  - split; [done|]. intros Hn. by destruct Hn.
  - split.
    + rewrite Hbad. simpl. discriminate.
    + intros _. by exists msg.
Qed.

Lemma verify_model_output_key_sets_witness :
  (fst (verify_model_output (sample_env (sample_model None (Ok PNone)) 0)
          (PDict [("error_code", PStr "ValueError"); ("message", PStr "bad");
                  ("stack_trace", PStr "Traceback")]) sample_world) = Ok tt
   ∧ admissible_key_set
       (PDict [("error_code", PStr "ValueError"); ("message", PStr "bad");
               ("stack_trace", PStr "Traceback")]))
  ∧ (¬ admissible_key_set (PDict [("error_code", PStr "ValueError")])
     ∧ ∃ msg,
         verify_model_output (sample_env (sample_model None (Ok PNone)) 0)
           (PDict [("error_code", PStr "ValueError")]) sample_world
         = (Raise (Exc AssertionError msg), sample_world)).
Proof.
  split.
  - assert (fst (verify_model_output (sample_env (sample_model None (Ok PNone)) 0)
          (PDict [("error_code", PStr "ValueError"); ("message", PStr "bad");
                  ("stack_trace", PStr "Traceback")]) sample_world) = Ok tt)
      as H by (vm_compute; reflexivity).
    split; [exact H|].
    exact (proj1 (verify_model_output_key_sets _ _ _) H).
  - assert (¬ admissible_key_set (PDict [("error_code", PStr "ValueError")]))
      as H.
    { intros (d & Hd & [Hp|Hk]); injection Hd as <-.
      - apply dict_contains_key_set in Hp. discriminate Hp.
      - assert (bool_decide (key_set [("error_code", PStr "ValueError")]
                             = ERROR_KEYS) = false) as Hf
          by (vm_compute; reflexivity).
        apply bool_decide_eq_false in Hf. exact (Hf Hk). }
    split; [exact H|].
    exact (proj2 (verify_model_output_key_sets _ _ _) H).
Defined.

(** ** The prediction schema and the repository's tests *)

Lemma PREDICTION_SCHEMA_model_spec d :
  validates PREDICTION_SCHEMA_model (PDict d) =
  match dict_get PREDICTION_KEY d with
  | Some p => one_type_array p
  | None => false
  end.
Proof.
  unfold PREDICTION_SCHEMA_model, PREDICTION_KEY. cbn -[dict_get].
  unfold dict_contains.
  destruct (dict_get "prediction" d) as [p|]; [|reflexivity].
  rewrite !andb_true_r, !orb_false_r.
  destruct p as [| | | | |[|x l]|]; try reflexivity.
  cbn [one_type_array has_type forallb Nat.leb length].
  rewrite !andb_true_r, !andb_true_l, orb_assoc. reflexivity.
Qed.

(** The modelled schema agrees with every case of the repository's tests. *)
Lemma PREDICTION_SCHEMA_model_tests :
  forallb (fun v => negb (validates PREDICTION_SCHEMA_model v))
          negative_test_outputs = true
  ∧ forallb (validates PREDICTION_SCHEMA_model) positive_test_outputs = true.
Proof. split; reflexivity. Qed.

Section PredictionSchema.
Context (E : env).

Lemma validate_prediction_schema_model d p w :
  dict_get PREDICTION_KEY d = Some p →
  _validate_prediction_schema (with_prediction_schema_model E) (PDict d) w =
  if one_type_array p then (Ok tt, w)
  else (Raise (Exc ValidationError (validation_message E (PDict d))),
        snd (print prediction_schema_error w)).
Proof.
  intros Hp. unfold _validate_prediction_schema, try_except, jsonschema_validate.
  cbn [PREDICTION_SCHEMA with_prediction_schema_model].
  rewrite PREDICTION_SCHEMA_model_spec, Hp.
  destruct (one_type_array p); reflexivity.
Qed.
End PredictionSchema.

(** C2, as the code has it.  On a model output with a [prediction] key the
    check passes exactly when the value is a non-empty flat array whose
    elements are all numbers, all strings or all booleans.  Every other
    value (a bare scalar, an empty array, an array that mixes types, nests
    arrays or holds objects) raises the [ValidationError] of jsonschema,
    after one line on the console. *)
Theorem verify_model_output_prediction_array (E : env) (d : pydict)
    (p : pyval) (w : world) :
  dict_get PREDICTION_KEY d = Some p →
  (one_type_array p = true →
   verify_model_output (with_prediction_schema_model E) (PDict d) w = (Ok tt, w))
  ∧ (one_type_array p = false →
     verify_model_output (with_prediction_schema_model E) (PDict d) w
     = (Raise (Exc ValidationError (validation_message E (PDict d))),
        snd (print prediction_schema_error w))).
Proof.
  intros Hp.
  assert (dict_contains PREDICTION_KEY d = true) as Hc
    by (unfold dict_contains; by rewrite Hp).
  rewrite verify_model_output_prediction by done.
  rewrite (validate_prediction_schema_model E d p w Hp).
  split; intros ->; reflexivity.
Qed.

Lemma verify_model_output_prediction_array_witness :
  (dict_get PREDICTION_KEY [("prediction", PList [PFloat 51 (-1); PInt 5]);
                            ("extra key", PInt 7)]
   = Some (PList [PFloat 51 (-1); PInt 5])
   ∧ one_type_array (PList [PFloat 51 (-1); PInt 5]) = true
   ∧ verify_model_output
       (with_prediction_schema_model (sample_env (sample_model None (Ok PNone)) 0))
       (PDict [("prediction", PList [PFloat 51 (-1); PInt 5]);
               ("extra key", PInt 7)]) sample_world
     = (Ok tt, sample_world))
  ∧ (dict_get PREDICTION_KEY [("prediction", PList [PList [PInt 1]; PList [PInt 2]])]
     = Some (PList [PList [PInt 1]; PList [PInt 2]])
     ∧ one_type_array (PList [PList [PInt 1]; PList [PInt 2]]) = false
     ∧ verify_model_output
         (with_prediction_schema_model (sample_env (sample_model None (Ok PNone)) 0))
         (PDict [("prediction", PList [PList [PInt 1]; PList [PInt 2]])])
         sample_world
       = (Raise (Exc ValidationError
                   "is not valid under any of the given schemas"),
          snd (print prediction_schema_error sample_world))).
Proof.
  split.
  - split; [reflexivity|]. split; [reflexivity|].
    exact (proj1 (verify_model_output_prediction_array
                    (sample_env (sample_model None (Ok PNone)) 0)
                    [("prediction", PList [PFloat 51 (-1); PInt 5]);
                     ("extra key", PInt 7)]
                    (PList [PFloat 51 (-1); PInt 5]) sample_world eq_refl)
                 eq_refl).
  - split; [reflexivity|]. split; [reflexivity|].
    exact (proj2 (verify_model_output_prediction_array
                    (sample_env (sample_model None (Ok PNone)) 0)
                    [("prediction", PList [PList [PInt 1]; PList [PInt 2]])]
                    (PList [PList [PInt 1]; PList [PInt 2]]) sample_world eq_refl)
                 eq_refl).
Defined.

(** C2, as the spec words it, fails: a bare scalar under [prediction] does
    not pass, and neither does an empty array, although all of its elements
    are of one scalar type.  Both raise [ValidationError], as the
    repository's negative test demands. *)
Lemma verify_model_output_scalar_rejected :
  fst (verify_model_output
         (with_prediction_schema_model (sample_env (sample_model None (Ok PNone)) 0))
         (PDict [("prediction", PInt 5)]) sample_world)
  = Raise (Exc ValidationError "is not valid under any of the given schemas")
  ∧ fst (verify_model_output
           (with_prediction_schema_model (sample_env (sample_model None (Ok PNone)) 0))
           (PDict [("prediction", PList [])]) sample_world)
    = Raise (Exc ValidationError "is not valid under any of the given schemas").
Proof. split; reflexivity. Qed.

(** ** _add_metadata *)

Lemma split_dot_aux_nonempty acc s : split_dot_aux acc s ≠ [].
Proof.
  revert acc. induction s as [|c s IH]; intros acc; simpl; [done|].
  destruct (Ascii.eqb c "."); [done|apply IH].
Qed.

Lemma get_field_dict d path w :
  _get_field (PDict d) path w = (Ok (field_of d path), w).
Proof.
  unfold _get_field, field_of, split_dot.
  pose proof (split_dot_aux_nonempty "" path) as Hne.
  destruct (split_dot_aux "" path) as [|k ks]; [done|]. reflexivity.
Qed.

Lemma get_field_not_dict v path w :
  (∀ d, v ≠ PDict d) →
  _get_field v path w
  = (Raise (Exc AttributeError "object has no attribute 'get'"), w).
Proof.
  intros Hv. unfold _get_field, split_dot.
  pose proof (split_dot_aux_nonempty "" path) as Hne.
  destruct (split_dot_aux "" path) as [|k ks]; [done|].
  destruct v; try reflexivity. by destruct (Hv d).
Qed.

Lemma field_of_set_metadata d x path :
  hd "" (split_dot path) ≠ "metadata" →
  field_of (dict_set "metadata" x d) path = field_of d path.
Proof. intros Hne. unfold field_of. by rewrite dict_get_set_ne. Qed.

Lemma add_metadata_run mp ds ex oo g w d :
  files w !! path_join mp "MLmodel" = Some (PDict d) →
  _add_metadata mp ds ex oo g w =
  if negb (str_in (or_default ex) ["disabled"; "default"; "plotly"]) then
    (Raise (Exc AssertionError
              "explanations config must be one of ['disabled', 'default', 'plotly']"), w)
  else if negb (str_in (or_default oo) ["disabled"; "default"]) then
    (Raise (Exc AssertionError
              "oodd config must be one of ['disabled', 'default']"), w)
  else
    match g with
    | None =>
        (Raise (Exc TypeError
                  "'>=' not supported between instances of 'NoneType' and 'int'"), w)
    | Some n =>
        if 0 <=? n then
          (Ok (patched_dataset d ds),
           with_file w (path_join mp "MLmodel")
             (PDict (dict_set "metadata" (PDict (patched_metadata d ds ex oo n)) d)))
        else (Raise (Exc AssertionError "num_gpus cannot be negative"), w)
    end.
Proof.
  intros Hf. unfold _add_metadata.
  unfold bind at 1. unfold read_file. rewrite Hf.
  unfold bind at 1. rewrite get_field_dict.
  unfold bind at 1. cbn [py_update mret M_ret ret].
  assert (write_ok : ∀ doc, write_file (path_join mp "MLmodel") doc w
                     = (Ok tt, with_file w (path_join mp "MLmodel") doc)).
  { intros doc. unfold write_file. rewrite Hf.
    rewrite bool_decide_eq_true_2 by eauto. reflexivity. }
  unfold patched_metadata, patched_dataset.
  destruct ds as [ds0|].
  - unfold bind at 1. unfold bind at 1. rewrite get_field_dict.
    rewrite field_of_set_metadata by (vm_compute; discriminate).
    cbn [mret M_ret ret fst snd].
    unfold mbind, M_bind, bind, assert_.
    destruct (str_in (or_default ex) _); [|reflexivity].
    destruct (str_in (or_default oo) _); [|reflexivity].
    destruct g as [n|]; [|reflexivity]. cbn [mret M_ret ret raise negb].
    destruct (0 <=? n); [|reflexivity]. cbn [mret M_ret ret].
    rewrite write_ok, dict_set_set. reflexivity.
  - unfold bind at 1. cbn [mret M_ret ret fst snd].
    unfold mbind, M_bind, bind, assert_.
    destruct (str_in (or_default ex) _); [|reflexivity].
    destruct (str_in (or_default oo) _); [|reflexivity].
    destruct g as [n|]; [|reflexivity]. cbn [mret M_ret ret raise negb].
    destruct (0 <=? n); [|reflexivity]. cbn [mret M_ret ret].
    rewrite write_ok, dict_set_set. reflexivity.
Qed.

Lemma add_metadata_unreadable mp ds ex oo g w :
  (∀ d, files w !! path_join mp "MLmodel" ≠ Some (PDict d)) →
  ∃ e, _add_metadata mp ds ex oo g w = (Raise e, w).
Proof.
  intros Hf. unfold _add_metadata. unfold bind at 1. unfold read_file.
  destruct (files w !! path_join mp "MLmodel") as [cfg|] eqn:Hcfg;
    [|eexists; reflexivity].
  unfold bind at 1. rewrite get_field_not_dict; [eexists; reflexivity|].
  intros d ->. by apply (Hf d).
Qed.

(** Whatever makes the patch fail, the world is as it was. *)
Lemma add_metadata_raise_unchanged mp ds ex oo g w e w' :
  _add_metadata mp ds ex oo g w = (Raise e, w') → w' = w.
Proof.
  destruct (files w !! path_join mp "MLmodel") as [cfg|] eqn:Hcfg.
  - destruct cfg as [| | | | | |d];
      try (edestruct (add_metadata_unreadable mp ds ex oo g w) as [e' He'];
           [intros d; rewrite Hcfg; discriminate
           |rewrite He'; intros [= _ <-]; reflexivity]).
    rewrite (add_metadata_run mp ds ex oo g w d Hcfg).
    repeat case_match; intros [= <-]; try reflexivity; congruence.
  - edestruct (add_metadata_unreadable mp ds ex oo g w) as [e' He'].
    + intros d. rewrite Hcfg. discriminate.
    + rewrite He'. by intros [= _ <-].
Qed.

(** A successful patch read a mapping, found the modes and the GPU count
    acceptable, and rewrote the descriptor with the patched mapping. *)
Lemma add_metadata_ok_inv mp ds ex oo g w r w' :
  _add_metadata mp ds ex oo g w = (Ok r, w') →
  ∃ d n,
    files w !! path_join mp "MLmodel" = Some (PDict d)
    ∧ str_in (or_default ex) ["disabled"; "default"; "plotly"] = true
    ∧ str_in (or_default oo) ["disabled"; "default"] = true
    ∧ g = Some n ∧ (0 <=? n) = true
    ∧ r = patched_dataset d ds
    ∧ w' = with_file w (path_join mp "MLmodel")
             (PDict (dict_set "metadata" (PDict (patched_metadata d ds ex oo n)) d)).
Proof.
  intros H.
  destruct (files w !! path_join mp "MLmodel") as [cfg|] eqn:Hcfg.
  - destruct cfg as [| | | | | |d];
      try (edestruct (add_metadata_unreadable mp ds ex oo g w) as [e' He'];
           [intros d; rewrite Hcfg; discriminate
           |rewrite He' in H; discriminate H]).
    rewrite (add_metadata_run mp ds ex oo g w d Hcfg) in H.
    destruct (str_in (or_default ex) _) eqn:Hex; [|discriminate H].
    destruct (str_in (or_default oo) _) eqn:Hoo; [|discriminate H].
    destruct g as [n|]; [|discriminate H].
    destruct (0 <=? n) eqn:Hn; [|discriminate H].
    injection H as <- <-. exists d, n. done.
  - edestruct (add_metadata_unreadable mp ds ex oo g w) as [e' He'].
    + intros d. rewrite Hcfg. discriminate.
    + rewrite He' in H. discriminate H.
Qed.

Lemma add_metadata_succeeds mp ds ex oo n w d :
  files w !! path_join mp "MLmodel" = Some (PDict d) →
  str_in (or_default ex) ["disabled"; "default"; "plotly"] = true →
  str_in (or_default oo) ["disabled"; "default"] = true →
  0 ≤ n →
  _add_metadata mp ds ex oo (Some n) w =
  (Ok (patched_dataset d ds),
   with_file w (path_join mp "MLmodel")
     (PDict (dict_set "metadata" (PDict (patched_metadata d ds ex oo n)) d))).
Proof.
  intros Hf Hex Hoo Hn. rewrite (add_metadata_run _ _ _ _ _ _ _ Hf), Hex, Hoo.
  cbn [negb]. by rewrite (proj2 (Z.leb_le 0 n) Hn).
Qed.

Lemma str_in_spec s l : str_in s l = true ↔ s ∈ l.
Proof.
  unfold str_in. induction l as [|x l IH]; cbn [existsb].
  - split; [discriminate|]. by intros ?%elem_of_nil.
  - rewrite orb_true_iff, IH, elem_of_cons.
    destruct (String.eqb_spec s x) as [->|Hne]; [by split; auto|].
    split; (intros [?|?]; [done|by right]).
Qed.

Lemma unknown_mode_rejected accepted mode :
  unknown_mode accepted mode → str_in (or_default mode) accepted = false.
Proof.
  intros (s & -> & Hs & Hnot). unfold or_default.
  destruct (String.eqb_spec s ""); [done|].
  apply not_true_is_false. by rewrite str_in_spec.
Qed.

(** C5, as the code has it.  A mode that is set to a non-empty string
    outside the accepted values (explanations: disabled, default, plotly;
    OOD detection: disabled, default), or a negative GPU count, makes the
    patch raise, and the world, the descriptor file included, is left as it
    was; on a readable descriptor the error is an [AssertionError].  (An
    empty mode counts as unset and stands for [default].) *)
Theorem add_metadata_rejects_before_write (mp : string) (ds : option pydict)
    (ex oo : option string) (g : option Z) (w : world) :
  unknown_mode ["disabled"; "default"; "plotly"] ex
  ∨ unknown_mode ["disabled"; "default"] oo
  ∨ (∃ n, g = Some n ∧ n < 0) →
  ∃ e, _add_metadata mp ds ex oo g w = (Raise e, w)
       ∧ (∀ d, files w !! path_join mp "MLmodel" = Some (PDict d) →
               exc_class e = AssertionError).
Proof.
  intros Hbad.
  destruct (files w !! path_join mp "MLmodel") as [cfg|] eqn:Hcfg.
  - destruct cfg as [| | | | | |d];
      try (edestruct (add_metadata_unreadable mp ds ex oo g w) as [e' He'];
           [intros d; rewrite Hcfg; discriminate
           |exists e'; split; [exact He'|intros d; discriminate]]).
    rewrite (add_metadata_run mp ds ex oo g w d Hcfg).
    destruct (str_in (or_default ex) _) eqn:Hex;
      [|eexists; split; [reflexivity|by intros]].
    destruct (str_in (or_default oo) _) eqn:Hoo;
      [|eexists; split; [reflexivity|by intros]].
    destruct Hbad as [Hm|[Hm|(n & -> & Hn)]].
    + apply unknown_mode_rejected in Hm. congruence.
    + apply unknown_mode_rejected in Hm. congruence.
    + cbn [negb]. rewrite (proj2 (Z.leb_gt 0 n) Hn).
      eexists; split; [reflexivity|by intros].
  - edestruct (add_metadata_unreadable mp ds ex oo g w) as [e' He'].
    + intros d. rewrite Hcfg. discriminate.
    + exists e'. split; [exact He'|]. intros d. discriminate.
Qed.

Lemma add_metadata_rejects_before_write_witness :
  (unknown_mode ["disabled"; "default"; "plotly"] (Some "shap")
   ∨ unknown_mode ["disabled"; "default"] None
   ∨ (∃ n, Some 0 = Some n ∧ n < 0))
  ∧ ∃ e, _add_metadata "model" None (Some "shap") None (Some 0) sample_model_world
         = (Raise e, sample_model_world)
         ∧ (∀ d, files sample_model_world !! path_join "model" "MLmodel"
                 = Some (PDict d) →
                 exc_class e = AssertionError).
Proof.
  assert (unknown_mode ["disabled"; "default"; "plotly"] (Some "shap")) as H.
  { exists "shap". split; [reflexivity|]. split; [discriminate|].
    rewrite <- str_in_spec. vm_compute. discriminate. }
  split; [by left|].
  exact (add_metadata_rejects_before_write "model" None (Some "shap") None
           (Some 0) sample_model_world (or_introl H)).
Defined.

(** C5, as the spec words it, fails on the empty string: it is outside the
    accepted explanation modes, yet the patch goes through and writes
    [default]. *)
Lemma add_metadata_empty_mode_accepted :
  ("" ∉ ["disabled"; "default"; "plotly"])
  ∧ fst (_add_metadata "model" None (Some "") None (Some 0) sample_model_world)
    = Ok None
  ∧ fst ((let! cfg := _read_mlmodel_yaml "model" in
          _get_field cfg "metadata.explanations")
           (snd (_add_metadata "model" None (Some "") None (Some 0)
                   sample_model_world)))
    = Ok (PStr "default").
Proof.
  split; [|split; vm_compute; reflexivity].
  rewrite <- str_in_spec. vm_compute. discriminate.
Qed.

(** ** The patch is idempotent *)

Lemma patched_dataset_twice d ds :
  patched_dataset d (patched_dataset d ds) = patched_dataset d ds.
Proof. destruct ds as [ds0|]; [|reflexivity]. cbn. by rewrite dict_set_set. Qed.

Lemma patched_metadata_dataset_twice d ds ex oo n :
  patched_metadata d (patched_dataset d ds) ex oo n = patched_metadata d ds ex oo n.
Proof.
  destruct ds as [ds0|]; [|reflexivity].
  unfold patched_metadata, patched_dataset. by rewrite dict_set_set.
Qed.

Lemma patched_metadata_set_metadata d x ds ex oo n :
  patched_metadata (dict_set "metadata" x d) ds ex oo n
  = patched_metadata d ds ex oo n.
Proof.
  unfold patched_metadata.
  by rewrite !field_of_set_metadata by (vm_compute; discriminate).
Qed.

Lemma patched_dataset_set_metadata d x ds :
  patched_dataset (dict_set "metadata" x d) ds = patched_dataset d ds.
Proof.
  unfold patched_dataset. destruct ds; [|reflexivity].
  by rewrite !field_of_set_metadata by (vm_compute; discriminate).
Qed.

Lemma with_file_twice w path doc doc' :
  with_file (with_file w path doc) path doc' = with_file w path doc'.
Proof. unfold with_file. cbn. by rewrite insert_insert_eq. Qed.

Lemma add_metadata_again mp ds ds2 ex oo g w r w' :
  _add_metadata mp ds ex oo g w = (Ok r, w') →
  ds2 = ds ∨ ds2 = r →
  _add_metadata mp ds2 ex oo g w' = (Ok r, w').
Proof.
  intros (d & n & Hf & Hex & Hoo & -> & Hn & -> & ->)%add_metadata_ok_inv Hds.
  set (path := path_join mp "MLmodel").
  set (md := patched_metadata d ds ex oo n).
  assert (files (with_file w path (PDict (dict_set "metadata" (PDict md) d)))
            !! path = Some (PDict (dict_set "metadata" (PDict md) d))) as Hf'.
  { cbn. apply lookup_insert_eq. }
  rewrite (add_metadata_succeeds _ _ _ _ _ _ _ Hf' Hex Hoo)
    by (by apply Z.leb_le).
  rewrite patched_metadata_set_metadata, patched_dataset_set_metadata,
    dict_set_set, with_file_twice.
  destruct Hds as [->| ->].
  - reflexivity.
  - subst md. by rewrite patched_metadata_dataset_twice, patched_dataset_twice.
Qed.

(** C6.  After a successful patch with explanation mode [plotly], reading
    the descriptor again gives [metadata.explanations == 'plotly']; and a
    second patch with the same arguments (the dataset dict as passed the
    first time, or as the first call left it) succeeds and leaves the world,
    the descriptor included, equal to the result of the first. *)
Theorem add_metadata_round_trip_idempotent (mp : string) (ds : option pydict)
    (ex oo : option string) (g : option Z) (w w' : world) (r : option pydict) :
  _add_metadata mp ds ex oo g w = (Ok r, w') →
  (ex = Some "plotly" →
   (let! cfg := _read_mlmodel_yaml mp in
    _get_field cfg "metadata.explanations") w' = (Ok (PStr "plotly"), w'))
  ∧ _add_metadata mp ds ex oo g w' = (Ok r, w')
  ∧ _add_metadata mp r ex oo g w' = (Ok r, w').
Proof.
  intros H. split; [|split; eapply add_metadata_again; eauto].
  intros ->.
  apply add_metadata_ok_inv in H
    as (d & n & Hf & Hex & Hoo & -> & Hn & -> & ->).
  unfold _read_mlmodel_yaml, bind, read_file. cbn [files with_file].
  rewrite lookup_insert_eq, get_field_dict. f_equal. f_equal.
  unfold field_of. cbn [split_dot split_dot_aux Ascii.eqb Bool.eqb hd tl
                        String.append].
  rewrite dict_get_set_eq. cbn [_get_field_loop].
  unfold patched_metadata.
  destruct (0 <? n);
    rewrite ?(dict_get_set_ne "explanations" "gpus") by discriminate;
    rewrite (dict_get_set_ne "explanations" "oodDetection") by discriminate;
    by rewrite dict_get_set_eq.
Qed.

Lemma add_metadata_round_trip_idempotent_witness :
  _add_metadata "model" (Some [("name", PStr "data"); ("path", PStr "/tmp/d.csv")])
    (Some "plotly") (Some "disabled") (Some 2) sample_model_world
  = (Ok (Some [("name", PStr "data"); ("path", PNone)]),
     snd (_add_metadata "model"
            (Some [("name", PStr "data"); ("path", PStr "/tmp/d.csv")])
            (Some "plotly") (Some "disabled") (Some 2) sample_model_world))
  ∧ (let! cfg := _read_mlmodel_yaml "model" in
     _get_field cfg "metadata.explanations")
      (snd (_add_metadata "model"
              (Some [("name", PStr "data"); ("path", PStr "/tmp/d.csv")])
              (Some "plotly") (Some "disabled") (Some 2) sample_model_world))
    = (Ok (PStr "plotly"),
       snd (_add_metadata "model"
              (Some [("name", PStr "data"); ("path", PStr "/tmp/d.csv")])
              (Some "plotly") (Some "disabled") (Some 2) sample_model_world)).
Proof.
  assert (_add_metadata "model"
            (Some [("name", PStr "data"); ("path", PStr "/tmp/d.csv")])
            (Some "plotly") (Some "disabled") (Some 2) sample_model_world
          = (Ok (Some [("name", PStr "data"); ("path", PNone)]),
             snd (_add_metadata "model"
                    (Some [("name", PStr "data"); ("path", PStr "/tmp/d.csv")])
                    (Some "plotly") (Some "disabled") (Some 2) sample_model_world)))
    as H by (vm_compute; reflexivity).
  split; [exact H|].
  exact (proj1 (add_metadata_round_trip_idempotent _ _ _ _ _ _ _ _ H) eq_refl).
Defined.

(** ** register_example_request *)

Lemma write_file_ok w path doc :
  is_Some (files w !! path) ∨ creatable w path = true →
  write_file path doc w = (Ok tt, with_file w path doc).
Proof.
  intros H. unfold write_file.
  destruct H as [H| ->].
  - by rewrite (bool_decide_eq_true_2 _ H).
  - by rewrite orb_true_r.
Qed.

Lemma registered_path tmp_dir (arts : option (gmap string string)) :
  (artifacts_or_empty arts
   ∪ {[ EXAMPLE_REQUEST := tmp_dir ++ "/" ++ EXAMPLE_REQUEST ++ ".json" ]})
    !! EXAMPLE_REQUEST
  = Some (default (tmp_dir ++ "/" ++ EXAMPLE_REQUEST ++ ".json")
            (artifacts_or_empty arts !! EXAMPLE_REQUEST)).
Proof.
  rewrite lookup_union.
  destruct (artifacts_or_empty arts !! EXAMPLE_REQUEST) as [p|] eqn:Hp;
    rewrite lookup_singleton_eq; reflexivity.
Qed.

(** C3, as the code has it.  With neither an inline request nor an artifact
    map the call fails with an [AssertionError].  With an inline request
    (whether or not an artifact map comes with it) the request is written
    to the path the returned map holds under [example_request]: the entry
    of the given map if it has one, the temporary file otherwise.  Without
    an inline request the given map must have an [example_request] entry
    that names an existing file: otherwise the call fails with an
    [AssertionError]; if it has, the map is returned as it is. *)
Theorem register_example_request_cases (tmp_dir : string) (req : pyval)
    (arts : option (gmap string string)) (w : world) :
  (req = PNone → arts = None →
   ∃ msg, register_example_request tmp_dir req arts w
          = (Raise (Exc AssertionError msg), w))
  ∧ (truthy req = true →
     ∀ p, p = default (tmp_dir ++ "/example_request.json")
                (artifacts_or_empty arts !! EXAMPLE_REQUEST) →
          is_Some (files w !! p) ∨ creatable w p = true →
          ∃ arts' w',
            register_example_request tmp_dir req arts w = (Ok arts', w')
            ∧ arts' !! EXAMPLE_REQUEST = Some p
            ∧ files w' !! p = Some req
            ∧ (∀ k, k ≠ EXAMPLE_REQUEST →
                    arts' !! k = artifacts_or_empty arts !! k))
  ∧ (truthy req = false →
     ∀ a, arts = Some a →
          (a !! EXAMPLE_REQUEST = None
           ∨ ∃ p, a !! EXAMPLE_REQUEST = Some p ∧ files w !! p = None) →
          ∃ msg, register_example_request tmp_dir req arts w
                 = (Raise (Exc AssertionError msg), w))
  ∧ (truthy req = false →
     ∀ a p, arts = Some a → a !! EXAMPLE_REQUEST = Some p →
            is_Some (files w !! p) →
            register_example_request tmp_dir req arts w = (Ok a, w)).
Proof.
  repeat split.
  - intros -> ->. eexists. reflexivity.
  - intros Hreq p Hp Hw.
    assert (is_not_None req = true) as Hnn by (by destruct req).
    unfold register_example_request.
    rewrite Hnn, Hreq. cbn [orb assert_].
    unfold mbind, M_bind, bind. cbn [mret M_ret ret].
    rewrite registered_path. cbn [default].
    change (tmp_dir ++ "/" ++ EXAMPLE_REQUEST ++ ".json")
      with (tmp_dir ++ "/example_request.json").
    rewrite <- Hp. rewrite (write_file_ok _ _ _ Hw).
    eexists _, _. split; [reflexivity|].
    split; [by rewrite registered_path, Hp|].
    split; [cbn; apply lookup_insert_eq|].
    intros k Hk. rewrite lookup_union.
    rewrite lookup_singleton_ne by done.
    by destruct (artifacts_or_empty arts !! k).
  - intros Hreq a -> Ha.
    unfold register_example_request. rewrite Hreq.
    rewrite (bool_decide_eq_true_2 (is_Some (Some a))) by eauto.
    rewrite orb_true_r. cbn [assert_].
    unfold mbind, M_bind, bind. cbn [mret M_ret ret].
    destruct Ha as [Ha|(p & Ha & Hp)]; rewrite Ha.
    + rewrite bool_decide_eq_false_2 by (by intros [? ?]).
      eexists. reflexivity.
    + rewrite bool_decide_eq_true_2 by eauto. cbn [assert_ ret default].
      unfold path_exists. cbn [default from_option id]. rewrite Hp.
      rewrite bool_decide_eq_false_2 by (by intros [? ?]).
      eexists. reflexivity.
  - intros Hreq a p -> Ha Hp.
    unfold register_example_request. rewrite Hreq.
    rewrite (bool_decide_eq_true_2 (is_Some (Some a))) by eauto.
    rewrite orb_true_r. cbn [assert_].
    unfold mbind, M_bind, bind. cbn [mret M_ret ret].
    rewrite Ha. rewrite bool_decide_eq_true_2 by eauto.
    cbn [assert_ ret default]. unfold path_exists.
    cbn [default from_option id].
    by rewrite (bool_decide_eq_true_2 _ Hp).
Qed.

Lemma register_example_request_cases_witness :
  (truthy sample_request = true
   ∧ ∃ arts' w',
       register_example_request "/tmp/navio" sample_request None sample_world
       = (Ok arts', w')
       ∧ arts' !! EXAMPLE_REQUEST = Some "/tmp/navio/example_request.json"
       ∧ files w' !! "/tmp/navio/example_request.json" = Some sample_request
       ∧ (∀ k, k ≠ EXAMPLE_REQUEST → arts' !! k = artifacts_or_empty None !! k))
  ∧ (truthy PNone = false
     ∧ ∃ msg,
         register_example_request "/tmp/navio" PNone
           (Some {[ "example_request" := "non_existent_path" ]}) sample_world
         = (Raise (Exc AssertionError msg), sample_world)).
Proof.
  split.
  - split; [reflexivity|].
    exact (proj1 (proj2 (register_example_request_cases
                           "/tmp/navio" sample_request None sample_world))
             eq_refl "/tmp/navio/example_request.json" eq_refl
             (or_intror eq_refl)).
  - split; [reflexivity|].
    refine (proj1 (proj2 (proj2 (register_example_request_cases
                                   "/tmp/navio" PNone
                                   (Some {[ "example_request" := "non_existent_path" ]})
                                   sample_world)))
              eq_refl _ eq_refl _).
    right. exists "non_existent_path". split; reflexivity.
Defined.

(** C3, as the spec words it, fails where it demands that exactly one of
    the two be supplied: a call with an inline request and an artifact map
    succeeds (this is how [to_navio] calls the function). *)
Lemma register_example_request_both_supplied :
  fst (register_example_request "/tmp/navio" sample_request
         (Some {[ "model_path" := "a_path" ]}) sample_world)
  = Ok ({[ "model_path" := "a_path" ]}
        ∪ {[ "example_request" := "/tmp/navio/example_request.json" ]})
  ∧ files (snd (register_example_request "/tmp/navio" sample_request
                  (Some {[ "model_path" := "a_path" ]}) sample_world))
      !! "/tmp/navio/example_request.json"
    = Some sample_request.
Proof. split; vm_compute; reflexivity. Qed.

(** ** The console of the validator *)

Lemma only_notices_refl w : only_notices w w.
Proof.
  exists []. split; [|constructor]. destruct w. cbn. by rewrite app_nil_r.
Qed.

Lemma only_notices_trans w1 w2 w3 :
  only_notices w1 w2 → only_notices w2 w3 → only_notices w1 w3.
Proof.
  intros (l1 & -> & H1) (l2 & -> & H2). exists (l1 ++ l2)%list. cbn.
  split; [by rewrite app_assoc|]. by apply Forall_app.
Qed.

Lemma quiet_ret {A} (a : A) : quiet (mret a).
Proof. intros w o w' [= <- <-]. apply only_notices_refl. Qed.

Lemma quiet_raise {A} e : quiet (raise (A:=A) e).
Proof. intros w o w' [= <- <-]. apply only_notices_refl. Qed.

Lemma quiet_lift {A} (o : outcome A) : quiet (lift o).
Proof. intros w o' w' [= <- <-]. apply only_notices_refl. Qed.

Lemma quiet_assert c msg : quiet (assert_ c msg).
Proof. destruct c; [apply quiet_ret|apply quiet_raise]. Qed.

Lemma quiet_print line : is_notice line = true → quiet (print line).
Proof.
  intros Hl w o w' [= <- <-]. exists [line]. split; [done|]. by constructor.
Qed.

Lemma quiet_read_file path : quiet (read_file path).
Proof.
  intros w o w'. unfold read_file.
  destruct (files w !! path); intros [= <- <-]; apply only_notices_refl.
Qed.

Lemma quiet_bind {A B} (m : M A) (k : A → M B) :
  quiet m → (∀ a, quiet (k a)) → quiet (bind m k).
Proof.
  intros Hm Hk w o w'. unfold bind.
  destruct (m w) as [[a|e] w1] eqn:Hmw.
  - intros Hkw. eapply only_notices_trans; [by eapply Hm|by eapply Hk].
  - intros [= <- <-]. by eapply Hm.
Qed.

Lemma quiet_mbind {A B} (m : M A) (k : A → M B) :
  quiet m → (∀ a, quiet (k a)) → quiet (m ≫= k).
Proof. apply quiet_bind. Qed.

Lemma quiet_try_except {A} (body : M A) catches handler :
  quiet body → (∀ e, quiet (handler e)) → quiet (try_except body catches handler).
Proof.
  intros Hb Hh w o w'. unfold try_except.
  destruct (body w) as [[a|e] w1] eqn:Hbw.
  - intros [= <- <-]. by eapply Hb.
  - destruct (catches (exc_class e)).
    + intros Hhw. eapply only_notices_trans; [by eapply Hb|by eapply Hh].
    + intros [= <- <-]. by eapply Hb.
Qed.

Lemma quiet_if {A} (c : bool) (m1 m2 : M A) :
  quiet m1 → quiet m2 → quiet (if c then m1 else m2).
Proof. by destruct c. Qed.

Lemma quiet_py_get v k dflt : quiet (py_get v k dflt).
Proof. destruct v; first [apply quiet_ret|apply quiet_raise]. Qed.

Lemma quiet_py_in k v : quiet (py_in k v).
Proof. destruct v; first [apply quiet_ret|apply quiet_raise]. Qed.

Lemma quiet_path_join_val a v : quiet (path_join_val a v).
Proof. destruct v; first [apply quiet_ret|apply quiet_raise]. Qed.

Create HintDb quiet.
#[local] Hint Resolve quiet_ret quiet_raise quiet_lift quiet_assert
  quiet_read_file quiet_py_get quiet_py_in quiet_path_join_val : quiet.

(** Breaks a computation into its steps. *)
Ltac quiet_steps :=
  repeat first
    [ solve [auto with quiet]
    | apply quiet_print; reflexivity
    | apply quiet_bind; [|intros ?]
    | apply quiet_mbind; [|intros ?]
    | apply quiet_try_except; [|intros ?]
    | apply quiet_if ].

Lemma quiet_get_field yml path : quiet (_get_field yml path).
Proof. unfold _get_field. quiet_steps. Qed.

Section QuietStages.
Context (E : env).

Lemma quiet_validate_schema data s name r :
  quiet (_validate_schema E data s name r).
Proof.
  unfold _validate_schema, jsonschema_validate. quiet_steps.
Qed.

Lemma quiet_validate_metadata mp : quiet (validate_metadata E mp).
Proof.
  pose proof quiet_get_field. pose proof quiet_validate_schema.
  unfold validate_metadata, _read_mlmodel_yaml, _read_example_request,
    is_input_nested, or_else, _is_default_ood_enabled_in_metadata,
    _is_default_explanation_enabled_in_metadata, and_then,
    _is_ood_set_to_default_in_metadata,
    _is_explanation_set_to_default_in_metadata,
    _is_data_provided_in_metadata.
  quiet_steps; auto.
Qed.

Lemma quiet_run_model_io mp mi : quiet (run_model_io E mp mi).
Proof. unfold run_model_io. quiet_steps. destruct mi; quiet_steps. Qed.

Lemma quiet_check_if_prediction_call_is_used mp :
  quiet (_check_if_prediction_call_is_used E mp).
Proof.
  unfold _check_if_prediction_call_is_used,
    _is_model_predict_wrapped_by_prediction_call.
  quiet_steps. destruct (python_model_predict _); quiet_steps.
Qed.

Lemma quiet_verify_model_output v : quiet (verify_model_output E v).
Proof.
  unfold verify_model_output, _validate_prediction_schema, jsonschema_validate.
  quiet_steps. destruct v; quiet_steps.
Qed.

Lemma quiet_check_zip_size zip limit : quiet (check_zip_size E zip limit).
Proof. unfold check_zip_size. quiet_steps. Qed.

#[local] Hint Resolve quiet_validate_metadata quiet_run_model_io
  quiet_check_if_prediction_call_is_used quiet_verify_model_output
  quiet_check_zip_size : quiet.

Lemma quiet_run mp zip limit : quiet (_run E mp zip limit).
Proof. unfold _run. quiet_steps. Qed.
End QuietStages.

(** ** The advisory checks *)

(** C7.  On every model that loads, the decorator check returns normally:
    if the predict method is not wrapped by [prediction_call] it prints one
    warning, otherwise nothing; so [_run] goes on to the output check
    either way. *)
Theorem check_if_prediction_call_is_used_advisory (E : env) (mp : string)
    (model : PyFuncModel) (w : world) :
  load_model E mp = Ok model →
  _check_if_prediction_call_is_used E mp w
  = (Ok tt,
     if passes_for_wrapped model then w
     else printed w [prediction_call_warning E]).
Proof.
  intros Hload.
  unfold _check_if_prediction_call_is_used, bind, lift, try_except,
    _is_model_predict_wrapped_by_prediction_call, passes_for_wrapped,
    _is_wrapped_by_prediction_call.
  rewrite Hload.
  destruct (python_model_predict model) as [func|]; cbn.
  - destruct (wrapped_by_prediction_call_attr func) as [v|]; cbn.
    + destruct (truthy v); reflexivity.
    + reflexivity.
  - reflexivity.
Qed.

Lemma check_if_prediction_call_is_used_advisory_witness :
  load_model (sample_env (sample_model None (Ok PNone)) 0) "model"
  = Ok (sample_model None (Ok PNone))
  ∧ _check_if_prediction_call_is_used
      (sample_env (sample_model None (Ok PNone)) 0) "model" sample_world
    = (Ok tt,
       printed sample_world
         [prediction_call_warning (sample_env (sample_model None (Ok PNone)) 0)]).
Proof.
  split; [reflexivity|].
  exact (check_if_prediction_call_is_used_advisory
           (sample_env (sample_model None (Ok PNone)) 0) "model"
           (sample_model None (Ok PNone)) sample_world eq_refl).
Defined.

(** C8.  On every archive that exists, whatever its size, the size check
    returns normally; it prints its warning exactly when the size exceeds
    the limit it is given.  The limit [to_navio] passes is 1000000000
    bytes. *)
Theorem check_zip_size_soft_limit (E : env) (model_zip : string)
    (limit size : Z) (w : world) :
  st_size E model_zip = Ok size →
  (∃ w', check_zip_size E model_zip limit w = (Ok tt, w')
         ∧ (limit < size → w' = printed w [zip_size_warning limit])
         ∧ (size ≤ limit → w' = w))
  ∧ MODEL_SIZE_LIMIT_IN_BYTES = 1000000000.
Proof.
  intros Hsize. split; [|reflexivity].
  unfold check_zip_size, bind, lift. rewrite Hsize.
  destruct (Z.ltb_spec limit size) as [Hlt|Hge].
  - eexists. split; [reflexivity|]. split; [reflexivity|lia].
  - eexists. split; [reflexivity|]. split; [lia|reflexivity].
Qed.

Lemma check_zip_size_soft_limit_witness :
  st_size (sample_env (sample_model None (Ok PNone)) 2000000000) "model.zip"
  = Ok 2000000000
  ∧ (∃ w', check_zip_size
             (sample_env (sample_model None (Ok PNone)) 2000000000)
             "model.zip" MODEL_SIZE_LIMIT_IN_BYTES sample_world = (Ok tt, w')
           ∧ (MODEL_SIZE_LIMIT_IN_BYTES < 2000000000 →
              w' = printed sample_world
                     [zip_size_warning MODEL_SIZE_LIMIT_IN_BYTES])
           ∧ (2000000000 ≤ MODEL_SIZE_LIMIT_IN_BYTES → w' = sample_world))
  ∧ MODEL_SIZE_LIMIT_IN_BYTES = 1000000000.
Proof.
  split; [reflexivity|].
  exact (check_zip_size_soft_limit
           (sample_env (sample_model None (Ok PNone)) 2000000000) "model.zip"
           MODEL_SIZE_LIMIT_IN_BYTES 2000000000 sample_world eq_refl).
Defined.

(** ** ModelValidator.__call__ *)

Lemma failed_message_not_notice kwargs :
  is_notice (failed_message kwargs) = false.
Proof. reflexivity. Qed.

Lemma succeeded_message_not_notice kwargs :
  is_notice (succeeded_message kwargs) = false.
Proof. reflexivity. Qed.

Lemma not_among_notices line lines :
  is_notice line = false →
  Forall (fun l => is_notice l = true) lines →
  line ∉ lines.
Proof.
  intros Hl Hall Hin. rewrite Forall_forall in Hall.
  specialize (Hall _ Hin). congruence.
Qed.

Lemma run_printed (E : env) mp zip limit w o w1 :
  _run E mp zip limit w = (o, w1) →
  ∃ lines, w1 = printed w lines ∧ Forall (fun l => is_notice l = true) lines.
Proof. intros H. exact (quiet_run E mp zip limit w o w1 H). Qed.

(** C4.  [_run] is fail-fast: the first stage that raises ends it, with
    that exception and the console as that stage left it, whatever the
    later stages would have done.  When [_run] raises a [ValidationError]
    or an [AssertionError], [__call__] prints the failure message once,
    after the notices of the stages (none of which is that message), and
    raises the same exception again; when [_run] returns, [__call__] prints
    the success message and returns. *)
Theorem call_fail_fast (E : env) (mp zip : string) (limit : Z)
    (kwargs : gmap string string) (w : world) :
  (∀ e w1,
      validate_metadata E mp w = (Raise e, w1) →
      _run E mp zip limit w = (Raise e, w1))
  ∧ (∀ w1 e w2,
      validate_metadata E mp w = (Ok tt, w1) →
      run_model_io E mp None w1 = (Raise e, w2) →
      _run E mp zip limit w = (Raise e, w2))
  ∧ (∀ w1 io w2 e w3,
      validate_metadata E mp w = (Ok tt, w1) →
      run_model_io E mp None w1 = (Ok io, w2) →
      _check_if_prediction_call_is_used E mp w2 = (Raise e, w3) →
      _run E mp zip limit w = (Raise e, w3))
  ∧ (∀ w1 io w2 w3 e w4,
      validate_metadata E mp w = (Ok tt, w1) →
      run_model_io E mp None w1 = (Ok io, w2) →
      _check_if_prediction_call_is_used E mp w2 = (Ok tt, w3) →
      verify_model_output E (snd io) w3 = (Raise e, w4) →
      _run E mp zip limit w = (Raise e, w4))
  ∧ (∀ w1 io w2 w3 w4 o w5,
      validate_metadata E mp w = (Ok tt, w1) →
      run_model_io E mp None w1 = (Ok io, w2) →
      _check_if_prediction_call_is_used E mp w2 = (Ok tt, w3) →
      verify_model_output E (snd io) w3 = (Ok tt, w4) →
      check_zip_size E zip limit w4 = (o, w5) →
      _run E mp zip limit w = (o, w5))
  ∧ (∀ e w1,
      _run E mp zip limit w = (Raise e, w1) →
      exc_class e = ValidationError ∨ exc_class e = AssertionError →
      ∃ lines,
        w1 = printed w lines
        ∧ (failed_message kwargs ∉ lines)
        ∧ __call__ E mp zip limit kwargs w
          = (Raise e, printed w (lines ++ [failed_message kwargs])))
  ∧ (∀ w1,
      _run E mp zip limit w = (Ok tt, w1) →
      ∃ lines,
        w1 = printed w lines
        ∧ (failed_message kwargs ∉ lines)
        ∧ __call__ E mp zip limit kwargs w
          = (Ok tt, printed w (lines ++ [succeeded_message kwargs]))).
Proof.
  repeat split.
  - intros e w1 H1. unfold _run, mbind, M_bind, bind. by rewrite H1.
  - intros w1 e w2 H1 H2. unfold _run, mbind, M_bind, bind.
    by rewrite H1, H2.
  - intros w1 io w2 e w3 H1 H2 H3. unfold _run, mbind, M_bind, bind.
    by rewrite H1, H2, H3.
  - intros w1 io w2 w3 e w4 H1 H2 H3 H4. unfold _run, mbind, M_bind, bind.
    by rewrite H1, H2, H3, H4.
  - intros w1 io w2 w3 w4 o w5 H1 H2 H3 H4 H5.
    unfold _run, mbind, M_bind, bind. by rewrite H1, H2, H3, H4, H5.
  - intros e w1 Hrun Hcls.
    destruct (run_printed _ _ _ _ _ _ _ Hrun) as (lines & -> & Hlines).
    exists lines. split; [reflexivity|].
    split; [by apply not_among_notices|].
    unfold __call__, mbind, M_bind, bind, try_except. rewrite Hrun.
    assert (is_class ValidationError (exc_class e)
            || is_class AssertionError (exc_class e) = true) as ->.
    { unfold is_class. destruct Hcls as [-> | ->]; reflexivity. }
    unfold print, printed. cbn. by rewrite <- app_assoc.
  - intros w1 Hrun.
    destruct (run_printed _ _ _ _ _ _ _ Hrun) as (lines & -> & Hlines).
    exists lines. split; [reflexivity|].
    split; [by apply not_among_notices|].
    unfold __call__, mbind, M_bind, bind, try_except. rewrite Hrun.
    unfold print, printed. cbn. by rewrite <- app_assoc.
Qed.

Lemma call_fail_fast_witness :
  (_run failing_env "model" "model.zip" MODEL_SIZE_LIMIT_IN_BYTES packaged_world
   = (Raise (Exc AssertionError (model_output_keys_message failing_env)),
      printed packaged_world [prediction_call_warning failing_env])
   ∧ (exc_class (Exc AssertionError (model_output_keys_message failing_env))
      = ValidationError
      ∨ exc_class (Exc AssertionError (model_output_keys_message failing_env))
        = AssertionError)
   ∧ ∃ lines,
       printed packaged_world [prediction_call_warning failing_env]
       = printed packaged_world lines
       ∧ (failed_message ∅ ∉ lines)
       ∧ __call__ failing_env "model" "model.zip" MODEL_SIZE_LIMIT_IN_BYTES ∅
           packaged_world
         = (Raise (Exc AssertionError (model_output_keys_message failing_env)),
            printed packaged_world (lines ++ [failed_message ∅])))
  ∧ (_run passing_env "model" "model.zip" MODEL_SIZE_LIMIT_IN_BYTES packaged_world
     = (Ok tt, packaged_world)
     ∧ ∃ lines,
         packaged_world = printed packaged_world lines
         ∧ (failed_message ∅ ∉ lines)
         ∧ __call__ passing_env "model" "model.zip" MODEL_SIZE_LIMIT_IN_BYTES ∅
             packaged_world
           = (Ok tt, printed packaged_world (lines ++ [succeeded_message ∅]))).
Proof.
  split.
  - assert (_run failing_env "model" "model.zip" MODEL_SIZE_LIMIT_IN_BYTES
              packaged_world
            = (Raise (Exc AssertionError (model_output_keys_message failing_env)),
               printed packaged_world [prediction_call_warning failing_env]))
      as H by (vm_compute; reflexivity).
    split; [exact H|]. split; [right; reflexivity|].
    exact (proj1 (proj2 (proj2 (proj2 (proj2 (proj2
             (call_fail_fast failing_env "model" "model.zip"
                MODEL_SIZE_LIMIT_IN_BYTES ∅ packaged_world))))))
             _ _ H (or_intror eq_refl)).
  - assert (_run passing_env "model" "model.zip" MODEL_SIZE_LIMIT_IN_BYTES
              packaged_world
            = (Ok tt, packaged_world))
      as H by (vm_compute; reflexivity).
    split; [exact H|].
    exact (proj2 (proj2 (proj2 (proj2 (proj2 (proj2
             (call_fail_fast passing_env "model" "model.zip"
                MODEL_SIZE_LIMIT_IN_BYTES ∅ packaged_world))))))
             _ H).
Defined.

(** ** prediction_call *)

Lemma error_payload_keys a b c :
  key_set [("error_code", a); ("message", b); ("stack_trace", c)] = ERROR_KEYS.
Proof. unfold key_set, ERROR_KEYS. cbn. set_solver. Qed.

(** C9, as the code has it.  If the wrapped function returns, the wrapper
    returns the same result.  If it raises an exception derived from
    [Exception], the wrapper returns a dictionary whose keys are exactly
    [error_code], [message] and [stack_trace], the first holding the name
    of the exception's class and the second its string form.  An exception
    that is not derived from [Exception] passes through the wrapper. *)
Theorem prediction_call_wraps {A : Type} (format_exc : exn → string)
    (predict_fn : A → M pyval) (args : A) (w : world) :
  (∀ r w', predict_fn args w = (Ok r, w') →
           prediction_call format_exc predict_fn args w = (Ok r, w'))
  ∧ (∀ e w', predict_fn args w = (Raise e, w') →
             is_Exception (exc_class e) = true →
             ∃ d w'',
               prediction_call format_exc predict_fn args w = (Ok (PDict d), w'')
               ∧ key_set d = ERROR_KEYS
               ∧ dict_get "error_code" d = Some (PStr (class_name (exc_class e)))
               ∧ dict_get "message" d = Some (PStr (exc_str e))
               ∧ dict_get "stack_trace" d = Some (PStr (format_exc e)))
  ∧ (∀ e w', predict_fn args w = (Raise e, w') →
             is_Exception (exc_class e) = false →
             prediction_call format_exc predict_fn args w = (Raise e, w')).
Proof.
  unfold prediction_call, try_except. repeat split.
  - intros r w' ->. reflexivity.
  - intros e w' -> ->. eexists _, _. split; [reflexivity|].
    split; [apply error_payload_keys|]. repeat split.
  - intros e w' -> ->. reflexivity.
Qed.

Lemma prediction_call_wraps_witness :
  ((fun _ : unit => raise (A:=pyval) (Exc (OtherException "ValueError") "bad input"))
     tt sample_world
   = (Raise (Exc (OtherException "ValueError") "bad input"), sample_world)
   ∧ is_Exception (OtherException "ValueError") = true
   ∧ ∃ d w'',
       prediction_call (fun _ => "Traceback (most recent call last): ...")
         (fun _ : unit => raise (Exc (OtherException "ValueError") "bad input"))
         tt sample_world
       = (Ok (PDict d), w'')
       ∧ key_set d = ERROR_KEYS
       ∧ dict_get "error_code" d = Some (PStr "ValueError")
       ∧ dict_get "message" d = Some (PStr "bad input")
       ∧ dict_get "stack_trace" d
         = Some (PStr "Traceback (most recent call last): ...")).
Proof.
  split; [reflexivity|]. split; [reflexivity|].
  exact (proj1 (proj2 (prediction_call_wraps
                         (fun _ => "Traceback (most recent call last): ...")
                         (fun _ : unit =>
                            raise (Exc (OtherException "ValueError") "bad input"))
                         tt sample_world))
           (Exc (OtherException "ValueError") "bad input") sample_world
           eq_refl eq_refl).
Defined.

(** C9, as the claim words it, fails on an exception outside [Exception]:
    [except Exception] does not catch a [KeyboardInterrupt], which leaves
    the wrapper as it came. *)
Lemma prediction_call_propagates_KeyboardInterrupt :
  prediction_call (fun _ => "Traceback (most recent call last): ...")
    (fun _ : unit => raise (Exc KeyboardInterrupt "")) tt sample_world
  = (Raise (Exc KeyboardInterrupt ""), sample_world).
Proof. reflexivity. Qed.

(** ** make_example_request *)

(** C10.  Without a datetime column [min_rows] plays no part: the call
    gives what it gives for [min_rows = None], a non-positive value
    included, and the result has no [minimumNumberRows] key.  Whenever a
    result has that key, a datetime column was supplied and the key holds
    the positive [min_rows]; with a datetime column, a non-positive
    [min_rows] never yields a result, and is rejected by the assertion
    whenever the same call goes through for [min_rows = None]. *)
Theorem make_example_request_min_rows (row : pydict) (target : string)
    (datetime_column : option string) (min_rows : option Z) :
  make_example_request row target None min_rows
  = make_example_request row target None None
  ∧ (∀ d, make_example_request row target None min_rows = Ok (PDict d) →
          dict_contains "minimumNumberRows" d = false)
  ∧ (∀ ex, make_example_request row target datetime_column min_rows = Ok ex →
           ∃ d, ex = PDict d
                ∧ (dict_contains "minimumNumberRows" d = true →
                   is_Some datetime_column
                   ∧ ∃ n, min_rows = Some n ∧ 0 < n
                          ∧ dict_get "minimumNumberRows" d = Some (PInt n)))
  ∧ (∀ c n, datetime_column = Some c → min_rows = Some n → n ≤ 0 →
            (∃ e, make_example_request row target datetime_column min_rows
                  = Raise e)
            ∧ (∀ ex, make_example_request row target datetime_column None = Ok ex →
                     ∃ msg, make_example_request row target datetime_column min_rows
                            = Raise (Exc AssertionError msg))).
Proof.
  split; [reflexivity|]. split; [|split].
  - unfold make_example_request, obind.
    destruct (oassert _ _); [|discriminate].
    destruct (omap _ _); [|discriminate].
    destruct (_column_spec row target None); [|discriminate].
    intros d [= <-]. reflexivity.
  - intros ex. unfold make_example_request, obind.
    destruct (oassert _ _); [|discriminate].
    destruct (omap _ _) as [features|]; [|discriminate].
    destruct (_column_spec row target None) as [tspec|]; [|discriminate].
    destruct datetime_column as [dt|].
    + destruct (_column_spec row dt (Some "timestamp")) as [dspec|];
        [|discriminate].
      destruct min_rows as [n|].
      * unfold oassert. destruct (Z.ltb_spec 0 n) as [Hn|Hn]; [|discriminate].
        intros [= <-]. eexists. split; [reflexivity|]. intros _.
        split; [eauto|]. exists n. split; [reflexivity|]. split; [lia|].
        reflexivity.
      * intros [= <-]. eexists. split; [reflexivity|]. cbn. discriminate.
    + intros [= <-]. eexists. split; [reflexivity|]. cbn. discriminate.
  - intros c n -> -> Hn. unfold make_example_request, obind.
    destruct (oassert (negb _) _); [|split; [eauto|discriminate]].
    destruct (omap _ _) as [features|]; [|split; [eauto|discriminate]].
    destruct (_column_spec row target None) as [tspec|];
      [|split; [eauto|discriminate]].
    destruct (_column_spec row c (Some "timestamp")) as [dspec|];
      [|split; [eauto|discriminate]].
    unfold oassert. rewrite (proj2 (Z.ltb_ge 0 n) Hn). split; eauto.
Qed.

Lemma make_example_request_min_rows_witness :
  make_example_request [("x", PInt 1); ("y", PInt 0)] "y" None (Some (-5))
  = Ok (PDict [("featureColumns",
                PList [PDict [("name", PStr "x"); ("sampleData", PInt 1);
                              ("type", PStr "float"); ("nullable", PBool false)]]);
               ("targetColumns",
                PList [PDict [("name", PStr "y"); ("sampleData", PInt 0);
                              ("type", PStr "float"); ("nullable", PBool false)]])])
  ∧ dict_contains "minimumNumberRows"
      [("featureColumns",
        PList [PDict [("name", PStr "x"); ("sampleData", PInt 1);
                      ("type", PStr "float"); ("nullable", PBool false)]]);
       ("targetColumns",
        PList [PDict [("name", PStr "y"); ("sampleData", PInt 0);
                      ("type", PStr "float"); ("nullable", PBool false)]])]
    = false.
Proof.
  split; [reflexivity|].
  exact (proj1 (proj2 (make_example_request_min_rows
                         [("x", PInt 1); ("y", PInt 0)] "y" None (Some (-5))))
           _ eq_refl).
Defined.

(** ** Strings *)

Lemma string_app_cons c (s t : string) : String c s ++ t = String c (s ++ t).
Proof. reflexivity. Qed.

Lemma string_app_nil_l (s : string) : "" ++ s = s.
Proof. reflexivity. Qed.

Lemma string_app_nil_r (s : string) : s ++ "" = s.
Proof.
  induction s as [|c s IH]; [reflexivity|]. by rewrite string_app_cons, IH.
Qed.

Lemma string_app_assoc (s1 s2 s3 : string) :
  (s1 ++ s2) ++ s3 = s1 ++ (s2 ++ s3).
Proof.
  induction s1 as [|c s1 IH]; [reflexivity|].
  by rewrite !string_app_cons, IH.
Qed.

Lemma substring_all (s : string) : substring 0 (String.length s) s = s.
Proof. induction s as [|c s IH]; simpl; congruence. Qed.

Lemma split_on_aux_segment sep acc x s :
  has_char sep x = false →
  split_on_aux sep acc (x ++ s) = split_on_aux sep (acc ++ x) s.
Proof.
  revert acc. induction x as [|c x IH]; intros acc Hx.
  - by rewrite string_app_nil_l, string_app_nil_r.
  - cbn in Hx. apply orb_false_iff in Hx as [Hc Hx].
    rewrite string_app_cons. cbn [split_on_aux].
    rewrite Hc, IH by done. by rewrite string_app_assoc.
Qed.

Lemma split_on_join sep (items : list string) :
  items ≠ [] →
  Forall (fun x => has_char sep x = false) items →
  split_on sep (join (String sep "") items) = items.
Proof.
  intros Hne Hall. unfold split_on.
  induction Hall as [|x rest Hx Hrest IH]; [done|].
  destruct rest as [|y rest].
  - cbn [join]. rewrite <- (string_app_nil_r x) at 1.
    by rewrite split_on_aux_segment.
  - change (join (String sep "") (x :: y :: rest))
      with (x ++ String sep (join (String sep "") (y :: rest))).
    rewrite split_on_aux_segment by done. cbn [split_on_aux].
    rewrite Ascii.eqb_refl, string_app_nil_l. by rewrite IH.
Qed.

(** ** process_path *)

(** X1.  [process_path] removes one leading [file://] and nothing else: a
    path that does not start with it comes back as it is. *)
Theorem process_path_strips_scheme (p s : string) :
  process_path ("file://" ++ p) = p
  ∧ (String.prefix "file://" s = false → process_path s = s).
Proof.
  split.
  - unfold process_path, slice_to, slice_from.
    assert (substring 0 7 ("file://" ++ p) = "file://") as ->
      by (destruct p; reflexivity).
    rewrite String.eqb_refl.
    change (String.length ("file://" ++ p)) with (7 + String.length p)%nat.
    replace (7 + String.length p - 7)%nat with (String.length p) by lia.
    change (substring 7 (String.length p) ("file://" ++ p))
      with (substring 0 (String.length p) p).
    apply substring_all.
  - intros Hs. unfold process_path, slice_to.
    destruct (String.eqb_spec (substring 0 7 s) "file://") as [Heq|]; [|done].
    apply (proj2 (prefix_correct "file://" s)) in Heq. congruence.
Qed.

Lemma process_path_strips_scheme_witness :
  String.prefix "file://" "/tmp/model" = false
  ∧ process_path "/tmp/model" = "/tmp/model".
Proof.
  split; [reflexivity|].
  exact (proj2 (process_path_strips_scheme "" "/tmp/model") eq_refl).
Defined.

(** ** _check_data_spec *)

(** X2.  A data spec passes exactly when it has a [name] and a [path], both
    strings; whatever else is wrong, the error is an [AssertionError]. *)
Theorem check_data_spec_accepts (spec : pydict) :
  (_check_data_spec spec = Ok tt
   ↔ ∃ n p, dict_get "name" spec = Some (PStr n)
            ∧ dict_get "path" spec = Some (PStr p))
  ∧ ∀ e, _check_data_spec spec = Raise e → exc_class e = AssertionError.
Proof.
  split; [split|].
  - intros H.
    unfold _check_data_spec, ofor, _check_data_spec_field, obind, oassert,
      subscript, dict_contains in H.
    destruct (dict_get "name" spec) as [[]|] eqn:Hn; cbn in H; try discriminate.
    destruct (dict_get "path" spec) as [[]|] eqn:Hp; cbn in H; try discriminate.
    eauto.
  - intros (n & p & Hn & Hp).
    unfold _check_data_spec, ofor, _check_data_spec_field, obind, oassert,
      subscript, dict_contains.
    rewrite Hn. cbn. rewrite Hp. reflexivity.
  - intros e H.
    unfold _check_data_spec, ofor, _check_data_spec_field, obind, oassert,
      subscript, dict_contains in H.
    destruct (dict_get "name" spec) as [[]|] eqn:Hn; cbn in H;
      try (injection H as <-; reflexivity).
    destruct (dict_get "path" spec) as [[]|] eqn:Hp; cbn in H;
      try (injection H as <-; reflexivity).
    discriminate.
Qed.

(** ** _add_sys_dependencies *)

Lemma str_items_strings (deps : list string) :
  str_items (map PStr deps) = deps.
Proof. induction deps as [|d deps IH]; cbn; [done|]. f_equal. exact IH. Qed.

Lemma valid_sys_dependency_strings (deps : list string) :
  _is_valid_sys_dependency_list (PList (map PStr deps)) = true.
Proof. cbn. induction deps as [|d deps IH]; cbn; done. Qed.

(** X3.  One dependency per line: for a non-empty list of dependencies none
    of which contains a line break, the file written under
    [<path>/sys_dependencies.txt] splits at the line breaks into the very
    list that was given. *)
Theorem add_sys_dependencies_one_per_line (path : string)
    (deps : list string) (w : world) :
  deps ≠ [] →
  Forall (fun d => has_char "010" d = false) deps →
  is_Some (files w !! path_join path "sys_dependencies.txt")
  ∨ creatable w (path_join path "sys_dependencies.txt") = true →
  ∃ text,
    _add_sys_dependencies path (PList (map PStr deps)) w
    = (Ok tt, with_file w (path_join path "sys_dependencies.txt") (PStr text))
    ∧ split_on "010" text = deps.
Proof.
  intros Hne Hall Hw. exists (join newline deps).
  split; [|by apply split_on_join].
  unfold _add_sys_dependencies.
  rewrite valid_sys_dependency_strings, str_items_strings.
  unfold mbind, M_bind, bind. cbn [assert_ mret M_ret ret].
  by rewrite (write_file_ok _ _ _ Hw).
Qed.

Lemma add_sys_dependencies_one_per_line_witness :
  ["libgomp1"; "ffmpeg"] ≠ []
  ∧ Forall (fun d => has_char "010" d = false) ["libgomp1"; "ffmpeg"]
  ∧ ∃ text,
      _add_sys_dependencies "model" (PList (map PStr ["libgomp1"; "ffmpeg"]))
        sample_world
      = (Ok tt, with_file sample_world
                  (path_join "model" "sys_dependencies.txt") (PStr text))
      ∧ split_on "010" text = ["libgomp1"; "ffmpeg"].
Proof.
  assert (Forall (fun d => has_char "010" d = false) ["libgomp1"; "ffmpeg"])
    as Hall by (repeat constructor).
  split; [discriminate|]. split; [exact Hall|].
  exact (add_sys_dependencies_one_per_line "model" ["libgomp1"; "ffmpeg"]
           sample_world ltac:(discriminate) Hall (or_intror eq_refl)).
Defined.

(** X4.  Without dependencies ([None]) nothing is written; a value that is
    not a list of strings is refused with an [AssertionError], and nothing
    is written either. *)
Theorem add_sys_dependencies_refuses (path : string) (deps : pyval)
    (w : world) :
  _add_sys_dependencies path PNone w = (Ok tt, w)
  ∧ (deps ≠ PNone → _is_valid_sys_dependency_list deps = false →
     _add_sys_dependencies path deps w = (Raise (Exc AssertionError ""), w)).
Proof.
  split; [reflexivity|]. intros Hnone Hbad. unfold _add_sys_dependencies.
  rewrite Hbad. by destruct deps.
Qed.

Lemma add_sys_dependencies_refuses_witness :
  PList [PStr "ffmpeg"; PInt 3] ≠ PNone
  ∧ _is_valid_sys_dependency_list (PList [PStr "ffmpeg"; PInt 3]) = false
  ∧ _add_sys_dependencies "model" (PList [PStr "ffmpeg"; PInt 3]) sample_world
    = (Raise (Exc AssertionError ""), sample_world).
Proof.
  split; [discriminate|]. split; [reflexivity|].
  exact (proj2 (add_sys_dependencies_refuses "model"
                  (PList [PStr "ffmpeg"; PInt 3]) sample_world)
           ltac:(discriminate) eq_refl).
Defined.

(** ** prediction_call, further *)

(** X5.  What [prediction_call] returns for a caught exception is a model
    output [verify_model_output] accepts, whatever the prediction schema. *)
Theorem prediction_call_payload_verifies {A : Type} (E : env)
    (format_exc : exn → string) (predict_fn : A → M pyval) (args : A)
    (w w' : world) (e : exn) :
  predict_fn args w = (Raise e, w') →
  is_Exception (exc_class e) = true →
  ∃ out w'',
    prediction_call format_exc predict_fn args w = (Ok out, w'')
    ∧ verify_model_output E out w'' = (Ok tt, w'').
Proof.
  intros Hp He. unfold prediction_call, try_except. rewrite Hp, He.
  eexists _, _. split; [reflexivity|].
  rewrite verify_model_output_no_prediction by reflexivity.
  by rewrite error_payload_keys, bool_decide_eq_true_2.
Qed.

Lemma prediction_call_payload_verifies_witness :
  (fun _ : unit => raise (A:=pyval) (Exc KeyError "'x'")) tt sample_world
  = (Raise (Exc KeyError "'x'"), sample_world)
  ∧ is_Exception KeyError = true
  ∧ ∃ out w'',
      prediction_call (fun _ => "Traceback")
        (fun _ : unit => raise (Exc KeyError "'x'")) tt sample_world
      = (Ok out, w'')
      ∧ verify_model_output failing_env out w'' = (Ok tt, w'').
Proof.
  split; [reflexivity|]. split; [reflexivity|].
  exact (prediction_call_payload_verifies failing_env (fun _ => "Traceback")
           (fun _ : unit => raise (Exc KeyError "'x'")) tt
           sample_world sample_world (Exc KeyError "'x'") eq_refl eq_refl).
Defined.

(** X6.  Wrapping twice is wrapping once: the outer wrapper finds nothing
    left to catch. *)
Theorem prediction_call_twice {A : Type} (format_exc format_exc' : exn → string)
    (predict_fn : A → M pyval) (args : A) (w : world) :
  prediction_call format_exc' (prediction_call format_exc predict_fn) args w
  = prediction_call format_exc predict_fn args w.
Proof.
  unfold prediction_call, try_except.
  destruct (predict_fn args w) as [[r|e] w']; [reflexivity|].
  destruct (is_Exception (exc_class e)) eqn:He; cbn; [reflexivity|].
  by rewrite He.
Qed.

(** The wrapper touches the world in one way only: when it catches an
    exception it hands one record, [Prediction call failed], to the logger;
    files and console are as the wrapped function left them. *)
Lemma prediction_call_logs_once {A : Type} (format_exc : exn → string)
    (predict_fn : A → M pyval) (args : A) (w w' : world) (e : exn) :
  predict_fn args w = (Raise e, w') →
  is_Exception (exc_class e) = true →
  snd (prediction_call format_exc predict_fn args w)
  = World (files w') (creatable w') (stdout w')
          (logged w' ++ ["Prediction call failed"]).
Proof.
  intros Hp He. unfold prediction_call, try_except. by rewrite Hp, He.
Qed.

Lemma prediction_call_logs_once_witness :
  (fun _ : unit => raise (A:=pyval) (Exc KeyError "'x'")) tt sample_world
  = (Raise (Exc KeyError "'x'"), sample_world)
  ∧ is_Exception KeyError = true
  ∧ snd (prediction_call (fun _ => "Traceback")
           (fun _ : unit => raise (Exc KeyError "'x'")) tt sample_world)
    = World (files sample_world) (creatable sample_world) (stdout sample_world)
            (logged sample_world ++ ["Prediction call failed"]).
Proof.
  split; [reflexivity|]. split; [reflexivity|].
  exact (prediction_call_logs_once (fun _ => "Traceback")
           (fun _ : unit => raise (Exc KeyError "'x'")) tt
           sample_world sample_world (Exc KeyError "'x'") eq_refl eq_refl).
Defined.

(** ** ModelValidator.__call__, further *)

(** X7.  An exception of [_run] that is neither a [ValidationError] nor an
    [AssertionError] leaves [__call__] as it is, and [__call__] prints
    nothing of its own: no failure message, no success message. *)
Theorem call_other_exception_unreported (E : env) (mp zip : string)
    (limit : Z) (kwargs : gmap string string) (w w1 : world) (e : exn) :
  _run E mp zip limit w = (Raise e, w1) →
  exc_class e ≠ ValidationError →
  exc_class e ≠ AssertionError →
  __call__ E mp zip limit kwargs w = (Raise e, w1).
Proof.
  intros Hrun Hv Ha. unfold __call__, mbind, M_bind, bind, try_except.
  rewrite Hrun. unfold is_class.
  by rewrite !bool_decide_eq_false_2.
Qed.

(** X8.  A model directory without a descriptor: the validator raises
    [FileNotFoundError] at once and the console stays as it was. *)
Theorem call_missing_descriptor (E : env) (mp zip : string) (limit : Z)
    (kwargs : gmap string string) (w : world) :
  files w !! path_join mp "MLmodel" = None →
  __call__ E mp zip limit kwargs w
  = (Raise (Exc FileNotFoundError (path_join mp "MLmodel")), w).
Proof.
  intros Hf.
  unfold __call__, _run, mbind, M_bind, bind, try_except, validate_metadata,
    _read_mlmodel_yaml, bind, read_file.
  by rewrite Hf.
Qed.

Lemma call_other_exception_unreported_witness :
  _run failing_env "model" "model.zip" 10 sample_world
  = (Raise (Exc FileNotFoundError "model/MLmodel"), sample_world)
  ∧ FileNotFoundError ≠ ValidationError
  ∧ FileNotFoundError ≠ AssertionError
  ∧ __call__ failing_env "model" "model.zip" 10 ∅ sample_world
    = (Raise (Exc FileNotFoundError "model/MLmodel"), sample_world).
Proof.
  split; [reflexivity|]. split; [discriminate|]. split; [discriminate|].
  exact (call_other_exception_unreported failing_env "model" "model.zip" 10 ∅
           sample_world sample_world (Exc FileNotFoundError "model/MLmodel")
           eq_refl ltac:(discriminate) ltac:(discriminate)).
Defined.

Lemma call_missing_descriptor_witness :
  files sample_world !! path_join "model" "MLmodel" = None
  ∧ __call__ failing_env "model" "model.zip" 10 ∅ sample_world
    = (Raise (Exc FileNotFoundError (path_join "model" "MLmodel")), sample_world).
Proof.
  split; [reflexivity|].
  exact (call_missing_descriptor failing_env "model" "model.zip" 10 ∅
           sample_world eq_refl).
Defined.

(** ** _make_artifact *)

(** X9.  On a request that counts as set (a non-empty one),
    [register_example_request] does what [_make_artifact] of
    [utils/common.py] does.  [_make_artifact] itself asks for nothing: it
    writes whatever request it is given, [None] included, wherever the file
    can be opened. *)
Theorem register_example_request_as_make_artifact (tmp_dir : string)
    (req : pyval) (arts : option (gmap string string)) (w : world) :
  (truthy req = true →
   register_example_request tmp_dir req arts w
   = Common._make_artifact tmp_dir req arts w)
  ∧ (∀ p, p = default (tmp_dir ++ "/example_request.json")
                (artifacts_or_empty arts !! "example_request") →
          is_Some (files w !! p) ∨ creatable w p = true →
          Common._make_artifact tmp_dir req arts w
          = (Ok (artifacts_or_empty arts
                 ∪ {[ "example_request" := tmp_dir ++ "/example_request.json" ]}),
             with_file w p req)).
Proof.
  split.
  - intros Hreq. assert (is_not_None req = true) as Hnn by (by destruct req).
    unfold register_example_request, Common._make_artifact.
    rewrite Hnn, Hreq. reflexivity.
  - intros p Hp Hw. unfold Common._make_artifact, mbind, M_bind, bind.
    pose proof (registered_path tmp_dir arts) as Hreg.
    change (tmp_dir ++ "/" ++ EXAMPLE_REQUEST ++ ".json")
      with (tmp_dir ++ "/example_request.json") in Hreg.
    change EXAMPLE_REQUEST with "example_request" in Hreg.
    rewrite Hreg, <- Hp. cbn [default from_option id].
    by rewrite (write_file_ok _ _ _ Hw).
Qed.

Lemma register_example_request_as_make_artifact_witness :
  (truthy sample_request = true
   ∧ register_example_request "/tmp/navio" sample_request None sample_world
     = Common._make_artifact "/tmp/navio" sample_request None sample_world)
  ∧ Common._make_artifact "/tmp/navio" PNone None sample_world
    = (Ok (artifacts_or_empty None
           ∪ {[ "example_request" := "/tmp/navio" ++ "/example_request.json" ]}),
       with_file sample_world "/tmp/navio/example_request.json" PNone).
Proof.
  split.
  - split; [reflexivity|].
    exact (proj1 (register_example_request_as_make_artifact "/tmp/navio"
                    sample_request None sample_world) eq_refl).
  - exact (proj2 (register_example_request_as_make_artifact "/tmp/navio"
                    PNone None sample_world)
             "/tmp/navio/example_request.json" eq_refl (or_intror eq_refl)).
Defined.

(** ** make_example_request, further *)

Lemma dict_get_keys name (row : pydict) :
  In name (dict_keys row) ↔ is_Some (dict_get name row).
Proof.
  induction row as [|[k v] row IH]; cbn.
  - split; [done|by intros [? ?]].
  - destruct (String.eqb_spec name k) as [->|Hne].
    + split; [eauto|auto].
    + rewrite <- IH. split; [intros [?|?]; [congruence|done]|auto].
Qed.

Lemma omap_Forall2 {A B} (f : A → outcome B) xs ys :
  omap f xs = Ok ys → Forall2 (fun x y => f x = Ok y) xs ys.
Proof.
  revert ys. induction xs as [|x xs IH]; intros ys; cbn.
  - intros [= <-]. constructor.
  - unfold obind. destruct (f x) as [y|] eqn:Hy; [|discriminate].
    destruct (omap f xs) as [ys'|]; [|discriminate].
    intros [= <-]. constructor; auto.
Qed.

Lemma omap_succeeds {A B} (f : A → outcome B) xs :
  (∀ x, In x xs → ∃ y, f x = Ok y) → ∃ ys, omap f xs = Ok ys.
Proof.
  induction xs as [|x xs IH]; intros Hall; cbn; [eauto|].
  destruct (Hall x) as [y Hy]; [by left|]. unfold obind. rewrite Hy.
  destruct IH as [ys Hys]; [intros; apply Hall; by right|].
  rewrite Hys. eauto.
Qed.

Lemma column_spec_untyped row name s :
  _column_spec row name None = Ok s ↔
  ∃ v ty, dict_get name row = Some v ∧ type_names v = Ok ty
          ∧ s = column_spec_of name v ty.
Proof.
  unfold _column_spec, obind, subscript, column_spec_of.
  destruct (dict_get name row) as [v|].
  - destruct (type_names v) as [ty|] eqn:Hty.
    + split; [intros [= <-]; eauto|].
      intros (v' & ty' & [= <-] & Hty' & ->). rewrite Hty in Hty'.
      by injection Hty' as <-.
    + split; [discriminate|].
      intros (v' & ty' & [= <-] & Hty' & _). congruence.
  - split; [discriminate|]. by intros (v' & ty' & [=] & _).
Qed.

Lemma column_spec_timestamp row name s :
  _column_spec row name (Some "timestamp") = Ok s ↔
  ∃ v, dict_get name row = Some v ∧ s = column_spec_of name v "timestamp".
Proof.
  unfold _column_spec, obind, subscript, column_spec_of.
  destruct (dict_get name row) as [v|]; cbn.
  - split; [intros [= <-]; eauto|]. by intros (v' & [= <-] & ->).
  - split; [discriminate|]. by intros (v' & [=] & _).
Qed.

Lemma type_names_typed v :
  (∃ ty, type_names v = Ok ty) ↔ typed_value v = true.
Proof. destruct v; cbn; split; try done; try eauto; by intros [? ?]. Qed.

Lemma is_feature_spec target dt name :
  is_feature target dt name = true ↔ name ≠ target ∧ Some name ≠ dt.
Proof.
  unfold is_feature. rewrite andb_true_iff, !negb_true_iff.
  rewrite bool_decide_eq_false.
  destruct (String.eqb_spec name target); split; intros [? ?]; done.
Qed.

Lemma omap_ok_each {A B} (f : A → outcome B) xs ys :
  omap f xs = Ok ys → ∀ x, In x xs → ∃ y, f x = Ok y.
Proof.
  intros H%omap_Forall2. induction H as [|x y xs ys Hxy _ IH]; [done|].
  intros x' [<-|Hin]; eauto.
Qed.

(** X10.  [make_example_request] returns a request exactly when the target
    differs from the datetime column, the target and every feature column
    hold an [int], a [float] or a [str] (a [bool] or [None] will not do),
    the datetime column, if given, is a key of the row, and [min_rows], if
    given along with it, is positive. *)
Theorem make_example_request_succeeds_iff (row : pydict) (target : string)
    (datetime_column : option string) (min_rows : option Z) :
  (∃ ex, make_example_request row target datetime_column min_rows = Ok ex)
  ↔ Some target ≠ datetime_column
    ∧ (∀ name v, dict_get name row = Some v →
                 is_feature target datetime_column name = true →
                 typed_value v = true)
    ∧ (∃ v, dict_get target row = Some v ∧ typed_value v = true)
    ∧ (∀ c, datetime_column = Some c → is_Some (dict_get c row))
    ∧ (∀ c n, datetime_column = Some c → min_rows = Some n → 0 < n).
Proof.
  unfold make_example_request. split.
  - intros [ex H]. unfold obind at 1 in H. unfold oassert in H.
    destruct (bool_decide (Some target = datetime_column)) eqn:Hdt;
      [discriminate|]. apply bool_decide_eq_false in Hdt. cbn [negb] in H.
    unfold obind at 1 in H.
    destruct (omap _ _) as [features|] eqn:Hf; [|discriminate].
    unfold obind at 1 in H.
    destruct (_column_spec row target None) as [tspec|] eqn:Ht; [|discriminate].
    split; [done|]. split; [|split; [|split]].
    + intros name v Hv Hfeat.
      destruct (omap_ok_each _ _ _ Hf name) as [y Hy].
      { apply filter_In. split; [|exact Hfeat]. apply dict_get_keys. eauto. }
      apply column_spec_untyped in Hy as (v' & ty & Hv' & Hty & _).
      apply type_names_typed. exists ty. congruence.
    + apply column_spec_untyped in Ht as (v & ty & Hv & Hty & _).
      exists v. split; [done|]. apply type_names_typed. eauto.
    + intros c ->. unfold obind at 1 in H.
      destruct (_column_spec row c (Some "timestamp")) as [dspec|] eqn:Hd;
        [|discriminate].
      apply column_spec_timestamp in Hd as (v & Hv & _). eauto.
    + intros c n -> ->. unfold obind at 1 in H.
      destruct (_column_spec row c (Some "timestamp")); [|discriminate].
      unfold obind, oassert in H.
      destruct (Z.ltb_spec 0 n); [done|discriminate].
  - intros (Hdt & Hfeat & (vt & Hvt & Htt) & Hcol & Hrows).
    unfold obind at 1. unfold oassert.
    rewrite (bool_decide_eq_false_2 _ Hdt). cbn [negb].
    destruct (omap_succeeds (fun name => _column_spec row name None)
                (List.filter
                   (fun name => negb (String.eqb name target)
                                && negb (bool_decide (Some name = datetime_column)))
                   (dict_keys row))) as [features Hf].
    { intros name [Hin Hfe]%filter_In.
      apply dict_get_keys in Hin as [v Hv].
      apply type_names_typed in Htt as _.
      pose proof (Hfeat name v Hv Hfe) as [ty Hty]%type_names_typed.
      eexists. apply column_spec_untyped. eauto. }
    unfold obind at 1. rewrite Hf.
    apply type_names_typed in Htt as [ty Hty].
    assert (_column_spec row target None = Ok (column_spec_of target vt ty))
      as Ht by (apply column_spec_untyped; eauto).
    unfold obind at 1. rewrite Ht.
    destruct datetime_column as [c|]; [|eauto].
    destruct (Hcol c eq_refl) as [vc Hvc].
    assert (_column_spec row c (Some "timestamp")
            = Ok (column_spec_of c vc "timestamp")) as Hd
      by (apply column_spec_timestamp; eauto).
    unfold obind at 1. rewrite Hd.
    destruct min_rows as [n|]; [|eauto].
    unfold obind, oassert. rewrite (proj2 (Z.ltb_lt 0 n) (Hrows c n eq_refl eq_refl)).
    eauto.
Qed.

Lemma Forall2_In_r {A B} (P : A → B → Prop) xs ys y :
  Forall2 P xs ys → In y ys → ∃ x, In x xs ∧ P x y.
Proof.
  induction 1 as [|x y' xs ys Hxy _ IH]; [done|].
  intros [->|Hin]; [exists x; split; [by left|done]|].
  destruct (IH Hin) as (x' & Hx' & HP). exists x'. split; [by right|done].
Qed.

(** The shape of every result of [make_example_request]. *)
Lemma make_example_request_inv row target dt mr ex :
  make_example_request row target dt mr = Ok ex →
  ∃ features tspec,
    omap (fun name => _column_spec row name None)
         (List.filter (is_feature target dt) (dict_keys row)) = Ok features
    ∧ _column_spec row target None = Ok tspec
    ∧ ex = PDict
             ([("featureColumns", PList features);
               ("targetColumns", PList [tspec])]
              ++ match dt with
                 | None => []
                 | Some c =>
                     match dict_get c row with
                     | Some v => [("dateTimeColumn", column_spec_of c v "timestamp")]
                     | None => []
                     end
                     ++ match mr with
                        | None => []
                        | Some n => [("minimumNumberRows", PInt n)]
                        end
                 end)%list.
Proof.
  unfold make_example_request. intros H.
  unfold obind at 1 in H. destruct (oassert _ _); [|discriminate].
  unfold obind at 1 in H.
  destruct (omap _ _) as [features|] eqn:Hf; [|discriminate].
  unfold obind at 1 in H.
  destruct (_column_spec row target None) as [tspec|] eqn:Ht; [|discriminate].
  exists features, tspec. split; [first [exact Hf|reflexivity]|].
  split; [first [exact Ht|reflexivity]|].
  destruct dt as [c|]; [|by injection H as <-].
  unfold obind at 1 in H.
  destruct (_column_spec row c (Some "timestamp")) as [dspec|] eqn:Hd;
    [|discriminate].
  apply column_spec_timestamp in Hd as (v & Hv & ->). rewrite Hv.
  destruct mr as [n|]; [|by injection H as <-].
  unfold obind in H. destruct (oassert _ _); [|discriminate].
  by injection H as <-.
Qed.

(** X11.  In every request [make_example_request] returns, the feature
    columns are the keys of the row other than the target and the datetime
    column, in the order of the row, each with the row's value as sample
    data, typed [string] for a [str] and [float] for a number, and never
    nullable.  So neither the target nor the datetime column is listed
    among the features. *)
Theorem make_example_request_features (row : pydict) (target : string)
    (datetime_column : option string) (min_rows : option Z) (ex : pyval) :
  make_example_request row target datetime_column min_rows = Ok ex →
  ∃ d specs,
    ex = PDict d
    ∧ dict_get "featureColumns" d = Some (PList specs)
    ∧ Forall2
        (fun name spec =>
           ∃ v, dict_get name row = Some v
                ∧ spec = column_spec_of name v
                           (if is_str v then "string" else "float"))
        (List.filter (is_feature target datetime_column) (dict_keys row)) specs
    ∧ (∀ spec, In spec specs →
               column_name spec ≠ Some target
               ∧ (∀ c, datetime_column = Some c → column_name spec ≠ Some c)).
Proof.
  intros (features & tspec & Hf & _ & ->)%make_example_request_inv.
  eexists _, features. split; [reflexivity|]. split; [reflexivity|].
  apply omap_Forall2 in Hf.
  assert (Forall2
            (fun name spec =>
               ∃ v, dict_get name row = Some v
                    ∧ spec = column_spec_of name v
                               (if is_str v then "string" else "float"))
            (List.filter (is_feature target datetime_column) (dict_keys row))
            features) as Hall.
  { eapply Forall2_impl; [exact Hf|]. cbn.
    intros name spec (v & ty & Hv & Hty & ->)%column_spec_untyped.
    exists v. split; [done|]. destruct v; cbn in Hty; try discriminate;
      by injection Hty as <-. }
  split; [exact Hall|].
  intros spec Hin.
  destruct (Forall2_In_r _ _ _ _ Hall Hin) as (name & Hname & v & Hv & ->).
  apply filter_In in Hname as [_ [Hnt Hnd]%is_feature_spec].
  cbn. split; [congruence|]. intros c ->. congruence.
Qed.

Lemma make_example_request_features_witness :
  make_example_request [("x", PInt 1); ("t", PStr "2020-01-01"); ("y", PInt 0)]
    "y" (Some "t") (Some 3)
  = Ok (PDict [("featureColumns", PList [column_spec_of "x" (PInt 1) "float"]);
               ("targetColumns", PList [column_spec_of "y" (PInt 0) "float"]);
               ("dateTimeColumn",
                column_spec_of "t" (PStr "2020-01-01") "timestamp");
               ("minimumNumberRows", PInt 3)])
  ∧ ∃ d specs,
      PDict [("featureColumns", PList [column_spec_of "x" (PInt 1) "float"]);
             ("targetColumns", PList [column_spec_of "y" (PInt 0) "float"]);
             ("dateTimeColumn",
              column_spec_of "t" (PStr "2020-01-01") "timestamp");
             ("minimumNumberRows", PInt 3)] = PDict d
      ∧ dict_get "featureColumns" d = Some (PList specs)
      ∧ Forall2
          (fun name spec =>
             ∃ v, dict_get name [("x", PInt 1); ("t", PStr "2020-01-01");
                                 ("y", PInt 0)] = Some v
                  ∧ spec = column_spec_of name v
                             (if is_str v then "string" else "float"))
          (List.filter (is_feature "y" (Some "t"))
             (dict_keys [("x", PInt 1); ("t", PStr "2020-01-01"); ("y", PInt 0)]))
          specs
      ∧ (∀ spec, In spec specs →
                 column_name spec ≠ Some "y"
                 ∧ (∀ c, Some "t" = Some c → column_name spec ≠ Some c)).
Proof.
  split; [reflexivity|].
  exact (make_example_request_features
           [("x", PInt 1); ("t", PStr "2020-01-01"); ("y", PInt 0)]
           "y" (Some "t") (Some 3) _ eq_refl).
Defined.

(** ** _get_field, further *)

Lemma split_dot_aux_split_on acc s :
  split_dot_aux acc s = split_on_aux "." acc s.
Proof.
  revert acc. induction s as [|c s IH]; intros acc; cbn; [done|].
  by rewrite !IH.
Qed.

Lemma split_dot_segment k rest :
  has_char "." k = false →
  split_dot (k ++ "." ++ rest) = k :: split_dot rest.
Proof.
  intros Hk. unfold split_dot. rewrite !split_dot_aux_split_on.
  rewrite split_on_aux_segment by done. by rewrite string_app_nil_l.
Qed.

Lemma split_dot_single k :
  has_char "." k = false → split_dot k = [k].
Proof.
  intros Hk. unfold split_dot. rewrite split_dot_aux_split_on.
  rewrite <- (string_app_nil_r k) at 1.
  by rewrite split_on_aux_segment.
Qed.

(** X12.  [_get_field] on a mapping follows the dotted path one key per
    segment and never raises: a single segment is a plain lookup, with
    [None] for a missing key; a longer path goes on inside the value of its
    first segment if that is a mapping, and is [None] if the key is missing
    or holds anything else. *)
Theorem get_field_dotted (d : pydict) (k rest : string) (w : world) :
  has_char "." k = false →
  _get_field (PDict d) k w
  = (Ok (match dict_get k d with Some v => v | None => PNone end), w)
  ∧ _get_field (PDict d) (k ++ "." ++ rest) w
    = match dict_get k d with
      | Some (PDict d') => _get_field (PDict d') rest w
      | _ => (Ok PNone, w)
      end.
Proof.
  intros Hk. rewrite !get_field_dict. unfold field_of.
  rewrite split_dot_single, split_dot_segment by done. cbn [hd tl].
  split; [reflexivity|].
  pose proof (split_dot_aux_nonempty "" rest) as Hne.
  fold (split_dot rest) in Hne.
  destruct (dict_get k d) as [v|].
  - destruct v; try (by destruct (split_dot rest)).
    rewrite get_field_dict. unfold field_of.
    by destruct (split_dot rest).
  - by destruct (split_dot rest).
Qed.

Lemma get_field_dotted_witness :
  has_char "." "flavors" = false
  ∧ _get_field (PDict sample_descriptor) "flavors" sample_world
    = (Ok (match dict_get "flavors" sample_descriptor with
           | Some v => v
           | None => PNone
           end), sample_world)
  ∧ _get_field (PDict sample_descriptor)
      ("flavors" ++ "." ++ "python_function.python_version") sample_world
    = match dict_get "flavors" sample_descriptor with
      | Some (PDict d') =>
          _get_field (PDict d') "python_function.python_version" sample_world
      | _ => (Ok PNone, sample_world)
      end.
Proof.
  split; [reflexivity|].
  exact (get_field_dotted sample_descriptor "flavors"
           "python_function.python_version" sample_world eq_refl).
Defined.

(** ** _add_metadata, further *)

(** X13.  A successful patch changes the [metadata] entry of the descriptor
    and nothing else: every other key of the descriptor, every other file
    and the console are as before. *)
Theorem add_metadata_frame (mp : string) (ds : option pydict)
    (ex oo : option string) (g : option Z) (w w' : world) (r : option pydict) :
  _add_metadata mp ds ex oo g w = (Ok r, w') →
  ∃ d d',
    files w !! path_join mp "MLmodel" = Some (PDict d)
    ∧ files w' !! path_join mp "MLmodel" = Some (PDict d')
    ∧ (∀ k, k ≠ "metadata" → dict_get k d' = dict_get k d)
    ∧ (∀ q, q ≠ path_join mp "MLmodel" → files w' !! q = files w !! q)
    ∧ stdout w' = stdout w.
Proof.
  intros (d & n & Hf & _ & _ & _ & _ & _ & ->)%add_metadata_ok_inv.
  eexists d, _. split; [done|]. cbn [files with_file stdout].
  split; [apply lookup_insert_eq|].
  split; [intros k Hk; by apply dict_get_set_ne|].
  split; [|reflexivity]. intros q Hq. by apply lookup_insert_ne.
Qed.

Lemma add_metadata_frame_witness :
  _add_metadata "model" None (Some "plotly") None (Some 0) sample_model_world
  = (Ok None,
     snd (_add_metadata "model" None (Some "plotly") None (Some 0)
            sample_model_world))
  ∧ ∃ d d',
      files sample_model_world !! path_join "model" "MLmodel" = Some (PDict d)
      ∧ files (snd (_add_metadata "model" None (Some "plotly") None (Some 0)
                      sample_model_world)) !! path_join "model" "MLmodel"
        = Some (PDict d')
      ∧ (∀ k, k ≠ "metadata" → dict_get k d' = dict_get k d)
      ∧ (∀ q, q ≠ path_join "model" "MLmodel" →
              files (snd (_add_metadata "model" None (Some "plotly") None
                            (Some 0) sample_model_world)) !! q
              = files sample_model_world !! q)
      ∧ stdout (snd (_add_metadata "model" None (Some "plotly") None (Some 0)
                       sample_model_world))
        = stdout sample_model_world.
Proof.
  assert (_add_metadata "model" None (Some "plotly") None (Some 0)
            sample_model_world
          = (Ok None,
             snd (_add_metadata "model" None (Some "plotly") None (Some 0)
                    sample_model_world))) as H by (vm_compute; reflexivity).
  split; [exact H|].
  exact (add_metadata_frame _ _ _ _ _ _ _ _ H).
Defined.

(** X14.  The [metadata] block a successful patch writes is built afresh,
    an earlier block leaves no trace: its keys are [request_schema],
    [dataset] if a dataset was given, [explanations], [oodDetection], and
    [gpus] if and only if the GPU count is positive; a mode left unset is
    written as [default]. *)
Theorem add_metadata_block (mp : string) (ds : option pydict)
    (ex oo : option string) (g : option Z) (w w' : world) (r : option pydict) :
  _add_metadata mp ds ex oo g w = (Ok r, w') →
  ∃ d' md n,
    files w' !! path_join mp "MLmodel" = Some (PDict d')
    ∧ dict_get "metadata" d' = Some (PDict md)
    ∧ g = Some n
    ∧ dict_keys md
      = (["request_schema"]
         ++ match ds with Some _ => ["dataset"] | None => [] end
         ++ ["explanations"; "oodDetection"]
         ++ (if 0 <? n then ["gpus"] else []))%list
    ∧ dict_get "explanations" md = Some (PStr (or_default ex))
    ∧ dict_get "oodDetection" md = Some (PStr (or_default oo))
    ∧ (0 < n → dict_get "gpus" md = Some (PInt n)).
Proof.
  intros (d & n & Hf & _ & _ & -> & _ & _ & ->)%add_metadata_ok_inv.
  eexists _, (patched_metadata d ds ex oo n), n.
  cbn [files with_file].
  split; [apply lookup_insert_eq|].
  split; [apply dict_get_set_eq|]. split; [reflexivity|].
  unfold patched_metadata.
  destruct ds as [ds0|]; destruct (Z.ltb_spec 0 n);
    (split; [reflexivity|]); (split; [reflexivity|]);
    (split; [reflexivity|]); first [reflexivity|lia].
Qed.

Lemma add_metadata_block_witness :
  _add_metadata "model" (Some [("name", PStr "data"); ("path", PStr "/tmp/d.csv")])
    None None (Some 2) sample_model_world
  = (Ok (Some [("name", PStr "data"); ("path", PNone)]),
     snd (_add_metadata "model"
            (Some [("name", PStr "data"); ("path", PStr "/tmp/d.csv")])
            None None (Some 2) sample_model_world))
  ∧ ∃ d' md n,
      files (snd (_add_metadata "model"
                    (Some [("name", PStr "data"); ("path", PStr "/tmp/d.csv")])
                    None None (Some 2) sample_model_world))
        !! path_join "model" "MLmodel" = Some (PDict d')
      ∧ dict_get "metadata" d' = Some (PDict md)
      ∧ Some 2 = Some n
      ∧ dict_keys md
        = (["request_schema"]
           ++ ["dataset"]
           ++ ["explanations"; "oodDetection"]
           ++ (if 0 <? n then ["gpus"] else []))%list
      ∧ dict_get "explanations" md = Some (PStr "default")
      ∧ dict_get "oodDetection" md = Some (PStr "default")
      ∧ (0 < n → dict_get "gpus" md = Some (PInt n)).
Proof.
  assert (_add_metadata "model"
            (Some [("name", PStr "data"); ("path", PStr "/tmp/d.csv")])
            None None (Some 2) sample_model_world
          = (Ok (Some [("name", PStr "data"); ("path", PNone)]),
             snd (_add_metadata "model"
                    (Some [("name", PStr "data"); ("path", PStr "/tmp/d.csv")])
                    None None (Some 2) sample_model_world)))
    as H by (vm_compute; reflexivity).
  split; [exact H|].
  exact (add_metadata_block _ _ _ _ _ _ _ _ H).
Defined.

(** X15.  The dataset spec stored by a successful patch is the given one
    with its [path] overwritten by the path the descriptor records for the
    [dataset] artifact ([None] if it records none), whatever path the
    caller wrote there; and the caller's dict is left with that same
    overwritten [path]. *)
Theorem add_metadata_dataset_path (mp : string) (ds0 : pydict)
    (ex oo : option string) (g : option Z) (w w' : world) (r : option pydict) :
  _add_metadata mp (Some ds0) ex oo g w = (Ok r, w') →
  ∃ d artifact_path,
    files w !! path_join mp "MLmodel" = Some (PDict d)
    ∧ _get_field (PDict d) "flavors.python_function.artifacts.dataset.path" w
      = (Ok artifact_path, w)
    ∧ r = Some (dict_set "path" artifact_path ds0)
    ∧ (let! cfg := read_file (path_join mp "MLmodel") in
       _get_field cfg "metadata.dataset") w'
      = (Ok (PDict (dict_set "path" artifact_path ds0)), w').
Proof.
  intros (d & n & Hf & _ & _ & -> & _ & -> & ->)%add_metadata_ok_inv.
  exists d, (field_of d "flavors.python_function.artifacts.dataset.path").
  split; [done|]. split; [apply get_field_dict|]. split; [reflexivity|].
  unfold bind, read_file. cbn [files with_file].
  rewrite lookup_insert_eq, get_field_dict. f_equal. f_equal.
  unfold field_of.
  assert (split_dot "metadata.dataset" = ["metadata"; "dataset"]) as ->
    by reflexivity.
  cbn [hd tl]. rewrite dict_get_set_eq. cbn [_get_field_loop].
  unfold patched_metadata.
  destruct (0 <? n);
    rewrite ?(dict_get_set_ne "dataset" "gpus") by discriminate;
    rewrite (dict_get_set_ne "dataset" "oodDetection") by discriminate;
    rewrite (dict_get_set_ne "dataset" "explanations") by discriminate;
    reflexivity.
Qed.

Lemma add_metadata_dataset_path_witness :
  _add_metadata "model" (Some [("name", PStr "data"); ("path", PStr "/tmp/d.csv")])
    None None (Some 0) sample_model_world
  = (Ok (Some [("name", PStr "data"); ("path", PNone)]),
     snd (_add_metadata "model"
            (Some [("name", PStr "data"); ("path", PStr "/tmp/d.csv")])
            None None (Some 0) sample_model_world))
  ∧ ∃ d artifact_path,
      files sample_model_world !! path_join "model" "MLmodel" = Some (PDict d)
      ∧ _get_field (PDict d) "flavors.python_function.artifacts.dataset.path"
          sample_model_world
        = (Ok artifact_path, sample_model_world)
      ∧ Some [("name", PStr "data"); ("path", PNone)]
        = Some (dict_set "path" artifact_path
                  [("name", PStr "data"); ("path", PStr "/tmp/d.csv")])
      ∧ (let! cfg := read_file (path_join "model" "MLmodel") in
         _get_field cfg "metadata.dataset")
          (snd (_add_metadata "model"
                  (Some [("name", PStr "data"); ("path", PStr "/tmp/d.csv")])
                  None None (Some 0) sample_model_world))
        = (Ok (PDict (dict_set "path" artifact_path
                        [("name", PStr "data"); ("path", PStr "/tmp/d.csv")])),
           snd (_add_metadata "model"
                  (Some [("name", PStr "data"); ("path", PStr "/tmp/d.csv")])
                  None None (Some 0) sample_model_world)).
Proof.
  assert (_add_metadata "model"
            (Some [("name", PStr "data"); ("path", PStr "/tmp/d.csv")])
            None None (Some 0) sample_model_world
          = (Ok (Some [("name", PStr "data"); ("path", PNone)]),
             snd (_add_metadata "model"
                    (Some [("name", PStr "data"); ("path", PStr "/tmp/d.csv")])
                    None None (Some 0) sample_model_world)))
    as H by (vm_compute; reflexivity).
  split; [exact H|].
  exact (add_metadata_dataset_path _ _ _ _ _ _ _ _ H).
Defined.

(** X16.  What the validator later reads off a patched descriptor: default
    OOD detection counts as enabled exactly when the OOD mode was left
    unset or given as [default] and a dataset was given; the same holds of
    default explanations and the explanation mode. *)
Theorem add_metadata_default_modes (mp : string) (ds : option pydict)
    (ex oo : option string) (g : option Z) (w w' : world) (r : option pydict) :
  _add_metadata mp ds ex oo g w = (Ok r, w') →
  ∃ metadata,
    (let! config := _read_mlmodel_yaml mp in py_get config "metadata" PNone) w'
    = (Ok metadata, w')
    ∧ _is_default_ood_enabled_in_metadata metadata w'
      = (Ok (String.eqb (or_default oo) "default"
             && bool_decide (is_Some ds)), w')
    ∧ _is_default_explanation_enabled_in_metadata metadata w'
      = (Ok (String.eqb (or_default ex) "default"
             && bool_decide (is_Some ds)), w').
Proof.
  intros (d & n & Hf & _ & _ & -> & _ & -> & ->)%add_metadata_ok_inv.
  exists (PDict (patched_metadata d ds ex oo n)).
  split.
  { unfold _read_mlmodel_yaml, bind, read_file. cbn [files with_file].
    rewrite lookup_insert_eq. cbn [py_get mret M_ret ret].
    by rewrite dict_get_set_eq. }
  unfold _is_default_ood_enabled_in_metadata,
    _is_default_explanation_enabled_in_metadata, and_then,
    _is_ood_set_to_default_in_metadata,
    _is_explanation_set_to_default_in_metadata,
    _is_data_provided_in_metadata, bind, py_get, py_in, dict_contains,
    OOD_DETECTION, EXPLANATIONS, DATASET, patched_metadata.
  cbn [mret M_ret ret].
  destruct ds as [ds0|]; destruct (0 <? n);
    rewrite ?(dict_get_set_ne _ "gpus") by discriminate;
    rewrite ?dict_get_set_eq;
    rewrite ?(dict_get_set_ne "explanations" "oodDetection") by discriminate;
    rewrite ?(dict_get_set_ne "dataset" "oodDetection") by discriminate;
    rewrite ?(dict_get_set_ne "dataset" "explanations") by discriminate;
    rewrite ?dict_get_set_eq; cbn [eq_str];
    (destruct (String.eqb (or_default oo) "default");
     destruct (String.eqb (or_default ex) "default"); split; reflexivity).
Qed.

Lemma add_metadata_default_modes_witness :
  _add_metadata "model" (Some [("name", PStr "data"); ("path", PStr "/tmp/d.csv")])
    None (Some "disabled") (Some 0) sample_model_world
  = (Ok (Some [("name", PStr "data"); ("path", PNone)]),
     snd (_add_metadata "model"
            (Some [("name", PStr "data"); ("path", PStr "/tmp/d.csv")])
            None (Some "disabled") (Some 0) sample_model_world))
  ∧ ∃ metadata,
      (let! config := _read_mlmodel_yaml "model" in
       py_get config "metadata" PNone)
        (snd (_add_metadata "model"
                (Some [("name", PStr "data"); ("path", PStr "/tmp/d.csv")])
                None (Some "disabled") (Some 0) sample_model_world))
      = (Ok metadata,
         snd (_add_metadata "model"
                (Some [("name", PStr "data"); ("path", PStr "/tmp/d.csv")])
                None (Some "disabled") (Some 0) sample_model_world))
      ∧ _is_default_ood_enabled_in_metadata metadata
          (snd (_add_metadata "model"
                  (Some [("name", PStr "data"); ("path", PStr "/tmp/d.csv")])
                  None (Some "disabled") (Some 0) sample_model_world))
        = (Ok false,
           snd (_add_metadata "model"
                  (Some [("name", PStr "data"); ("path", PStr "/tmp/d.csv")])
                  None (Some "disabled") (Some 0) sample_model_world))
      ∧ _is_default_explanation_enabled_in_metadata metadata
          (snd (_add_metadata "model"
                  (Some [("name", PStr "data"); ("path", PStr "/tmp/d.csv")])
                  None (Some "disabled") (Some 0) sample_model_world))
        = (Ok true,
           snd (_add_metadata "model"
                  (Some [("name", PStr "data"); ("path", PStr "/tmp/d.csv")])
                  None (Some "disabled") (Some 0) sample_model_world)).
Proof.
  assert (_add_metadata "model"
            (Some [("name", PStr "data"); ("path", PStr "/tmp/d.csv")])
            None (Some "disabled") (Some 0) sample_model_world
          = (Ok (Some [("name", PStr "data"); ("path", PNone)]),
             snd (_add_metadata "model"
                    (Some [("name", PStr "data"); ("path", PStr "/tmp/d.csv")])
                    None (Some "disabled") (Some 0) sample_model_world)))
    as H by (vm_compute; reflexivity).
  split; [exact H|].
  exact (add_metadata_default_modes _ _ _ _ _ _ _ _ H).
Defined.

(** ** The two [_add_metadata] *)

Lemma common_add_metadata_run mp ex oo g w d :
  files w !! path_join mp "MLmodel" = Some (PDict d) →
  Common._add_metadata mp None ex oo g w =
  if negb (str_in (or_default ex) ["disabled"; "default"; "plotly"]) then
    (Raise (Exc AssertionError
              "explanations config must be one of ['disabled', 'default', 'plotly']"), w)
  else if negb (str_in (or_default oo) ["disabled"; "default"]) then
    (Raise (Exc AssertionError
              "oodd config must be one of ['disabled', 'default']"), w)
  else
    match g with
    | None =>
        (Raise (Exc TypeError
                  "'>=' not supported between instances of 'NoneType' and 'int'"), w)
    | Some n =>
        if 0 <=? n then
          (Ok tt,
           with_file w (path_join mp "MLmodel")
             (PDict (dict_set "metadata"
                       (PDict
                          (let md :=
                             dict_set "oodDetection" (PStr (or_default oo))
                               (dict_set "explanations" (PStr (or_default ex))
                                  [("request_schema",
                                    PDict [("path",
                                            PStr "artifacts/example_request.json")])]) in
                           if 0 <? n then dict_set "gpus" (PInt n) md else md))
                       d)))
        else (Raise (Exc AssertionError "num_gpus cannot be negative"), w)
    end.
Proof.
  intros Hf. unfold Common._add_metadata.
  unfold bind at 1. unfold read_file. rewrite Hf.
  unfold bind at 1. cbn [py_update mret M_ret ret].
  assert (write_ok : ∀ doc, write_file (path_join mp "MLmodel") doc w
                     = (Ok tt, with_file w (path_join mp "MLmodel") doc)).
  { intros doc. apply write_file_ok. left. eauto. }
  unfold mbind, M_bind, bind, assert_.
  destruct (str_in (or_default ex) _); [|reflexivity].
  destruct (str_in (or_default oo) _); [|reflexivity].
  destruct g as [n|]; [|reflexivity]. cbn [mret M_ret ret raise negb].
  destruct (0 <=? n); [|reflexivity]. cbn [mret M_ret ret].
  rewrite write_ok, dict_set_set. reflexivity.
Qed.

(** X17.  Without a dataset, on a descriptor that records the example
    request under [artifacts/example_request.json], the [_add_metadata] of
    [utils/common.py] and the one of [_mlflow.py] fail alike or write the
    same descriptor. *)
Theorem add_metadata_versions_agree (mp : string) (ex oo : option string)
    (g : option Z) (w : world) (d : pydict) :
  files w !! path_join mp "MLmodel" = Some (PDict d) →
  _get_field (PDict d) "flavors.python_function.artifacts.example_request.path" w
  = (Ok (PStr "artifacts/example_request.json"), w) →
  Common._add_metadata mp None ex oo g w
  = (match fst (_add_metadata mp None ex oo g w) with
     | Ok _ => Ok tt
     | Raise e => Raise e
     end,
     snd (_add_metadata mp None ex oo g w)).
Proof.
  intros Hf Hpath. rewrite get_field_dict in Hpath. injection Hpath as Hpath.
  rewrite (common_add_metadata_run _ _ _ _ _ _ Hf).
  rewrite (add_metadata_run _ _ _ _ _ _ _ Hf).
  unfold patched_metadata. rewrite Hpath.
  destruct (str_in (or_default ex) _); [|reflexivity].
  destruct (str_in (or_default oo) _); [|reflexivity].
  destruct g as [n|]; [|reflexivity]. cbn [negb].
  destruct (0 <=? n); reflexivity.
Qed.

Lemma add_metadata_versions_agree_witness :
  files sample_model_world !! path_join "model" "MLmodel"
  = Some (PDict sample_descriptor)
  ∧ _get_field (PDict sample_descriptor)
      "flavors.python_function.artifacts.example_request.path" sample_model_world
    = (Ok (PStr "artifacts/example_request.json"), sample_model_world)
  ∧ Common._add_metadata "model" None None (Some "disabled") (Some 1)
      sample_model_world
    = (match fst (_add_metadata "model" None None (Some "disabled") (Some 1)
                    sample_model_world) with
       | Ok _ => Ok tt
       | Raise e => Raise e
       end,
       snd (_add_metadata "model" None None (Some "disabled") (Some 1)
              sample_model_world)).
Proof.
  split; [reflexivity|]. split; [reflexivity|].
  exact (add_metadata_versions_agree "model" None (Some "disabled") (Some 1)
           sample_model_world sample_descriptor eq_refl eq_refl).
Defined.

(** ** validate_metadata *)

Lemma validate_schema_accepts (E : env) data s name r w :
  s data = true → _validate_schema E data s name r w = (Ok true, w).
Proof.
  intros Hs. unfold _validate_schema, try_except, jsonschema_validate,
    mbind, M_bind, bind. by rewrite Hs.
Qed.

Lemma validate_schema_rejects (E : env) data s name w :
  s data = false →
  _validate_schema E data s name true w
  = (Raise (Exc ValidationError (validation_message E data)),
     printed w ["Error: " ++ pynavio_model_validation ++ " "
                ++ "Error during " ++ name ++ " validation"]).
Proof.
  intros Hs. unfold _validate_schema, try_except, jsonschema_validate,
    mbind, M_bind, bind. by rewrite Hs.
Qed.

Lemma is_input_nested_decides (E : env) req s w :
  is_input_nested E req s w = (Ok (negb (s req)), w).
Proof.
  unfold is_input_nested, _validate_schema, try_except, jsonschema_validate,
    mbind, M_bind, bind.
  by destruct (s req).
Qed.

(** X18.  On a descriptor whose [metadata] is a mapping the metadata schema
    accepts, with an example request the request schema accepts,
    [validate_metadata] succeeds whatever the request looks like
    otherwise.  It prints nothing if the not-nested schema accepts the
    request; if not, it prints the nested-input warning, followed by the
    warning about defaults exactly when a dataset is recorded and OOD
    detection or explanations are set to [default]. *)
Theorem validate_metadata_warnings (E : env) (mp : string) (w : world)
    (config md : pydict) (request_path : string) (req : pyval) :
  files w !! path_join mp "MLmodel" = Some (PDict config) →
  dict_get "metadata" config = Some (PDict md) →
  METADATA_SCHEMA E (PDict md) = true →
  _get_field (PDict md) "request_schema.path" w = (Ok (PStr request_path), w) →
  files w !! path_join mp request_path = Some req →
  REQUEST_SCHEMA_SCHEMA E req = true →
  validate_metadata E mp w
  = (Ok tt,
     if not_nested_request_schema E req then w
     else printed w
            (nested_input_warning
             :: (if (mode_is_default md "oodDetection"
                     || mode_is_default md "explanations")
                    && dict_contains "dataset" md
                 then [nested_defaults_warning] else []))).
Proof.
  intros Hf Hmd Hms Hpath Hreq Hrs.
  unfold validate_metadata, _read_mlmodel_yaml.
  unfold bind at 1. unfold read_file. rewrite Hf.
  unfold bind at 1. cbn [py_get mret M_ret ret]. rewrite Hmd.
  unfold mbind, M_bind. unfold bind at 1.
  rewrite validate_schema_accepts by done.
  unfold bind at 1. unfold _read_example_request.
  assert (_get_field (PDict config) "metadata.request_schema.path" w
          = (Ok (PStr request_path), w)) as Hfield.
  { rewrite get_field_dict in Hpath. injection Hpath as Hpath.
    rewrite get_field_dict, <- Hpath. f_equal. f_equal. unfold field_of.
    change (split_dot "metadata.request_schema.path")
      with ["metadata"; "request_schema"; "path"].
    change (split_dot "request_schema.path") with ["request_schema"; "path"].
    cbn [hd tl]. by rewrite Hmd. }
  unfold bind at 1. rewrite Hfield.
  unfold bind at 1. cbn [path_join_val mret M_ret ret].
  unfold read_file. rewrite Hreq.
  unfold bind at 1. rewrite validate_schema_accepts by done.
  unfold bind at 1. rewrite is_input_nested_decides.
  destruct (not_nested_request_schema E req); cbn [negb]; [reflexivity|].
  unfold bind at 1. unfold print at 1.
  unfold or_else, _is_default_ood_enabled_in_metadata,
    _is_default_explanation_enabled_in_metadata, and_then,
    _is_ood_set_to_default_in_metadata,
    _is_explanation_set_to_default_in_metadata,
    _is_data_provided_in_metadata, bind, py_get, py_in, mode_is_default,
    OOD_DETECTION, EXPLANATIONS, DATASET.
  cbn [mret M_ret ret].
  unfold printed, print.
  destruct (dict_get "oodDetection" md) as [vo|];
    destruct (dict_get "explanations" md) as [ve|]; cbn;
    try destruct (eq_str vo "default"); try destruct (eq_str ve "default");
    cbn; destruct (dict_contains "dataset" md); cbn;
    rewrite <- ?app_assoc; reflexivity.
Qed.

Lemma validate_metadata_warnings_witness :
  files packaged_with_dataset !! path_join "model" "MLmodel"
  = Some (PDict (dict_set "metadata" (PDict packaged_with_dataset_metadata)
                   sample_descriptor))
  ∧ dict_get "metadata"
      (dict_set "metadata" (PDict packaged_with_dataset_metadata)
         sample_descriptor)
    = Some (PDict packaged_with_dataset_metadata)
  ∧ METADATA_SCHEMA nested_env (PDict packaged_with_dataset_metadata) = true
  ∧ _get_field (PDict packaged_with_dataset_metadata) "request_schema.path"
      packaged_with_dataset
    = (Ok (PStr "artifacts/example_request.json"), packaged_with_dataset)
  ∧ files packaged_with_dataset
      !! path_join "model" "artifacts/example_request.json"
    = Some sample_request
  ∧ REQUEST_SCHEMA_SCHEMA nested_env sample_request = true
  ∧ validate_metadata nested_env "model" packaged_with_dataset
    = (Ok tt,
       printed packaged_with_dataset
         [nested_input_warning; nested_defaults_warning]).
Proof.
  repeat (split; [reflexivity|]).
  exact (validate_metadata_warnings nested_env "model" packaged_with_dataset
           (dict_set "metadata" (PDict packaged_with_dataset_metadata)
              sample_descriptor)
           packaged_with_dataset_metadata "artifacts/example_request.json"
           sample_request eq_refl eq_refl eq_refl eq_refl eq_refl eq_refl).
Defined.

(** X19.  When the metadata schema rejects the [metadata] entry of the
    descriptor ([None] if the descriptor has none), [validate_metadata]
    prints one line that names the MLmodel file and raises the
    [ValidationError]; the example request is not looked at. *)
Theorem validate_metadata_rejects_metadata (E : env) (mp : string) (w : world)
    (config : pydict) (metadata : pyval) :
  files w !! path_join mp "MLmodel" = Some (PDict config) →
  metadata = match dict_get "metadata" config with
             | Some v => v
             | None => PNone
             end →
  METADATA_SCHEMA E metadata = false →
  validate_metadata E mp w
  = (Raise (Exc ValidationError (validation_message E metadata)),
     printed w
       ["Error: (pynavio model validation) Error during MLmodel validation"]).
Proof.
  intros Hf -> Hms.
  unfold validate_metadata, _read_mlmodel_yaml.
  unfold bind at 1. unfold read_file. rewrite Hf.
  unfold bind at 1. cbn [py_get mret M_ret ret].
  unfold mbind, M_bind. unfold bind at 1.
  by rewrite validate_schema_rejects.
Qed.

Lemma validate_metadata_rejects_metadata_witness :
  files sample_model_world !! path_join "model" "MLmodel"
  = Some (PDict sample_descriptor)
  ∧ PNone = match dict_get "metadata" sample_descriptor with
            | Some v => v
            | None => PNone
            end
  ∧ METADATA_SCHEMA strict_metadata_env PNone = false
  ∧ validate_metadata strict_metadata_env "model" sample_model_world
    = (Raise (Exc ValidationError
                (validation_message strict_metadata_env PNone)),
       printed sample_model_world
         ["Error: (pynavio model validation) Error during MLmodel validation"]).
Proof.
  repeat (split; [reflexivity|]).
  exact (validate_metadata_rejects_metadata strict_metadata_env "model"
           sample_model_world sample_descriptor PNone eq_refl eq_refl eq_refl).
Defined.

(** ** Paths *)

Lemma has_char_app c (s t : string) :
  has_char c (s ++ t) = has_char c s || has_char c t.
Proof.
  induction s as [|a s IH]; [reflexivity|].
  rewrite string_app_cons. cbn [has_char]. by rewrite IH, orb_assoc.
Qed.

Lemma split_on_aux_no_sep sep acc s :
  has_char sep acc = false →
  Forall (fun x => has_char sep x = false) (split_on_aux sep acc s).
Proof.
  revert acc. induction s as [|c s IH]; intros acc Hacc; cbn [split_on_aux].
  - by constructor.
  - destruct (Ascii.eqb c sep) eqn:Hc.
    + constructor; [done|]. by apply IH.
    + apply IH. rewrite has_char_app, Hacc. cbn. by rewrite Hc.
Qed.

Lemma split_on_no_sep sep s :
  Forall (fun x => has_char sep x = false) (split_on sep s).
Proof. by apply split_on_aux_no_sep. Qed.

Lemma split_on_single sep x :
  has_char sep x = false → split_on sep x = [x].
Proof.
  intros Hx. unfold split_on. rewrite <- (string_app_nil_r x) at 1.
  by rewrite split_on_aux_segment.
Qed.

Lemma good_component_not_root x : good_component x → is_root x = false.
Proof.
  intros [_ Hx]. unfold is_root.
  destruct (String.eqb_spec x "/") as [->|_]; [discriminate Hx|].
  destruct (String.eqb_spec x "//") as [->|_]; [discriminate Hx|]. done.
Qed.

Lemma filter_components_good s :
  Forall good_component (List.filter is_component (split_on "/" s)).
Proof.
  pose proof (split_on_no_sep "/" s) as Hall.
  induction Hall as [|x l Hx _ IH]; cbn; [constructor|].
  destruct (is_component x) eqn:Hc; [|exact IH].
  constructor; [by split|exact IH].
Qed.

Lemma path_parts_wf s : wf_parts (path_parts s).
Proof.
  unfold path_parts. pose proof (filter_components_good s) as Hgood.
  assert (path_root s = [] ∨ path_root s = ["/"] ∨ path_root s = ["//"])
    as [-> | [-> | ->]].
  { unfold path_root. destruct s as [|c1 s]; [by left|].
    destruct (Ascii.eqb_spec c1 "/") as [->|Hc1];
      [|left; destruct c1 as [[] [] [] [] [] [] [] []]; try done].
    destruct s as [|c2 s]; [right; by left|].
    destruct (Ascii.eqb_spec c2 "/") as [->|Hc2];
      [|right; left; destruct c2 as [[] [] [] [] [] [] [] []]; try done].
    destruct s as [|c3 s]; [right; by right|].
    destruct (Ascii.eqb_spec c3 "/") as [->|Hc3];
      [right; by left|].
    right; right. destruct c3 as [[] [] [] [] [] [] [] []]; try done. }
  - cbn. destruct Hgood as [|x l Hx Hl]; cbn; [done|]. split; [by right|done].
  - cbn. split; [by left|done].
  - cbn. split; [by left|done].
Qed.

Lemma is_root_parts x : is_root x = true → path_parts x = [x].
Proof.
  unfold is_root. intros [->%String.eqb_eq| ->%String.eqb_eq]%orb_true_iff;
    reflexivity.
Qed.

Lemma good_component_first_char x :
  good_component x → ∃ c s, x = String c s ∧ c ≠ "/"%char.
Proof.
  intros [Hc Hx]. destruct x as [|c s]; [discriminate Hc|].
  exists c, s. split; [done|]. intros ->. discriminate Hx.
Qed.

Lemma path_root_not_slash c s : c ≠ "/"%char → path_root (String c s) = [].
Proof.
  intros Hc. unfold path_root.
  destruct c as [[] [] [] [] [] [] [] []]; try reflexivity. done.
Qed.

Lemma good_component_parts x : good_component x → path_parts x = [x].
Proof.
  intros Hx. destruct (good_component_first_char x Hx) as (c & s & -> & Hc).
  destruct Hx as [Hcomp Hsl]. unfold path_parts.
  rewrite path_root_not_slash by done.
  rewrite split_on_single by done. cbn [List.filter]. by rewrite Hcomp.
Qed.

Lemma joined_parts_components comps :
  Forall good_component comps → joined_parts comps = comps.
Proof.
  induction 1 as [|x comps Hx Hcomps IH]; [done|]. cbn [joined_parts].
  rewrite IH. destruct Hcomps as [|y comps Hy _].
  - by apply good_component_parts.
  - rewrite (good_component_not_root y Hy).
    by rewrite (good_component_parts x Hx).
Qed.

Lemma joined_parts_wf parts : wf_parts parts → joined_parts parts = parts.
Proof.
  destruct parts as [|x comps]; [done|]. intros [[Hx|Hx] Hcomps].
  - cbn [joined_parts]. rewrite (joined_parts_components _ Hcomps).
    destruct Hcomps as [|y comps Hy _].
    + by apply is_root_parts.
    + rewrite (good_component_not_root y Hy). by rewrite is_root_parts.
  - apply joined_parts_components. by constructor.
Qed.

Lemma wf_parts_take n parts : wf_parts parts → wf_parts (take n parts).
Proof.
  destruct parts as [|x comps]; [by destruct n|].
  destruct n as [|n]; [done|]. intros [Hx Hcomps]. cbn.
  split; [done|]. by apply Forall_take.
Qed.

Lemma filter_good_components comps :
  Forall good_component comps → List.filter is_component comps = comps.
Proof.
  induction 1 as [|x comps [Hx _] _ IH]; [done|]. cbn. by rewrite Hx, IH.
Qed.

Lemma split_on_leading_sep sep s :
  split_on sep (String sep s) = "" :: split_on sep s.
Proof. unfold split_on. cbn. by rewrite Ascii.eqb_refl. Qed.

Lemma components_of_join comps :
  Forall good_component comps →
  List.filter is_component (split_on "/" (join "/" comps)) = comps.
Proof.
  intros Hgood. destruct comps as [|x comps]; [reflexivity|].
  rewrite split_on_join; [by apply filter_good_components|done|].
  eapply Forall_impl; [exact Hgood|]. by intros y [_ Hy].
Qed.

Lemma join_components_first_char x comps :
  good_component x →
  ∃ c s, join "/" (x :: comps) = String c s ∧ c ≠ "/"%char.
Proof.
  intros (c & s & -> & Hc)%good_component_first_char.
  destruct comps as [|y comps]; cbn [join]; [eauto|].
  rewrite string_app_cons. eauto.
Qed.

(** Parsing what [str] printed gives the parts back. *)
Lemma path_parts_str parts :
  wf_parts parts → path_parts (path_str parts) = parts.
Proof.
  destruct parts as [|x comps]; [reflexivity|]. intros [[Hx|Hx] Hcomps].
  - unfold path_str. rewrite Hx. unfold path_parts.
    unfold is_root in Hx.
    apply orb_true_iff in Hx as [->%String.eqb_eq| ->%String.eqb_eq].
    + destruct Hcomps as [|y comps Hy Hcomps]; [reflexivity|].
      destruct (join_components_first_char y comps Hy) as (c & s & Hj & Hc).
      change ("/" ++ join "/" (y :: comps))
        with (String "/" (join "/" (y :: comps))).
      rewrite split_on_leading_sep. cbn [List.filter is_component String.eqb negb andb].
      rewrite components_of_join by (by constructor).
      rewrite Hj. unfold path_root.
      destruct c as [[] [] [] [] [] [] [] []]; try reflexivity. done.
    + destruct Hcomps as [|y comps Hy Hcomps]; [reflexivity|].
      destruct (join_components_first_char y comps Hy) as (c & s & Hj & Hc).
      change ("//" ++ join "/" (y :: comps))
        with (String "/" (String "/" (join "/" (y :: comps)))).
      rewrite !split_on_leading_sep.
      cbn [List.filter is_component String.eqb negb andb].
      rewrite components_of_join by (by constructor).
      rewrite Hj. unfold path_root.
      destruct c as [[] [] [] [] [] [] [] []]; try reflexivity. done.
  - unfold path_str. rewrite (good_component_not_root x Hx).
    destruct (join_components_first_char x comps Hx) as (c & s & Hj & Hc).
    unfold path_parts. rewrite components_of_join by (by constructor).
    rewrite Hj. by rewrite path_root_not_slash.
Qed.

(** ** _get_code_path *)

Lemma find_ext_in {A} (p q : A → bool) l :
  (∀ x, In x l → p x = q x) → List.find p l = List.find q l.
Proof.
  induction l as [|x l IH]; intros H; [done|]. cbn.
  rewrite (H x) by (by left). destruct (q x); [done|].
  apply IH. intros; apply H; by right.
Qed.

Lemma rev_seq_S n : rev (seq 0 (S n)) = n :: rev (seq 0 n).
Proof. rewrite seq_S, rev_app_distr. reflexivity. Qed.

Lemma find_last_occurrence (base : string) pre post :
  ¬ In base post →
  List.find (fun i => String.eqb (nth i (pre ++ base :: post) "") base)
    (rev (seq 0 (length (pre ++ base :: post))))
  = Some (length pre).
Proof.
  induction post as [|z post IH] using rev_ind; intros Hnot.
  - rewrite length_app. cbn [length].
    replace (length pre + 1)%nat with (S (length pre)) by lia.
    rewrite rev_seq_S. cbn [List.find].
    rewrite app_nth2 by lia. rewrite Nat.sub_diag. cbn [nth].
    by rewrite String.eqb_refl.
  - assert (¬ In base post ∧ z ≠ base) as [Hpost Hz].
    { split; [intros ?|intros ->]; apply Hnot, in_or_app; [by left|].
      right. by left. }
    replace (pre ++ base :: post ++ [z])%list
      with ((pre ++ base :: post) ++ [z])%list
      by (by rewrite <- app_assoc).
    rewrite (length_app (pre ++ base :: post) [z]). cbn [length].
    replace (length (pre ++ base :: post) + 1)%nat
      with (S (length (pre ++ base :: post))) by lia.
    rewrite rev_seq_S. cbn [List.find].
    rewrite app_nth2 by lia. rewrite Nat.sub_diag. cbn [nth].
    destruct (String.eqb_spec z base); [done|].
    rewrite <- (IH Hpost). apply find_ext_in.
    intros i Hi. apply in_rev, in_seq in Hi.
    by rewrite app_nth1 by lia.
Qed.

Lemma find_none_in {A} (p : A → bool) l :
  (∀ x, In x l → p x = false) → List.find p l = None.
Proof.
  induction l as [|x l IH]; intros H; [done|]. cbn.
  rewrite (H x) by (by left). apply IH. intros; apply H; by right.
Qed.

Lemma find_no_occurrence (base : string) parts :
  ¬ In base parts →
  List.find (fun i => String.eqb (nth i parts "") base)
    (rev (seq 0 (length parts))) = None.
Proof.
  intros Hnot. apply find_none_in. intros i Hi.
  apply in_rev, in_seq in Hi.
  destruct (String.eqb_spec (nth i parts "") base) as [Heq|]; [|done].
  destruct Hnot. rewrite <- Heq. apply nth_In. lia.
Qed.

Lemma first_part_of_module_name base rest :
  has_char "." base = false → base ≠ "" →
  next_where (fun part => negb (String.eqb part ""))
    (split_dot (base ++ "." ++ rest)) = Ok base
  ∧ next_where (fun part => negb (String.eqb part "")) (split_dot base)
    = Ok base.
Proof.
  intros Hdot Hne.
  rewrite (split_dot_segment base rest), (split_dot_single base) by done.
  unfold next_where. cbn [List.find].
  destruct (String.eqb_spec base "") as [Heq|_]; [by destruct Hne|].
  cbn [negb]. by split.
Qed.

Lemma take_through pre (base : string) post :
  take (length pre + 1) (pre ++ base :: post) = (pre ++ [base])%list.
Proof.
  rewrite take_app_ge by lia.
  replace (length pre + 1 - length pre)%nat with 1%nat by lia. reflexivity.
Qed.

Lemma get_code_path_unloaded sm module_name path base pre post :
  next_where (fun part => negb (String.eqb part "")) (split_dot module_name)
  = Ok base →
  sm !! base = None ∨ sm !! base = Some None →
  path_parts path = (pre ++ base :: post)%list →
  ¬ In base post →
  _get_code_path sm module_name path = Ok (path_str (pre ++ [base])).
Proof.
  intros Hfirst Hsm Hparts Hpost. unfold _get_code_path.
  rewrite Hfirst. cbn [obind].
  assert (wf_parts (pre ++ [base])) as Hwf.
  { rewrite <- (take_through pre base post), <- Hparts.
    apply wf_parts_take, path_parts_wf. }
  destruct Hsm as [-> | ->]; rewrite Hparts; unfold next_where;
    rewrite find_last_occurrence by done; cbn [obind];
    by rewrite take_through, joined_parts_wf.
Qed.

(** X20.  For a module that is not loaded, [_get_code_path] cuts the given
    path after the last component that bears the name of the module's top
    package: what follows that component is dropped, what precedes it is
    kept.  Asked again with its own answer, it gives the same answer. *)
Theorem get_code_path_fallback (sm : gmap string (option sys_module))
    (module_name path base : string) (pre post : list string) :
  next_where (fun part => negb (String.eqb part "")) (split_dot module_name)
  = Ok base →
  sm !! base = None ∨ sm !! base = Some None →
  path_parts path = (pre ++ base :: post)%list →
  ¬ In base post →
  _get_code_path sm module_name path = Ok (path_str (pre ++ [base]))
  ∧ _get_code_path sm module_name (path_str (pre ++ [base]))
    = Ok (path_str (pre ++ [base])).
Proof.
  intros Hfirst Hsm Hparts Hpost.
  split; [by eapply get_code_path_unloaded|].
  assert (wf_parts (pre ++ [base])) as Hwf.
  { rewrite <- (take_through pre base post), <- Hparts.
    apply wf_parts_take, path_parts_wf. }
  apply (get_code_path_unloaded sm module_name _ base pre [] Hfirst Hsm);
    [|by intros []].
  by rewrite path_parts_str.
Qed.

Lemma get_code_path_fallback_witness :
  next_where (fun part => negb (String.eqb part ""))
    (split_dot "pynavio.utils.common") = Ok "pynavio"
  ∧ ((∅ : gmap string (option sys_module)) !! "pynavio" = None
     ∨ (∅ : gmap string (option sys_module)) !! "pynavio" = Some None)
  ∧ path_parts "/home/dev/pynavio/src/pynavio/utils"
    = (["/"; "home"; "dev"; "pynavio"; "src"] ++ "pynavio" :: ["utils"])%list
  ∧ ¬ In "pynavio" ["utils"]
  ∧ _get_code_path ∅ "pynavio.utils.common" "/home/dev/pynavio/src/pynavio/utils"
    = Ok "/home/dev/pynavio/src/pynavio"
  ∧ _get_code_path ∅ "pynavio.utils.common" "/home/dev/pynavio/src/pynavio"
    = Ok "/home/dev/pynavio/src/pynavio".
Proof.
  assert (¬ In "pynavio" ["utils"]) as Hnot
    by (intros [H|[]]; discriminate H).
  split; [reflexivity|]. split; [left; reflexivity|].
  split; [reflexivity|]. split; [exact Hnot|].
  exact (get_code_path_fallback ∅ "pynavio.utils.common"
           "/home/dev/pynavio/src/pynavio/utils" "pynavio"
           ["/"; "home"; "dev"; "pynavio"; "src"] ["utils"]
           eq_refl (or_introl eq_refl) eq_refl Hnot).
Defined.

(** X21.  [_get_code_path] raises [StopIteration] when the module name has
    no non-empty part, and, for a module that is not loaded, when no
    component of the path bears the name of its top package. *)
Theorem get_code_path_stop_iteration (sm : gmap string (option sys_module))
    (module_name path base : string) :
  (List.find (fun part => negb (String.eqb part "")) (split_dot module_name)
   = None →
   _get_code_path sm module_name path = Raise StopIteration)
  ∧ (next_where (fun part => negb (String.eqb part "")) (split_dot module_name)
     = Ok base →
     sm !! base = None ∨ sm !! base = Some None →
     ¬ In base (path_parts path) →
     _get_code_path sm module_name path = Raise StopIteration).
Proof.
  split.
  - intros Hnone. unfold _get_code_path, next_where. by rewrite Hnone.
  - intros Hfirst Hsm Hnot. unfold _get_code_path. rewrite Hfirst.
    cbn [obind].
    destruct Hsm as [-> | ->]; unfold next_where;
      by rewrite find_no_occurrence.
Qed.

Lemma get_code_path_stop_iteration_witness :
  (List.find (fun part => negb (String.eqb part "")) (split_dot "..") = None
   ∧ _get_code_path ∅ ".." "/home/dev" = Raise StopIteration)
  ∧ (next_where (fun part => negb (String.eqb part "")) (split_dot "numpy.linalg")
     = Ok "numpy"
     ∧ ¬ In "numpy" (path_parts "/home/dev/project")
     ∧ _get_code_path ∅ "numpy.linalg" "/home/dev/project" = Raise StopIteration).
Proof.
  assert (¬ In "numpy" (path_parts "/home/dev/project")) as Hnot.
  { cbv. intros [H|[H|[H|[H|[]]]]]; discriminate H. }
  split.
  - split; [reflexivity|].
    exact (proj1 (get_code_path_stop_iteration ∅ ".." "/home/dev" "") eq_refl).
  - split; [reflexivity|]. split; [exact Hnot|].
    exact (proj2 (get_code_path_stop_iteration ∅ "numpy.linalg"
                    "/home/dev/project" "numpy")
             eq_refl (or_introl eq_refl) Hnot).
Defined.

(** X22.  For a module whose top package is loaded, the path handed in
    plays no part: the answer is the first entry of the package's
    [__path__], or the empty string when the loaded module has none (a
    plain module, a built-in). *)
Theorem get_code_path_loaded (sm : gmap string (option sys_module))
    (module_name path path' base : string) (module : sys_module) :
  next_where (fun part => negb (String.eqb part "")) (split_dot module_name)
  = Ok base →
  sm !! base = Some (Some module) →
  _get_code_path sm module_name path = _get_code_path sm module_name path'
  ∧ (∀ first others, __path__ module = Some (first :: others) →
                     _get_code_path sm module_name path = Ok first)
  ∧ (__path__ module = None ∨ __path__ module = Some [] →
     _get_code_path sm module_name path = Ok "").
Proof.
  intros Hfirst Hsm. unfold _get_code_path. rewrite Hfirst. cbn [obind].
  rewrite Hsm. split; [reflexivity|]. split.
  - by intros first others ->.
  - by intros [-> | ->].
Qed.

Lemma get_code_path_loaded_witness :
  next_where (fun part => negb (String.eqb part ""))
    (split_dot "pynavio.utils") = Ok "pynavio"
  ∧ ({[ "pynavio" := Some {| __path__ := Some ["/site/pynavio"];
                             __file__ := Some "/site/pynavio/__init__.py" |} ]}
       : gmap string (option sys_module)) !! "pynavio"
    = Some (Some {| __path__ := Some ["/site/pynavio"];
                    __file__ := Some "/site/pynavio/__init__.py" |})
  ∧ _get_code_path
      {[ "pynavio" := Some {| __path__ := Some ["/site/pynavio"];
                              __file__ := Some "/site/pynavio/__init__.py" |} ]}
      "pynavio.utils" "/elsewhere/utils"
    = Ok "/site/pynavio".
Proof.
  split; [reflexivity|]. split; [reflexivity|].
  exact (proj1 (proj2 (get_code_path_loaded
                         {[ "pynavio" := Some {| __path__ := Some ["/site/pynavio"];
                                                 __file__ := Some "/site/pynavio/__init__.py" |} ]}
                         "pynavio.utils" "/elsewhere/utils" "" "pynavio"
                         {| __path__ := Some ["/site/pynavio"];
                            __file__ := Some "/site/pynavio/__init__.py" |}
                         eq_refl eq_refl))
           "/site/pynavio" [] eq_refl).
Defined.

(** ** _is_not_in_ignore_paths *)

Lemma wf_parts_parent parts : wf_parts parts → wf_parts (path_parent parts).
Proof.
  intros Hwf. unfold path_parent.
  destruct parts as [|x [|y comps]]; [done| |].
  - destruct (is_root x) eqn:Hx; [|done]. cbn. by split; [left|].
  - assert (removelast (x :: y :: comps)
            = take (length (y :: comps)) (x :: y :: comps)) as ->.
    { clear Hwf. revert x y. induction comps as [|z comps IH]; intros x y;
        [reflexivity|].
      change (removelast (x :: y :: z :: comps))
        with (x :: removelast (y :: z :: comps)).
      rewrite IH. reflexivity. }
    by apply wf_parts_take.
Qed.

Lemma in_path_parents parts p :
  In p (path_parents parts)
  ↔ ∃ suffix,
      suffix ≠ [] ∧ parts = (p ++ suffix)%list
      ∧ (p = [] → ∀ x rest, parts = x :: rest → is_root x = false).
Proof.
  unfold path_parents. destruct parts as [|x comps].
  { split; [done|]. intros (suffix & Hne & Heq & _).
    by destruct p, suffix. }
  destruct (is_root x) eqn:Hx.
  - rewrite in_map_iff. split.
    + intros (k & <- & Hk). apply in_rev, in_seq in Hk.
      exists (drop k comps). split; [|split].
      * intros Hd. apply (f_equal length) in Hd.
        rewrite length_drop in Hd. cbn in Hd. lia.
      * cbn. by rewrite take_drop.
      * discriminate.
    + intros (suffix & Hne & Heq & Hroot). destruct p as [|y p].
      * specialize (Hroot eq_refl x comps eq_refl). congruence.
      * injection Heq as <- ->. exists (length p).
        split; [by rewrite take_app_length|].
        rewrite <- in_rev, in_seq, length_app.
        destruct suffix; [done|]. cbn. lia.
  - rewrite in_map_iff. split.
    + intros (k & <- & Hk). apply in_rev, in_seq in Hk.
      exists (drop k (x :: comps)). split; [|split].
      * intros Hd. apply (f_equal length) in Hd.
        rewrite length_drop in Hd. cbn in Hd. cbn in Hk. lia.
      * by rewrite take_drop.
      * intros _ x' rest [= <- _]. done.
    + intros (suffix & Hne & Heq & _). exists (length p).
      split; [by rewrite Heq, take_app_length|].
      rewrite <- in_rev, in_seq, Heq, length_app.
      destruct suffix; [done|]. cbn. lia.
Qed.

Lemma omap_pure {A B} (f : A → B) xs :
  omap (fun x => Ok (f x)) xs = Ok (map f xs).
Proof. induction xs as [|x xs IH]; cbn; [done|]. by rewrite IH. Qed.

(** X23.  A module is "in" an ignore path only when that path lies
    strictly above the directory of the module's file: the check answers
    [False] exactly when, for one of the ignore paths, the directory is that
    path followed by at least one more component.  A module that sits in
    the ignored directory itself is not taken to be in it. *)
Theorem is_not_in_ignore_paths_strict (module : sys_module) (file : string)
    (to_ignore_paths : list string) :
  __file__ module = Some file →
  file ≠ "" →
  ∃ answer,
    _is_not_in_ignore_paths module to_ignore_paths = Ok answer
    ∧ (answer = false
       ↔ ∃ to_ignore_path suffix,
           In to_ignore_path to_ignore_paths
           ∧ suffix ≠ []
           ∧ path_parent (path_parts file)
             = (path_parts to_ignore_path ++ suffix)%list
           ∧ (path_parts to_ignore_path = [] →
              ∀ x rest, path_parent (path_parts file) = x :: rest →
                        is_root x = false)).
Proof.
  intros Hfile Hne. unfold _is_not_in_ignore_paths, get_module_path.
  rewrite Hfile. destruct (String.eqb_spec file "") as [|_]; [done|].
  cbn [obind]. rewrite omap_pure. cbn [obind].
  eexists. split; [reflexivity|].
  rewrite negb_false_iff, existsb_exists.
  set (dir := path_parent (path_parts file)).
  assert (wf_parts dir) as Hwf by apply wf_parts_parent, path_parts_wf.
  split.
  - intros (b & Hin & Hb). unfold id in Hb. subst b.
    apply in_map_iff in Hin as (ig & Hhit & Hig).
    unfold in_parents in Hhit. rewrite path_parts_str in Hhit by done.
    apply existsb_exists in Hhit as (parent & Hparent & Heq).
    apply bool_decide_eq_true in Heq. subst parent.
    apply in_path_parents in Hparent as (suffix & ? & ? & ?).
    exists ig, suffix. done.
  - intros (ig & suffix & Hig & Hsuf & Heq & Hroot).
    exists true. split; [|done]. apply in_map_iff. exists ig.
    split; [|done]. unfold in_parents. rewrite path_parts_str by done.
    apply existsb_exists. exists (path_parts ig).
    split; [|by apply bool_decide_eq_true].
    apply in_path_parents. exists suffix. done.
Qed.

Lemma is_not_in_ignore_paths_strict_witness :
  __file__ {| __path__ := None; __file__ := Some "/venv/lib/pkg/mod.py" |}
  = Some "/venv/lib/pkg/mod.py"
  ∧ "/venv/lib/pkg/mod.py" ≠ ""
  ∧ _is_not_in_ignore_paths
      {| __path__ := None; __file__ := Some "/venv/lib/pkg/mod.py" |}
      ["/venv/lib/pkg"] = Ok true
  ∧ _is_not_in_ignore_paths
      {| __path__ := None; __file__ := Some "/venv/lib/pkg/mod.py" |}
      ["/venv"] = Ok false
  ∧ ∃ answer,
      _is_not_in_ignore_paths
        {| __path__ := None; __file__ := Some "/venv/lib/pkg/mod.py" |}
        ["/venv/lib/pkg"] = Ok answer
      ∧ (answer = false
         ↔ ∃ to_ignore_path suffix,
             In to_ignore_path ["/venv/lib/pkg"]
             ∧ suffix ≠ []
             ∧ path_parent (path_parts "/venv/lib/pkg/mod.py")
               = (path_parts to_ignore_path ++ suffix)%list
             ∧ (path_parts to_ignore_path = [] →
                ∀ x rest, path_parent (path_parts "/venv/lib/pkg/mod.py")
                          = x :: rest →
                          is_root x = false)).
Proof.
  split; [reflexivity|]. split; [discriminate|].
  split; [vm_compute; reflexivity|]. split; [vm_compute; reflexivity|].
  exact (is_not_in_ignore_paths_strict
           {| __path__ := None; __file__ := Some "/venv/lib/pkg/mod.py" |}
           "/venv/lib/pkg/mod.py" ["/venv/lib/pkg"] eq_refl
           ltac:(discriminate)).
Defined.

(** ** _read_metadata and _fetch_data *)

Lemma bind_ok_inv {A B} (m : M A) (k : A → M B) w b w2 :
  bind m k w = (Ok b, w2) →
  ∃ a w1, m w = (Ok a, w1) ∧ k a w1 = (Ok b, w2).
Proof.
  unfold bind. destruct (m w) as [[a|e] w1]; [eauto|discriminate].
Qed.

Lemma lift_ok_inv {A} (o : outcome A) w a w1 :
  lift o w = (Ok a, w1) → o = Ok a ∧ w1 = w.
Proof. unfold lift. by intros [= -> ->]. Qed.

Lemma omap_length {A B} (f : A → outcome B) xs ys :
  omap f xs = Ok ys → length ys = length xs.
Proof. intros H%omap_Forall2. symmetry. by eapply Forall2_length. Qed.

Section FetchDataProperties.
Context {DataFrame : Type}.
Context (read_csv : string → outcome DataFrame).
Context (background_rows : DataFrame → list pyval → outcome (list pyval)).

Lemma feature_entries_length data key key' xs ys :
  feature_entries data key = Ok xs →
  feature_entries data key' = Ok ys →
  length xs = length ys.
Proof.
  unfold feature_entries, obind.
  destruct (py_subscript data "featureColumns") as [fc|]; [|discriminate].
  destruct (py_iter fc) as [items|]; [|discriminate].
  intros Hx%omap_length Hy%omap_length. congruence.
Qed.

(** The first request body, and whether a second one follows. *)
Lemma fetch_data_inv mp w out w2 :
  _fetch_data read_csv background_rows mp w = (Ok out, w2) →
  ∃ meta w1 columns row columns' row' sampled,
    _read_metadata read_csv mp w = (Ok meta, w1)
    ∧ feature_entries (md_example_request meta) "name" = Ok columns
    ∧ feature_entries (md_example_request meta) "sampleData" = Ok row
    ∧ length columns' = length row'
    ∧ (length columns ≤ length columns')%nat
    ∧ out = PList
              (PDict [("columns", PList columns'); ("data", PList [PList row'])]
               :: if eq_str (md_explanation_format meta) "default"
                     || is_None (md_explanation_format meta)
                  then []
                  else match md_dataset meta with
                       | None => []
                       | Some _ =>
                           [PDict [("columns",
                                    PList (columns' ++ [PStr "is_background"]));
                                   ("data",
                                    PList (PList (row' ++ [PBool false])
                                           :: sampled))]]
                       end).
Proof.
  unfold _fetch_data. intros H.
  apply bind_ok_inv in H as (meta & w1 & Hmeta & H).
  apply bind_ok_inv in H as (columns & w1a & [Hcols ->]%lift_ok_inv & H).
  apply bind_ok_inv in H as (row & w1b & [Hrow ->]%lift_ok_inv & H).
  pose proof (feature_entries_length _ _ _ _ _ Hcols Hrow) as Hlen.
  apply bind_ok_inv in H as (has_dt & w1c & Hin & H).
  apply bind_ok_inv in H as ([columns' row'] & w1d & Hcr & H).
  assert (length columns' = length row'
          ∧ (length columns ≤ length columns')%nat) as [Hlen' Hle].
  { destruct has_dt.
    - apply bind_ok_inv in Hcr as (name & ? & _ & Hcr).
      apply bind_ok_inv in Hcr as (sample & ? & _ & Hcr).
      injection Hcr as <- <- _. rewrite !length_app. cbn. lia.
    - injection Hcr as <- <- _. lia. }
  cbn [fst snd] in H.
  exists meta, w1, columns, row, columns', row'.
  destruct (eq_str (md_explanation_format meta) "default"
            || is_None (md_explanation_format meta)).
  { injection H as <- _. exists []. done. }
  destruct (md_dataset meta) as [dataset|].
  - apply bind_ok_inv in H as (sampled & ? & _ & H).
    injection H as <- _. exists sampled. done.
  - injection H as <- _. exists []. done.
Qed.

Lemma read_metadata_explanation_format mp w meta w1 :
  _read_metadata read_csv mp w = (Ok meta, w1) →
  ∃ d, files w !! path_join mp "MLmodel" = Some (PDict d)
       ∧ md_explanation_format meta
         = field_of d "metadata.explanations.format".
Proof.
  unfold _read_metadata, _read_mlmodel_yaml. intros H.
  apply bind_ok_inv in H as (yml & w0 & Hyml & H).
  unfold read_file in Hyml.
  destruct (files w !! path_join mp "MLmodel") as [doc|] eqn:Hdoc;
    [|discriminate]. injection Hyml as <- <-.
  apply bind_ok_inv in H as (data_path & wa & Hdp & H).
  destruct doc as [| | | | | |d];
    try (rewrite get_field_not_dict in Hdp by (intros; discriminate);
         discriminate Hdp).
  exists d. split; [done|].
  apply bind_ok_inv in H as (joined & wb & _ & H).
  apply bind_ok_inv in H as (example_request & wc & _ & H).
  apply bind_ok_inv in H as (dataset & wd & _ & H).
  apply bind_ok_inv in H as (ef & we & Hef & H).
  rewrite get_field_dict in Hef. injection Hef as <- _.
  by injection H as <- _.
Qed.

End FetchDataProperties.

(** X24.  Whenever [_fetch_data] returns, it returns one or two request
    bodies, and in the first the single data row has as many entries as
    there are columns. *)
Theorem fetch_data_bodies {DataFrame : Type}
    (read_csv : string → outcome DataFrame)
    (background_rows : DataFrame → list pyval → outcome (list pyval))
    (mp : string) (w w2 : world) (out : pyval) :
  _fetch_data read_csv background_rows mp w = (Ok out, w2) →
  ∃ columns row rest,
    out = PList (PDict [("columns", PList columns);
                        ("data", PList [PList row])] :: rest)
    ∧ length columns = length row
    ∧ (length rest ≤ 1)%nat.
Proof.
  intros (meta & w1 & cols & row & columns' & row' & sampled & _ & _ & _
          & Hlen & _ & ->)%fetch_data_inv.
  eexists columns', row', _. split; [reflexivity|]. split; [done|].
  destruct (_ || _); [cbn; lia|]. destruct (md_dataset meta); cbn; lia.
Qed.

(** X25.  On a descriptor written by [_add_metadata] the explanation
    format the reader looks for is never there (the patch stores the mode
    as a plain string), so [_fetch_data], whenever it returns, returns a
    single request body: the second, explanation body is never built,
    dataset or not. *)
Theorem fetch_data_after_patch {DataFrame : Type}
    (read_csv : string → outcome DataFrame)
    (background_rows : DataFrame → list pyval → outcome (list pyval))
    (mp : string) (ds : option pydict) (ex oo : option string) (g : option Z)
    (w w' w2 : world) (r : option pydict) (out : pyval) :
  _add_metadata mp ds ex oo g w = (Ok r, w') →
  _fetch_data read_csv background_rows mp w' = (Ok out, w2) →
  ∃ body, out = PList [body].
Proof.
  intros (d & n & Hf & _ & _ & _ & _ & _ & ->)%add_metadata_ok_inv.
  intros (meta & w1 & cols & row & columns' & row' & sampled & Hmeta & _ & _
          & _ & _ & ->)%fetch_data_inv.
  apply read_metadata_explanation_format in Hmeta as (d' & Hd' & Hef).
  cbn [files with_file] in Hd'. rewrite lookup_insert_eq in Hd'.
  injection Hd' as <-.
  assert (md_explanation_format meta = PNone) as ->.
  { rewrite Hef. unfold field_of.
    assert (split_dot "metadata.explanations.format"
            = ["metadata"; "explanations"; "format"]) as -> by reflexivity.
    cbn [hd tl]. rewrite dict_get_set_eq. cbn [_get_field_loop].
    unfold patched_metadata.
    destruct (0 <? n);
      rewrite ?(dict_get_set_ne "explanations" "gpus") by discriminate;
      rewrite (dict_get_set_ne "explanations" "oodDetection") by discriminate;
      by rewrite dict_get_set_eq. }
  cbn. eauto.
Qed.

Lemma fetch_data_bodies_witness :
  _fetch_data (DataFrame:=unit) (fun _ => Ok tt) (fun _ _ => Ok [])
    "model" packaged_world
  = (Ok (PList [PDict [("columns", PList [PStr "x"]);
                       ("data", PList [PList [PInt 1]])]]),
     packaged_world)
  ∧ ∃ columns row rest,
      PList [PDict [("columns", PList [PStr "x"]);
                    ("data", PList [PList [PInt 1]])]]
      = PList (PDict [("columns", PList columns);
                      ("data", PList [PList row])] :: rest)
      ∧ length columns = length row
      ∧ (length rest ≤ 1)%nat.
Proof.
  assert (_fetch_data (DataFrame:=unit) (fun _ => Ok tt) (fun _ _ => Ok [])
            "model" packaged_world
          = (Ok (PList [PDict [("columns", PList [PStr "x"]);
                               ("data", PList [PList [PInt 1]])]]),
             packaged_world)) as H by (vm_compute; reflexivity).
  split; [exact H|].
  exact (fetch_data_bodies _ _ _ _ _ _ H).
Defined.

Lemma fetch_data_after_patch_witness :
  _add_metadata "model" None (Some "plotly") None (Some 0) sample_request_world
  = (Ok None,
     snd (_add_metadata "model" None (Some "plotly") None (Some 0)
            sample_request_world))
  ∧ _fetch_data (DataFrame:=unit) (fun _ => Ok tt) (fun _ _ => Ok [])
      "model"
      (snd (_add_metadata "model" None (Some "plotly") None (Some 0)
              sample_request_world))
    = (Ok (PList [PDict [("columns", PList [PStr "x"]);
                         ("data", PList [PList [PInt 1]])]]),
       snd (_add_metadata "model" None (Some "plotly") None (Some 0)
              sample_request_world))
  ∧ ∃ body,
      PList [PDict [("columns", PList [PStr "x"]);
                    ("data", PList [PList [PInt 1]])]]
      = PList [body].
Proof.
  assert (_add_metadata "model" None (Some "plotly") None (Some 0)
            sample_request_world
          = (Ok None,
             snd (_add_metadata "model" None (Some "plotly") None (Some 0)
                    sample_request_world))) as H1 by (vm_compute; reflexivity).
  assert (_fetch_data (DataFrame:=unit) (fun _ => Ok tt) (fun _ _ => Ok [])
            "model"
            (snd (_add_metadata "model" None (Some "plotly") None (Some 0)
                    sample_request_world))
          = (Ok (PList [PDict [("columns", PList [PStr "x"]);
                               ("data", PList [PList [PInt 1]])]]),
             snd (_add_metadata "model" None (Some "plotly") None (Some 0)
                    sample_request_world))) as H2 by (vm_compute; reflexivity).
  split; [exact H1|]. split; [exact H2|].
  exact (fetch_data_after_patch _ _ _ _ _ _ _ _ _ _ _ _ H1 H2).
Defined.

Lemma bind_ok {A B} (m : M A) (k : A → M B) w a w1 :
  m w = (Ok a, w1) → bind m k w = k a w1.
Proof. intros H. unfold bind. by rewrite H. Qed.

Lemma column_entries row names specs :
  Forall2 (fun name spec => _column_spec row name None = Ok spec) names specs →
  omap (fun x => py_subscript x "name") specs = Ok (map PStr names)
  ∧ omap (fun x => py_subscript x "sampleData") specs
    = Ok (map (row_value row) names).
Proof.
  induction 1 as [|name spec names specs Hspec _ [IHn IHs]]; [done|].
  apply column_spec_untyped in Hspec as (v & ty & Hv & _ & ->).
  cbn [omap map]. unfold obind. rewrite IHn, IHs.
  unfold row_value. rewrite Hv. done.
Qed.

Lemma make_example_request_datetime row target c mr ex :
  make_example_request row target (Some c) mr = Ok ex →
  is_Some (dict_get c row).
Proof.
  unfold make_example_request, obind.
  destruct (oassert _ _); [|discriminate].
  destruct (omap _ _); [|discriminate].
  destruct (_column_spec row target None); [|discriminate].
  destruct (_column_spec row c (Some "timestamp")) as [s|] eqn:Hc;
    [|discriminate].
  apply column_spec_timestamp in Hc as (v & Hv & _). eauto.
Qed.

(** X26.  From [make_example_request] to the request body: when the
    example request a model directory holds was made by
    [make_example_request] from a row, and no dataset is recorded, the body
    [_fetch_data] builds has the feature columns of the row in the order of
    the row, then the datetime column if there is one, each with the row's
    value; the target is left out. *)
Theorem fetch_data_of_example_request {DataFrame : Type}
    (read_csv : string → outcome DataFrame)
    (background_rows : DataFrame → list pyval → outcome (list pyval))
    (mp : string) (w : world) (config : pydict) (request_path : string)
    (row : pydict) (target : string) (datetime_column : option string)
    (min_rows : option Z) (ex : pyval) :
  files w !! path_join mp "MLmodel" = Some (PDict config) →
  _get_field (PDict config) "metadata.dataset.path" w = (Ok PNone, w) →
  _get_field (PDict config) "metadata.request_schema.path" w
  = (Ok (PStr request_path), w) →
  files w !! path_join mp request_path = Some ex →
  make_example_request row target datetime_column min_rows = Ok ex →
  _fetch_data read_csv background_rows mp w
  = (Ok (PList
           [PDict [("columns",
                    PList (map PStr (body_columns row target datetime_column)));
                   ("data",
                    PList [PList (map (row_value row)
                                    (body_columns row target datetime_column))])]]),
     w).
Proof.
  intros Hf Hdp Hrp Hreq Hex.
  assert (_read_metadata read_csv mp w
          = (Ok {| md_dataset := None;
                   md_explanation_format :=
                     field_of config "metadata.explanations.format";
                   md_example_request := ex |}, w)) as Hmeta.
  { unfold _read_metadata, _read_mlmodel_yaml.
    unfold bind at 1. unfold read_file at 1. rewrite Hf.
    rewrite (bind_ok _ _ _ _ _ Hdp). cbn [is_None].
    unfold bind at 1. cbn [mret M_ret ret].
    unfold _read_example_request.
    unfold bind at 1. unfold bind at 1. rewrite Hrp.
    unfold bind at 1. cbn [path_join_val mret M_ret ret].
    unfold read_file. rewrite Hreq.
    unfold bind at 1. cbn [mret M_ret ret].
    by rewrite (bind_ok _ _ _ _ _ (get_field_dict _ _ _)). }
  unfold _fetch_data. rewrite (bind_ok _ _ _ _ _ Hmeta).
  cbn [md_example_request md_explanation_format md_dataset].
  pose proof Hex as (features & tspec & Hfeat & _ & ->)%make_example_request_inv.
  apply omap_Forall2 in Hfeat.
  destruct (column_entries _ _ _ Hfeat) as [Hnames Hsamples].
  assert (∀ key, feature_entries
                   (PDict
                      ([("featureColumns", PList features);
                        ("targetColumns", PList [tspec])] ++
                       match datetime_column with
                       | Some c =>
                           match dict_get c row with
                           | Some v =>
                               [("dateTimeColumn",
                                 column_spec_of c v "timestamp")]
                           | None => []
                           end ++
                           match min_rows with
                           | Some n => [("minimumNumberRows", PInt n)]
                           | None => []
                           end
                       | None => []
                       end)) key
                 = omap (fun x => py_subscript x key) features) as Hentries
    by reflexivity.
  unfold bind at 1. unfold lift at 1. rewrite Hentries, Hnames.
  unfold bind at 1. unfold lift at 1. rewrite Hentries, Hsamples.
  unfold bind at 1. unfold body_columns.
  destruct datetime_column as [c|].
  - destruct (make_example_request_datetime _ _ _ _ _ Hex) as [v Hv].
    rewrite Hv. cbn -[List.filter is_feature]. unfold row_value at 2.
    rewrite !map_app. cbn [map]. unfold row_value at 3. rewrite Hv.
    by destruct (eq_str _ _ || is_None _).
  - cbn -[List.filter is_feature]. rewrite !app_nil_r.
    by destruct (eq_str _ _ || is_None _).
Qed.

Lemma fetch_data_of_example_request_witness :
  files packaged_world !! path_join "model" "MLmodel"
  = Some (PDict (dict_set "metadata"
                   (PDict (patched_metadata sample_descriptor None None None 0))
                   sample_descriptor))
  ∧ _get_field
      (PDict (dict_set "metadata"
                (PDict (patched_metadata sample_descriptor None None None 0))
                sample_descriptor)) "metadata.dataset.path" packaged_world
    = (Ok PNone, packaged_world)
  ∧ _get_field
      (PDict (dict_set "metadata"
                (PDict (patched_metadata sample_descriptor None None None 0))
                sample_descriptor)) "metadata.request_schema.path" packaged_world
    = (Ok (PStr "artifacts/example_request.json"), packaged_world)
  ∧ files packaged_world !! path_join "model" "artifacts/example_request.json"
    = Some sample_request
  ∧ make_example_request [("x", PInt 1); ("y", PInt 0)] "y" None None
    = Ok sample_request
  ∧ _fetch_data (DataFrame:=unit) (fun _ => Ok tt) (fun _ _ => Ok [])
      "model" packaged_world
    = (Ok (PList
             [PDict [("columns",
                      PList (map PStr
                               (body_columns [("x", PInt 1); ("y", PInt 0)]
                                  "y" None)));
                     ("data",
                      PList [PList (map (row_value [("x", PInt 1); ("y", PInt 0)])
                                      (body_columns
                                         [("x", PInt 1); ("y", PInt 0)]
                                         "y" None))])]]),
       packaged_world).
Proof.
  repeat (split; [reflexivity|]).
  exact (fetch_data_of_example_request (DataFrame:=unit)
           (fun _ => Ok tt) (fun _ _ => Ok []) "model" packaged_world
           (dict_set "metadata"
              (PDict (patched_metadata sample_descriptor None None None 0))
              sample_descriptor)
           "artifacts/example_request.json"
           [("x", PInt 1); ("y", PInt 0)] "y" None None sample_request
           eq_refl eq_refl eq_refl eq_refl eq_refl).
Defined.
